(** * Meeting-minutes generator: a shallow embedding of [minNode.py] and
    [minApp.py]

    The development follows the two source files.

    - [PyStr]: Python [str] values as sequences of Unicode code points, with
      the builtins the code relies on ([str.strip], [str.join], truthiness).
    - [Json]: the values [json.loads] can produce, with [str()] and
      iteration as Python defines them on those values.
    - [Node]: [minNode.py] -- the [OpenAIClient] class, written in a small
      state-and-exception monad that also logs every network call, and the
      two document extractors.
    - [App]: [minApp.py] -- [format_minutes_as_markdown].
    - [Page]: [minApp.py] -- [get_openai_client] and the script [main],
      over a session that holds the cached instance, the kept minutes
      and the elements shown; the widgets' values are inputs of a run.

    Library code that is not part of the repository (the provider SDK, the
    JSON parser, [repr] of strings and floats, python-docx, PyPDF2) is taken
    as a parameter: records [Builtins] and [Provider], and the document
    types handed to the extractors. *)

From Stdlib Require Import List NArith ZArith String Ascii Bool.
From Stdlib Require Import Permutation DecimalString SpecFloat QArith.
Import ListNotations.


Set Warnings "-register-all".

(* ================================================================== *)
(** ** Python strings *)
(* ================================================================== *)

Module PyStr.

Local Open Scope N_scope.

(** A Python [str] is a sequence of code points. *)
Definition char := N.
Definition str := list char.

(** A string literal of the source whose characters are all ASCII. *)
Definition lit (s : string) : str :=
  List.map N_of_ascii (list_ascii_of_string s).

(** [a == b] for strings. *)
Fixpoint eqb (a b : str) : bool :=
  match a, b with
  | [], [] => true
  | x :: a', y :: b' => (x =? y) && eqb a' b'
  | _, _ => false
  end.

(** [str.isspace] on one code point, as CPython's
    [_PyUnicode_IsWhitespace]: the characters [str.strip()] removes. *)
Definition isspace (c : char) : bool :=
  ((0x9 <=? c) && (c <=? 0xD)) || ((0x1C <=? c) && (c <=? 0x20))
  || (c =? 0x85) || (c =? 0xA0) || (c =? 0x1680)
  || ((0x2000 <=? c) && (c <=? 0x200A))
  || (c =? 0x2028) || (c =? 0x2029) || (c =? 0x202F)
  || (c =? 0x205F) || (c =? 0x3000).

(** [s.lstrip()]: drop the leading whitespace. *)
Fixpoint lstrip (s : str) : str :=
  match s with
  | [] => []
  | c :: s' => if isspace c then lstrip s' else s
  end.

(** [s.rstrip()]: drop the trailing whitespace. *)
Fixpoint rstrip (s : str) : str :=
  match s with
  | [] => []
  | c :: s' =>
      match rstrip s' with
      | [] => if isspace c then [] else [c]
      | r => c :: r
      end
  end.

(** [s.strip()] *)
Definition strip (s : str) : str := rstrip (lstrip s).

(** [sep.join(parts)] *)
Fixpoint join (sep : str) (parts : list str) : str :=
  match parts with
  | [] => []
  | [p] => p
  | p :: rest => p ++ sep ++ join sep rest
  end.

(** The newline and the double-quote character. *)
Definition nl : str := [10].
Definition dq : str := [34].

(** Truthiness of a string: [bool(s)] is [len(s) != 0]. *)
Definition nonempty (s : str) : bool :=
  match s with [] => false | _ :: _ => true end.

(** [str(n)] for a Python [int] within the interpreter's limit on
    int-to-str conversion (see [Json.within_digit_limit]); past the
    limit CPython raises [ValueError] instead. *)
Definition of_int (z : Z) : str := lit (NilZero.string_of_int (Z.to_int z)).

(** [needle in s] for strings. *)
Fixpoint prefixb (p s : str) : bool :=
  match p, s with
  | [], _ => true
  | a :: p', b :: s' => (a =? b) && prefixb p' s'
  | _ :: _, [] => false
  end.

Fixpoint contains (needle s : str) : bool :=
  prefixb needle s ||
  match s with
  | [] => false
  | _ :: s' => contains needle s'
  end.

End PyStr.

Import PyStr.

(* ================================================================== *)
(** ** Values produced by [json.loads] *)
(* ================================================================== *)

Module Json.

(** [json.loads] yields [None], [bool], [int], [float], [str], [list]
    and [dict] (with [str] keys, in insertion order). *)
Inductive value : Type :=
| VNone
| VBool (b : bool)
| VInt (z : Z)
| VFloat (f : spec_float)
| VStr (s : str)
| VList (l : list value)
| VDict (d : list (str * value)).

Definition dict := list (str * value).

(** The parts of [repr] that live in the interpreter's Unicode and
    floating-point tables. *)
Record Builtins : Type := {
  repr_str : str -> str;          (* repr(s) for a str: quoting, escapes *)
  repr_float : spec_float -> str  (* repr(x) for a float *)
}.

(** [type(v).__name__] *)
Definition type_name (v : value) : str :=
  match v with
  | VNone => lit "NoneType"
  | VBool _ => lit "bool"
  | VInt _ => lit "int"
  | VFloat _ => lit "float"
  | VStr _ => lit "str"
  | VList _ => lit "list"
  | VDict _ => lit "dict"
  end.

Section WithBuiltins.
Variable B : Builtins.

(** [repr(v)] *)
Fixpoint repr (v : value) : str :=
  match v with
  | VNone => lit "None"
  | VBool true => lit "True"
  | VBool false => lit "False"
  | VInt z => of_int z
  | VFloat f => repr_float B f
  | VStr s => repr_str B s
  | VList l => lit "[" ++ join (lit ", ") (List.map repr l) ++ lit "]"
  | VDict d =>
      lit "{" ++
      join (lit ", ")
        (List.map (fun kv => match kv with
                             | (k, x) => repr_str B k ++ lit ": " ++ repr x
                             end) d)
      ++ lit "}"
  end.

(** [str(v)]; also what an f-string replacement field [{v}] inserts. *)
Definition py_str (v : value) : str :=
  match v with
  | VStr s => s
  | _ => repr v
  end.
End WithBuiltins.

(** [bool(v)] *)
Definition truthy (v : value) : bool :=
  match v with
  | VNone => false
  | VBool b => b
  | VInt z => negb (z =? 0)%Z
  | VFloat (S754_zero _) => false
  | VFloat _ => true
  | VStr s => nonempty s
  | VList l => match l with [] => false | _ => true end
  | VDict d => match d with [] => false | _ => true end
  end.

(** [d.get(key)]: the value stored under [key], if any. *)
Fixpoint lookup (key : str) (d : dict) : option value :=
  match d with
  | [] => None
  | (k, v) :: d' => if PyStr.eqb k key then Some v else lookup key d'
  end.

(** [d.get(key, default)] *)
Definition get (d : dict) (key : str) (default : value) : value :=
  match lookup key d with
  | Some v => v
  | None => default
  end.

(** [list(d.keys())] *)
Definition keys (d : dict) : list str := List.map fst d.

(** What [for x in v] visits: the elements of a list, the characters of
    a string, the keys of a dict; [None] when [v] is not iterable. *)
Definition iter (v : value) : option (list value) :=
  match v with
  | VList l => Some l
  | VStr s => Some (List.map (fun c => VStr [c]) s)
  | VDict d => Some (List.map VStr (keys d))
  | VNone | VBool _ | VInt _ | VFloat _ => None
  end.

(** The interpreter's limit on int-to-str conversion
    ([sys.int_info.default_max_str_digits]): [str], [repr] and f-strings
    raise [ValueError] on an int of more decimal digits.  [json.loads]
    converts under the same limit, so every int of a parsed response is
    within it. *)
Definition max_str_digits : Z := 4300.

Definition int_within_limit (z : Z) : bool :=
  (Z.abs z <? 10 ^ max_str_digits)%Z.

(** Every int in [v], at any depth, is within the limit. *)
Fixpoint within_digit_limit (v : value) : bool :=
  match v with
  | VInt z => int_within_limit z
  | VList l => forallb within_digit_limit l
  | VDict d =>
      forallb (fun kv => match kv with
                         | (_, x) => within_digit_limit x
                         end) d
  | VNone | VBool _ | VFloat _ | VStr _ => true
  end.

End Json.

Import Json.

(* ================================================================== *)
(** ** Exceptions and the state-and-exception monad *)
(* ================================================================== *)

Module Exc.

(** A raised exception: its class name, whether the class derives from
    [Exception] (what [except Exception] catches; [KeyboardInterrupt]
    and [SystemExit] do not), and [str(e)]. *)
Record exn : Type := {
  cls : str;
  is_Exception : bool;
  message : str
}.

Definition TypeError (msg : str) : exn :=
  {| cls := lit "TypeError"; is_Exception := true; message := msg |}.
Definition AttributeError (msg : str) : exn :=
  {| cls := lit "AttributeError"; is_Exception := true; message := msg |}.
Definition IndexError (msg : str) : exn :=
  {| cls := lit "IndexError"; is_Exception := true; message := msg |}.

(** The outcome of evaluating an expression or a call. *)
Inductive outcome (A : Type) : Type :=
| Return (a : A)
| Raise (e : exn).
Arguments Return {A} a.
Arguments Raise {A} e.

Definition obind {A C} (o : outcome A) (k : A -> outcome C) : outcome C :=
  match o with
  | Return a => k a
  | Raise e => Raise e
  end.

(** [try: body / except Exception: handler] for pure code. *)
Definition otry {A} (body : outcome A) (handler : exn -> outcome A) : outcome A :=
  match body with
  | Return a => Return a
  | Raise e => if is_Exception e then handler e else Raise e
  end.

(** Computations over a mutable state [S] that may raise. *)
Definition M (S A : Type) : Type := S -> outcome A * S.

Definition ret {S A} (a : A) : M S A := fun s => (Return a, s).

Definition bind {S A C} (c : M S A) (k : A -> M S C) : M S C :=
  fun s =>
    match c s with
    | (Return a, s') => k a s'
    | (Raise e, s') => (Raise e, s')
    end.

Definition raise {S A} (e : exn) : M S A := fun s => (Raise e, s).

Definition lift {S A} (o : outcome A) : M S A := fun s => (o, s).

Definition gets {S A} (f : S -> A) : M S A := fun s => (Return (f s), s).

Definition modify {S} (f : S -> S) : M S unit := fun s => (Return tt, f s).

(** [try: body / except Exception as e: handler e]; the state changes
    the body made before raising are kept. *)
Definition try_except {S A} (body : M S A) (handler : exn -> M S A) : M S A :=
  fun s =>
    match body s with
    | (Return a, s') => (Return a, s')
    | (Raise e, s') => if is_Exception e then handler e s' else (Raise e, s')
    end.

(** [minutes.get(key, default)] on whatever [json.loads] returned: only
    a dict has the method. *)
Definition dot_get (minutes : value) (key : str) (default : value)
  : outcome value :=
  match minutes with
  | VDict d => Return (get d key default)
  | v =>
      Raise (AttributeError
        (lit "'" ++ type_name v ++ lit "' object has no attribute 'get'"))
  end.

(** [for x in v]: the items visited, or the [TypeError] Python raises. *)
Definition iterate (v : value) : outcome (list value) :=
  match iter v with
  | Some l => Return l
  | None =>
      Raise (TypeError
        (lit "'" ++ type_name v ++ lit "' object is not iterable"))
  end.

End Exc.

Import Exc.

Declare Scope py_scope.
Delimit Scope py_scope with py.
Notation "x <- c ;; k" := (bind c (fun x => k))
  (at level 61, c at next level, right associativity) : py_scope.
Notation "c ;; k" := (bind c (fun _ => k))
  (at level 61, right associativity) : py_scope.
Notation "x <~ c ;; k" := (obind c (fun x => k))
  (at level 61, c at next level, right associativity) : py_scope.

(* ================================================================== *)
(** ** [minNode.py] *)
(* ================================================================== *)

Module Node.

Local Open Scope py_scope.

(** *** The provider SDK, as the code uses it *)

(** An [openai.OpenAI] client object. *)
Record OpenAI : Type := {
  api_key : str;
  base_url : option str
}.

Record ChatMessage : Type := {
  role : str;
  content : str
}.

(** The keyword arguments of [chat.completions.create]. *)
Record Request : Type := {
  req_model : str;
  req_messages : list ChatMessage;
  req_temperature : Q;
  req_max_tokens : Z;
  req_response_format : list (str * str)
}.

(** [response.choices[i].message.content], which may be [None]. *)
Record Choice : Type := {
  message_content : option str
}.

Record Response : Type := {
  choices : list Choice
}.

(** What lies outside the repository: the process environment, the SDK
    and the JSON parser.  Each may raise. *)
Record Provider : Type := {
  getenv : str -> option str;                          (* os.getenv(name) *)
  OpenAI_new : str -> option str -> outcome OpenAI;    (* OpenAI(api_key=, base_url=) *)
  models_list : OpenAI -> outcome unit;                (* client.models.list() *)
  chat_completions_create : OpenAI -> Request -> outcome Response;
  json_loads_str : str -> outcome value                (* json.loads(s), s a str *)
}.

(** A request sent to the provider over the network. *)
Inductive NetCall : Type :=
| ModelsList (c : OpenAI)
| ChatCompletionsCreate (c : OpenAI) (r : Request).

(** *** class OpenAIClient *)

(** The attributes of an [OpenAIClient] instance. *)
Record OpenAIClient : Type := {
  client : option OpenAI;
  model : str;
  last_error : option str
}.

(** The state a method runs in: the instance and the log of network
    calls attempted so far (oldest first). *)
Record World : Type := {
  self : OpenAIClient;
  network : list NetCall
}.

Definition set_client (c : option OpenAI) : M World unit :=
  modify (fun w =>
    {| self := {| client := c; model := model (self w);
                  last_error := last_error (self w) |};
       network := network w |}).

Definition set_model (m : str) : M World unit :=
  modify (fun w =>
    {| self := {| client := client (self w); model := m;
                  last_error := last_error (self w) |};
       network := network w |}).

Definition set_last_error (e : option str) : M World unit :=
  modify (fun w =>
    {| self := {| client := client (self w); model := model (self w);
                  last_error := e |};
       network := network w |}).

(** Perform a network call: log it, then take the provider's answer. *)
Definition net {A} (call : NetCall) (answer : outcome A) : M World A :=
  modify (fun w => {| self := self w; network := network w ++ [call] |}) ;;
  lift answer.

(** Truthiness of an [Optional[str]]. *)
Definition truthy_opt (s : option str) : bool :=
  match s with
  | Some s => nonempty s
  | None => false
  end.

(** [a or b] on optional strings. *)
Definition or_opt (a b : option str) : option str :=
  if truthy_opt a then a else b.

(** [json.loads(x)] where [x] may be [None]. *)
Definition json_loads (P : Provider) (x : option str) : outcome value :=
  match x with
  | Some s => json_loads_str P s
  | None =>
      Raise (TypeError
        (lit "the JSON object must be str, bytes or bytearray, not NoneType"))
  end.

(** [xs[0]] *)
Definition index0 {A} (xs : list A) : outcome A :=
  match xs with
  | x :: _ => Return x
  | [] => Raise (IndexError (lit "list index out of range"))
  end.

Section Client.
Variable B : Builtins.
Variable P : Provider.

Definition _init_client (api_key : option str) (base_url : option str)
  : M World unit :=
  try_except
    (if negb (truthy_opt api_key) then
       set_client None ;;
       set_last_error (Some (lit "OPENAI_API_KEY is missing"))
     else
       let key := match api_key with Some k => k | None => [] end in
       c <- lift (if truthy_opt base_url
                  then OpenAI_new P key base_url
                  else OpenAI_new P key None) ;;
       set_client (Some c) ;;
       set_last_error None)
    (fun e =>
       set_client None ;;
       set_last_error
         (Some (lit "Failed to initialize OpenAI client: " ++ message e))).

(** The constructor, run on a fresh instance. *)
Definition __init__ (api_key : option str) (base_url : option str)
  : M World unit :=
  set_client None ;;
  set_model (match getenv P (lit "OPENAI_MODEL") with
             | Some m => m
             | None => lit "gpt-4o-mini"
             end) ;;
  set_last_error None ;;
  let key := or_opt api_key (getenv P (lit "OPENAI_API_KEY")) in
  _init_client key (or_opt base_url (getenv P (lit "OPENAI_BASE_URL"))).

Definition set_api_key (api_key : str) : M World bool :=
  _init_client (Some api_key) None ;;
  c <- gets (fun w => client (self w)) ;;
  ret (match c with Some _ => true | None => false end).

Definition test_connection : M World (bool * str) :=
  c <- gets (fun w => client (self w)) ;;
  match c with
  | None =>
      e <- gets (fun w => last_error (self w)) ;;
      ret (false,
           match or_opt e (Some (lit "OpenAI client is not initialized")) with
           | Some m => m
           | None => []
           end)
  | Some c =>
      try_except
        (net (ModelsList c) (models_list P c) ;;
         ret (true, lit "Connection successful"))
        (fun e =>
           set_last_error (Some (message e)) ;;
           m <- gets (fun w => last_error (self w)) ;;
           ret (false, match m with Some m => m | None => [] end))
  end.

(** The system prompt, line by line. *)
Definition _get_system_prompt : str :=
  join nl
    [ lit "You are an intelligent assistant that analyzes conversations and generates a structured summary in JSON format. Your goal is to extract the most important information, focusing on clarity and factual accuracy based on the provided transcript.";
      [];
      lit "Required JSON structure:";
      lit "{";
      lit "  " ++ dq ++ lit "summary" ++ dq ++ lit ": " ++ dq ++ lit "A concise, 2-4 sentence summary of the entire conversation's purpose and flow." ++ dq ++ lit ",";
      lit "  " ++ dq ++ lit "participants" ++ dq ++ lit ": [" ++ dq ++ lit "Name 1 (Role, if specified)" ++ dq ++ lit ", " ++ dq ++ lit "Name 2 (Role, if specified)" ++ dq ++ lit "],";
      lit "  " ++ dq ++ lit "discussion_points" ++ dq ++ lit ": [";
      lit "    " ++ dq ++ lit "A key topic or question that was discussed." ++ dq ++ lit ",";
      lit "    " ++ dq ++ lit "Another significant point of discussion." ++ dq;
      lit "  ],";
      lit "  " ++ dq ++ lit "outcomes_or_decisions" ++ dq ++ lit ": [";
      lit "    " ++ dq ++ lit "Any final decisions, conclusions, or results from the conversation." ++ dq;
      lit "  ],";
      lit "  " ++ dq ++ lit "next_steps" ++ dq ++ lit ": [";
      lit "    " ++ dq ++ lit "Any explicit mentions of future actions or follow-ups." ++ dq;
      lit "  ]";
      lit "}";
      [];
      lit "Rules:";
      lit "- ALWAYS output a valid JSON object.";
      lit "- If a section has no relevant information (e.g., no decisions were made), use an empty list [].";
      lit "- Extract participant names and their roles if mentioned (e.g., " ++ dq ++ lit "Cate (Material Science)" ++ dq ++ lit ").";
      lit "- Keep summaries and points concise and directly from the transcript.";
      lit "- Do not invent or infer information not present in the text. Focus on what was actually said." ].

Definition _create_fallback_minutes : dict :=
  [ (lit "summary",
     VStr (lit "Could not automatically generate minutes. Manual review required."));
    (lit "participants", VList []);
    (lit "key_topics", VList [VStr (lit "Manual review required")]);
    (lit "decisions", VList []);
    (lit "action_items", VList []);
    (lit "next_steps", VList [VStr (lit "Review transcript manually")]) ].

(** [[str(p).strip() for p in items if str(p).strip()]] *)
Definition stripped_items (items : list value) : list str :=
  List.map (fun p => strip (py_str B p))
    (List.filter (fun p => nonempty (strip (py_str B p))) items).

Definition clean_list (minutes : value) (key : str) : outcome value :=
  v <~ dot_get minutes key (VList []) ;;
  items <~ iterate v ;;
  Return (VList (List.map VStr (stripped_items items))).

Definition _clean_minutes (minutes : value) : outcome dict :=
  s <~ dot_get minutes (lit "summary") (VStr []) ;;
  let summary :=
    let t := strip (py_str B s) in
    if nonempty t then t else lit "No summary available." in
  participants <~ clean_list minutes (lit "participants") ;;
  discussion_points <~ clean_list minutes (lit "discussion_points") ;;
  outcomes_or_decisions <~ clean_list minutes (lit "outcomes_or_decisions") ;;
  next_steps <~ clean_list minutes (lit "next_steps") ;;
  Return
    [ (lit "summary", VStr summary);
      (lit "participants", participants);
      (lit "discussion_points", discussion_points);
      (lit "outcomes_or_decisions", outcomes_or_decisions);
      (lit "next_steps", next_steps) ].

(** The keyword arguments of the completion call. *)
Definition completion_request (model : str) (transcript : str) : Request :=
  {| req_model := model;
     req_messages :=
       [ {| role := lit "system"; content := _get_system_prompt |};
         {| role := lit "user";
            content := lit "Analyze this meeting transcript:"
                       ++ nl ++ nl ++ transcript |} ];
     req_temperature := 2 # 10;
     req_max_tokens := 3000;
     req_response_format := [(lit "type", lit "json_object")] |}.

Definition generate_meeting_minutes (transcript : str) : M World dict :=
  c <- gets (fun w => client (self w)) ;;
  match c with
  | None => ret _create_fallback_minutes
  | Some c =>
      try_except
        (m <- gets (fun w => model (self w)) ;;
         let request := completion_request m transcript in
         response <- net (ChatCompletionsCreate c request)
                         (chat_completions_create P c request) ;;
         choice <- lift (index0 (choices response)) ;;
         minutes <- lift (json_loads P (message_content choice)) ;;
         lift (_clean_minutes minutes))
        (fun e =>
           set_last_error (Some (message e)) ;;
           ret _create_fallback_minutes)
  end.

End Client.

(** *** File processing functions *)

(** A PDF as [PyPDF2.PdfReader] presents it: for each page, what
    [page.extract_text()] does (it may return [None] or raise). *)
Record PdfDocument : Type := {
  pages : list (outcome (option str))
}.

(** A Word document as [python-docx] presents it: [paragraph.text] of
    each body paragraph, and [cell.text] of each cell of each row of
    each table. *)
Record DocxDocument : Type := {
  paragraphs : list str;
  tables : list (list (list str))
}.

Section Extractors.
Variable File : Type.
Variable PdfReader : File -> outcome PdfDocument.
Variable Document : File -> outcome DocxDocument.

(** One turn of a loop body [if t.strip(): text_parts.append(t.strip())]. *)
Definition append_stripped (text_parts : list str) (t : str) : list str :=
  if nonempty (strip t) then text_parts ++ [strip t] else text_parts.

(** The [for page in reader.pages] loop. *)
Fixpoint pdf_loop (ps : list (outcome (option str))) (text_parts : list str)
  : outcome (list str) :=
  match ps with
  | [] => Return text_parts
  | page :: ps' =>
      text <~ page ;;
      pdf_loop ps'
        (if truthy_opt text && nonempty (strip (match text with
                                                | Some t => t
                                                | None => []
                                                end))
         then text_parts ++ [strip (match text with
                                    | Some t => t
                                    | None => []
                                    end)]
         else text_parts)
  end.

Definition extract_text_from_pdf (file : File) : outcome str :=
  otry
    (reader <~ PdfReader file ;;
     text_parts <~ pdf_loop (pages reader) [] ;;
     Return (join (nl ++ nl) text_parts))
    (fun _ => Return []).

Definition extract_text_from_docx (file : File) : outcome str :=
  otry
    (doc <~ Document file ;;
     let text_parts := [] in
     let text_parts := fold_left append_stripped (paragraphs doc) text_parts in
     let text_parts :=
       fold_left
         (fun parts table =>
            fold_left
              (fun parts row => fold_left append_stripped row parts)
              table parts)
         (tables doc) text_parts in
     Return (join nl text_parts))
    (fun _ => Return []).

End Extractors.

End Node.

(* ================================================================== *)
(** ** [minApp.py] *)
(* ================================================================== *)

Module App.

Local Open Scope py_scope.
Local Open Scope N_scope.

Definition header_summary : str := lit "## " ++ [0x1F4DD] ++ lit " Summary".
Definition header_participants : str :=
  lit "## " ++ [0x1F465] ++ lit " Participants".
Definition header_discussion_points : str :=
  lit "## " ++ [0x1F5E3; 0xFE0F] ++ lit " Discussion Points".
Definition header_outcomes_or_decisions : str :=
  lit "## " ++ [0x2705] ++ lit " Outcomes or Decisions".
Definition header_next_steps : str :=
  lit "## " ++ [0x1F680] ++ lit " Next Steps".

Section Formatter.
Variable B : Builtins.

(** ["\n".join(f"- {p}" for p in v)] *)
Definition bullets (v : value) : outcome str :=
  items <~ iterate v ;;
  Return (join nl (List.map (fun p => lit "- " ++ py_str B p) items)).

(** The [sections] list: each header with its content. *)
Definition sections (minutes : dict) : outcome (list (str * value)) :=
  let summary := get minutes (lit "summary") (VStr []) in
  participants <~ bullets (get minutes (lit "participants") (VList [])) ;;
  discussion_points <~
    bullets (get minutes (lit "discussion_points") (VList [])) ;;
  outcomes_or_decisions <~
    bullets (get minutes (lit "outcomes_or_decisions") (VList [])) ;;
  next_steps <~ bullets (get minutes (lit "next_steps") (VList [])) ;;
  Return
    [ (header_summary, summary);
      (header_participants, VStr participants);
      (header_discussion_points, VStr discussion_points);
      (header_outcomes_or_decisions, VStr outcomes_or_decisions);
      (header_next_steps, VStr next_steps) ].

(** [f"{header}\n{content}"] *)
Definition block (section : str * value) : str :=
  fst section ++ nl ++ py_str B (snd section).

Definition format_minutes_as_markdown (minutes : dict) : outcome str :=
  secs <~ sections minutes ;;
  Return
    (join (nl ++ nl)
       (List.map block (List.filter (fun sec => truthy (snd sec)) secs))).

End Formatter.

(** The failure test of [main]: whether the sentinel phrase is [in]
    the summary.  [in] searches a string for a substring, a list for an
    equal element and a dict for a key, and raises on the other values. *)
Definition failure_phrase : str :=
  lit "Could not automatically generate minutes".

Definition signals_failure (minutes : dict) : outcome bool :=
  match get minutes (lit "summary") (VStr []) with
  | VStr s => Return (contains failure_phrase s)
  | VList l =>
      Return (existsb (fun x => match x with
                                | VStr s => PyStr.eqb failure_phrase s
                                | _ => false
                                end) l)
  | VDict d => Return (existsb (PyStr.eqb failure_phrase) (keys d))
  | v =>
      Raise (TypeError
        (lit "argument of type '" ++ type_name v ++ lit "' is not iterable"))
  end.

End App.

(* ================================================================== *)
(** ** The specification's vocabulary *)
(* ================================================================== *)

Module Spec.

Import Node App.

(** The canonical five-field record of the specification. *)
Record MinutesRecord : Type := {
  summary : str;
  participants : list str;
  discussion_points : list str;
  outcomes_or_decisions : list str;
  next_steps : list str
}.

Definition canonical_keys : list str :=
  [ lit "summary"; lit "participants"; lit "discussion_points";
    lit "outcomes_or_decisions"; lit "next_steps" ].

Definition list_fields : list str :=
  [ lit "participants"; lit "discussion_points";
    lit "outcomes_or_decisions"; lit "next_steps" ].

(** The record as a Python dict, in the order the sanitizer builds it. *)
Definition to_dict (r : MinutesRecord) : dict :=
  [ (lit "summary", VStr (summary r));
    (lit "participants", VList (List.map VStr (participants r)));
    (lit "discussion_points", VList (List.map VStr (discussion_points r)));
    (lit "outcomes_or_decisions",
     VList (List.map VStr (outcomes_or_decisions r)));
    (lit "next_steps", VList (List.map VStr (next_steps r))) ].

(** A dict holds the record [r]: each field is stored under its key,
    wherever the key stands and whatever other keys there are. *)
Definition holds (minutes : dict) (r : MinutesRecord) : Prop :=
  lookup (lit "summary") minutes = Some (VStr (summary r)) /\
  lookup (lit "participants") minutes
    = Some (VList (List.map VStr (participants r))) /\
  lookup (lit "discussion_points") minutes
    = Some (VList (List.map VStr (discussion_points r))) /\
  lookup (lit "outcomes_or_decisions") minutes
    = Some (VList (List.map VStr (outcomes_or_decisions r))) /\
  lookup (lit "next_steps") minutes
    = Some (VList (List.map VStr (next_steps r))).

(** The elements of a field of the model's response: none when the field
    is missing; [None] when the field is there and cannot be iterated. *)
Definition elements (response : dict) (key : str) : option (list value) :=
  match lookup key response with
  | None => Some []
  | Some v => iter v
  end.

(** Every list field of the response is missing or can be iterated. *)
Definition iterable_fields (response : dict) : bool :=
  forallb (fun key => match elements response key with
                      | Some _ => true
                      | None => false
                      end) list_fields.

(** Every canonical list field reads as the empty list (a missing one
    reads as its default). *)
Definition canonical_lists_empty (minutes : dict) : bool :=
  forallb (fun key => match get minutes key (VList []) with
                      | VList [] => true
                      | _ => false
                      end) list_fields.

Definition placeholder : str := lit "No summary available.".

Definition sentinel : str :=
  lit "Could not automatically generate minutes. Manual review required.".

Section Sanitized.
Variable B : Builtins.

(** Coerce every element to a string, trim it, drop the empty ones. *)
Definition sanitized_list (elems : list value) : list str :=
  List.filter nonempty (List.map (fun e => strip (py_str B e)) elems).

(** Coerce to a trimmed string; the placeholder when that is empty. *)
Definition sanitized_summary (response : dict) : str :=
  let t := strip (py_str B (match lookup (lit "summary") response with
                            | Some v => v
                            | None => VStr []
                            end)) in
  match t with
  | [] => placeholder
  | _ :: _ => t
  end.

End Sanitized.

(** The completion call raises [e]: the request itself fails (a
    transport failure), or it returns a response whose body cannot be
    parsed as JSON. *)
Inductive completion_fails (P : Provider) (c : OpenAI) (req : Request)
    (e : exn) : Prop :=
| transport_failure :
    chat_completions_create P c req = Raise e ->
    completion_fails P c req e
| parse_failure (response : Response) (choice : Choice) :
    chat_completions_create P c req = Return response ->
    index0 (choices response) = Return choice ->
    json_loads P (message_content choice) = Raise e ->
    completion_fails P c req e.

(** What the body of the [try] in [generate_meeting_minutes] evaluates
    to, the state apart. *)
Definition attempt (B : Builtins) (P : Provider) (c : OpenAI)
    (model transcript : str) : outcome dict :=
  (response <~
     chat_completions_create P c (completion_request model transcript) ;;
   choice <~ index0 (choices response) ;;
   minutes <~ json_loads P (message_content choice) ;;
   _clean_minutes B minutes)%py.

(** The world after one more network call. *)
Definition logged (call : NetCall) (w : World) : World :=
  {| self := self w; network := network w ++ [call] |}.

(** The world with [last_error] replaced. *)
Definition with_last_error (e : option str) (w : World) : World :=
  {| self := {| client := client (self w); model := model (self w);
                last_error := e |};
     network := network w |}.

(** The five section blocks in their fixed order, each header with its
    formatted content: the summary as a paragraph, a list as one
    [- item] line per element. *)
Definition bulleted (items : list str) : str :=
  join nl (List.map (fun x => lit "- " ++ x) items).

Definition section_blocks (r : MinutesRecord) : list (str * str) :=
  [ (header_summary, summary r);
    (header_participants, bulleted (participants r));
    (header_discussion_points, bulleted (discussion_points r));
    (header_outcomes_or_decisions, bulleted (outcomes_or_decisions r));
    (header_next_steps, bulleted (next_steps r)) ].

(** The blocks that are emitted: those whose content is not empty. *)
Definition emitted (r : MinutesRecord) : list (str * str) :=
  List.filter (fun b => nonempty (snd b)) (section_blocks r).

(** A header line, then the content. *)
Definition rendered (b : str * str) : str := fst b ++ nl ++ snd b.

(** Word-document extraction as the specification words it: paragraph
    texts, then cell texts table by table and row by row, the non-empty
    ones joined by newlines. *)
Definition docx_fragments (doc : DocxDocument) : list str :=
  paragraphs doc ++ List.concat (List.concat (tables doc)).

Definition docx_text_untrimmed (doc : DocxDocument) : str :=
  join nl (List.filter nonempty (docx_fragments doc)).

(** The same with every fragment trimmed first. *)
Definition docx_text_trimmed (doc : DocxDocument) : str :=
  join nl (List.filter nonempty (List.map strip (docx_fragments doc))).

End Spec.

(* ================================================================== *)
(** ** Concrete inputs for the examples *)
(* ================================================================== *)

Module Examples.

Import Node App Spec.

(** An interpreter for the closed examples.  They contain no float and
    no string nested inside a list or dict, so neither function is ever
    called on them; [repr_str] is right on strings of printable
    characters other than quotes and backslashes. *)
Definition example_builtins : Builtins :=
  {| repr_str := fun s => lit "'" ++ s ++ lit "'";
     repr_float := fun _ => lit "0.0" |}.

Definition APIConnectionError : exn :=
  {| cls := lit "APIConnectionError"; is_Exception := true;
     message := lit "Connection error." |}.

Definition JSONDecodeError : exn :=
  {| cls := lit "JSONDecodeError"; is_Exception := true;
     message := lit "Expecting value: line 1 column 1 (char 0)" |}.

(** A provider that cannot be reached. *)
Definition unreachable : Provider :=
  {| getenv := fun _ => None;
     OpenAI_new := fun k u => Return {| api_key := k; base_url := u |};
     models_list := fun _ => Raise APIConnectionError;
     chat_completions_create := fun _ _ => Raise APIConnectionError;
     json_loads_str := fun _ => Raise JSONDecodeError |}.

(** A provider that answers every completion request with [body], which
    the parser reads as [parsed]. *)
Definition answering (body : option str) (parsed : outcome value) : Provider :=
  {| getenv := fun _ => None;
     OpenAI_new := fun k u => Return {| api_key := k; base_url := u |};
     models_list := fun _ => Return tt;
     chat_completions_create :=
       fun _ _ => Return {| choices := [ {| message_content := body |} ] |};
     json_loads_str := fun _ => parsed |}.

Definition a_client : OpenAI := {| api_key := lit "sk-test"; base_url := None |}.

(** A configured instance that still carries an error from before. *)
Definition ready_with_stale_error : World :=
  {| self := {| client := Some a_client; model := lit "gpt-4o-mini";
                last_error := Some (lit "Connection error.") |};
     network := [] |}.

Definition ready : World :=
  {| self := {| client := Some a_client; model := lit "gpt-4o-mini";
                last_error := None |};
     network := [] |}.

(** An instance created without a key. *)
Definition unconfigured : World :=
  {| self := {| client := None; model := lit "gpt-4o-mini";
                last_error := Some (lit "OPENAI_API_KEY is missing") |};
     network := [] |}.

(** The response of the specification's end-to-end scenario. *)
Definition ship_v2 : dict :=
  [ (lit "summary", VStr (lit "Team agreed to ship v2 Friday."));
    (lit "participants", VList [VStr (lit "Alice")]);
    (lit "discussion_points", VList []);
    (lit "outcomes_or_decisions", VList [VStr (lit "Ship v2 Friday")]);
    (lit "next_steps", VList []) ].

Definition ship_v2_record : MinutesRecord :=
  {| summary := lit "Team agreed to ship v2 Friday.";
     participants := [lit "Alice"];
     discussion_points := [];
     outcomes_or_decisions := [lit "Ship v2 Friday"];
     next_steps := [] |}.

Definition empty_record : MinutesRecord :=
  {| summary := []; participants := []; discussion_points := [];
     outcomes_or_decisions := []; next_steps := [] |}.

(** A response whose [participants] is JSON [null]. *)
Definition null_participants : dict :=
  [ (lit "summary", VStr (lit "Weekly sync."));
    (lit "participants", VNone) ].

(** A response whose [next_steps] is a number, with an extra key. *)
Definition numeric_next_steps : dict :=
  [ (lit "summary", VStr (lit "Weekly sync."));
    (lit "confidence", VInt 1);
    (lit "next_steps", VInt 3) ].

(** A response with untidy but iterable fields and an extra key. *)
Definition untidy : dict :=
  [ (lit "title", VStr (lit "Sync"));
    (lit "next_steps", VList [VStr (lit " call Bob "); VStr (lit "   "); VInt 7]);
    (lit "summary", VStr (lit "  Weekly sync.  "));
    (lit "participants", VList [VStr (lit "Alice "); VNone]) ].

Definition transcript_v2 : str := lit "Alice: Let's ship v2 Friday.".

(** A provider that answers with the end-to-end scenario's response. *)
Definition answering_ship_v2 : Provider :=
  answering (Some (lit "{...}")) (Return (VDict ship_v2)).

Definition doc_A_X : DocxDocument :=
  {| paragraphs := [lit "A"]; tables := [ [ [lit "X"] ] ] |}.

Definition doc_padded : DocxDocument :=
  {| paragraphs := [lit " A "; lit "   "]; tables := [] |}.

End Examples.

(* ================================================================== *)
(** ** [minApp.py]: the page script, [main] *)
(* ================================================================== *)

Module Page.

Import Node App.

Local Open Scope py_scope.
Local Open Scope N_scope.

(** What a run of the script puts on the page, in order.  A [with]
    block shows as the element that opens it, the elements of its body,
    and [st_end] where the block is left. *)
Inductive Element : Type :=
| st_title (body : str)
| st_caption (body : str)
| st_error (body : str)
| st_info (body : str)
| st_subheader (body : str)
| st_file_uploader (label : str) (type : list str)
| st_text_area (label : str) (height : Z) (placeholder : str)
| st_spinner (text : str)
| st_success (body : str)
| st_warning (body : str)
| st_button (label : str) (type : str) (disabled use_container_width : bool)
| st_tabs (labels : list str)
| st_tab (label : str)
| st_header (body : str)
| st_expander (label : str) (expanded : bool)
| st_write (v : value)
| st_markdown (body : str)
| st_code (body : str) (language : str)
| st_download_button (label data file_name mime : str)
    (use_container_width : bool)
| st_end.

(** An uploaded file: its name, its declared content type and the file
    object itself. *)
Record UploadedFile (File : Type) : Type := {
  file_name : str;
  file_type : str;
  file_body : File
}.
Arguments file_name {File} u.
Arguments file_type {File} u.
Arguments file_body {File} u.

(** What the widgets return in this run. *)
Record Widgets (File : Type) : Type := {
  uploaded_file : option (UploadedFile File);  (* st.file_uploader(...) *)
  transcript_text : str;                       (* st.text_area(...) *)
  generate_clicked : bool                      (* st.button(...) *)
}.
Arguments uploaded_file {File} w.
Arguments transcript_text {File} w.
Arguments generate_clicked {File} w.

(** What outlives a run, and the page of the run: the instance kept by
    [st.cache_resource] (meaningful once [cached]), the network calls
    made so far, [st.session_state.minutes] when it is set, and the
    elements shown. *)
Record Session : Type := {
  cached : bool;
  instance : OpenAIClient;
  calls : list NetCall;
  minutes_state : option dict;
  page : list Element
}.

Definition emit (e : Element) : M Session unit :=
  modify (fun s =>
    {| cached := cached s; instance := instance s; calls := calls s;
       minutes_state := minutes_state s; page := page s ++ [e] |}).

Definition set_minutes (minutes : dict) : M Session unit :=
  modify (fun s =>
    {| cached := cached s; instance := instance s; calls := calls s;
       minutes_state := Some minutes; page := page s |}).

(** [st.stop()]: Streamlit ends the run by raising an exception that is
    not an [Exception]. *)
Definition StopException : exn :=
  {| cls := lit "StopException"; is_Exception := false; message := [] |}.

Definition st_stop {A} : M Session A := raise StopException.

(** [with opening: body]: the block is left, normally or not. *)
Definition with_ {A} (opening : Element) (body : M Session A) : M Session A :=
  fun s =>
    match body (snd (emit opening s)) with
    | (o, s') => (o, snd (emit st_end s'))
    end.

(** A method call on the cached instance. *)
Definition on_client {A} (method : M World A) : M Session A :=
  fun s =>
    match method {| self := instance s; network := calls s |} with
    | (o, w) =>
        (o, {| cached := cached s; instance := self w; calls := network w;
               minutes_state := minutes_state s; page := page s |})
    end.

(** [for x in items: body x] *)
Fixpoint for_ {A} (items : list A) (body : A -> M Session unit)
  : M Session unit :=
  match items with
  | [] => ret tt
  | x :: rest => body x ;; for_ rest body
  end.

(** [f"{n:,}"] for a length: decimal digits in groups of three. *)
Fixpoint group_digits (reversed : str) (count : nat) : str :=
  match reversed with
  | [] => []
  | d :: rest =>
      if Nat.eqb count 3
      then 44 :: d :: group_digits rest 1
      else d :: group_digits rest (S count)
  end.

Definition with_commas (n : nat) : str :=
  rev (group_digits (rev (of_int (Z.of_nat n))) 0).

Section Script.
Variable B : Builtins.
Variable P : Provider.
Variable File : Type.
Variable PdfReader : File -> outcome PdfDocument.
Variable Document : File -> outcome DocxDocument.
(** [uploaded_file.read().decode("utf-8", errors="ignore")] *)
Variable decode : File -> str.
Variable W : Widgets File.

(** [@st.cache_resource def get_openai_client(): return OpenAIClient()]:
    the constructor runs on the first call only. *)
Definition get_openai_client : M Session unit :=
  fun s =>
    if cached s then (Return tt, s)
    else
      match __init__ P None None {| self := instance s; network := calls s |} with
      | (Return _, w) =>
          (Return tt,
           {| cached := true; instance := self w; calls := network w;
              minutes_state := minutes_state s; page := page s |})
      | (Raise e, w) =>
          (Raise e,
           {| cached := false; instance := instance s; calls := network w;
              minutes_state := minutes_state s; page := page s |})
      end.

(** 1. API key handling and connection test. *)
Definition api_key_handling : M Session unit :=
  let api_key :=
    strip (match getenv P (lit "OPENAI_API_KEY") with
           | Some v => v
           | None => []
           end) in
  (if negb (truthy_opt (getenv P (lit "OPENAI_API_KEY"))) then
     emit (st_error ([0x1F534] ++ lit " Missing OPENAI_API_KEY. Please create a .env file with your key.")) ;;
     emit (st_info (lit "Example .env file:" ++ nl ++ nl ++ lit "`OPENAI_API_KEY=" ++ dq ++ lit "your_api_key_here" ++ dq ++ lit "`")) ;;
     st_stop
   else ret tt) ;;
  get_openai_client ;;
  on_client (set_api_key P api_key) ;;
  r <- on_client (test_connection P) ;;
  (if negb (fst r) then
     emit (st_error (lit "OpenAI connection failed: " ++ snd r)) ;;
     st_stop
   else ret tt).

(** 2. File input: the transcript the run works on. *)
Definition file_input : M Session str :=
  emit (st_subheader (lit "Input Transcript")) ;;
  emit (st_file_uploader (lit "Upload transcript file (.txt, .pdf, .docx)")
          [lit "txt"; lit "pdf"; lit "docx"]) ;;
  emit (st_text_area (lit "Or paste transcript here:") 200
          (lit "Paste your meeting transcript content here...")) ;;
  match uploaded_file W with
  | Some f =>
      final_transcript <-
        with_ (st_spinner (lit "Reading file..."))
          (if PyStr.eqb (file_type f) (lit "text/plain") then
             ret (decode (file_body f))
           else if PyStr.eqb (file_type f) (lit "application/pdf") then
             lift (extract_text_from_pdf File PdfReader (file_body f))
           else if contains (lit "wordprocessingml") (file_type f) then
             lift (extract_text_from_docx File Document (file_body f))
           else ret []) ;;
      (if nonempty final_transcript then
         emit (st_success ([0x2705] ++ lit " Successfully loaded "
                           ++ with_commas (List.length final_transcript)
                           ++ lit " characters from " ++ file_name f))
       else
         emit (st_warning (lit "Could not extract text from the uploaded file."))) ;;
      ret final_transcript
  | None =>
      if nonempty (strip (transcript_text W))
      then ret (strip (transcript_text W))
      else ret []
  end.

(** 3. Generation. *)
Definition generation (final_transcript : str) : M Session unit :=
  emit (st_button ([0x1F680] ++ lit " Generate Minutes") (lit "primary")
          (negb (nonempty final_transcript)) true) ;;
  if generate_clicked W then
    minutes <-
      with_ (st_spinner (lit "Generating minutes... This may take a moment."))
        (on_client (generate_meeting_minutes B P final_transcript)) ;;
    failed <- lift (signals_failure minutes) ;;
    (if failed then
       e <- gets (fun s => last_error (instance s)) ;;
       emit (st_error
               (lit "Failed to generate minutes. Error: " ++
                match or_opt e (Some (lit "The AI could not process this transcript.")) with
                | Some text => text
                | None => []
                end)) ;;
       st_stop
     else ret tt) ;;
    emit (st_success ([0x2705] ++ lit " Minutes generated successfully!")) ;;
    set_minutes minutes
  else ret tt.

(** One expander of the structured view: the items of a list field, or
    a caption when the field is missing or falsy. *)
Definition list_expander (minutes : dict) (label key none_text : str)
  : M Session unit :=
  with_ (st_expander label false)
    (let v := match lookup key minutes with
              | Some v => v
              | None => VNone
              end in
     if truthy v then
       items <- lift (iterate v) ;;
       for_ items (fun p => emit (st_markdown (lit "- " ++ py_str B p)))
     else emit (st_caption none_text)).

(** 4. Display results. *)
Definition display_results : M Session unit :=
  stored <- gets minutes_state ;;
  match stored with
  | None => ret tt
  | Some minutes =>
      emit (st_tabs [ [0x1F4CA] ++ lit " Structured View";
                      [0x1F4C4] ++ lit " Markdown & Export" ]) ;;
      with_ (st_tab ([0x1F4CA] ++ lit " Structured View"))
        (emit (st_header (lit "Analysis Results")) ;;
         with_ (st_expander ([0x1F4DD] ++ lit " **Summary**") true)
           (emit (st_write (get minutes (lit "summary")
                              (VStr (lit "Not available."))))) ;;
         list_expander minutes ([0x1F465] ++ lit " **Participants**")
           (lit "participants") (lit "No participants identified.") ;;
         list_expander minutes ([0x1F5E3; 0xFE0F] ++ lit " **Discussion Points**")
           (lit "discussion_points") (lit "No key topics identified.") ;;
         list_expander minutes ([0x2705] ++ lit " **Outcomes or Decisions**")
           (lit "outcomes_or_decisions")
           (lit "No outcomes or decisions identified.") ;;
         list_expander minutes ([0x1F680] ++ lit " **Next Steps**")
           (lit "next_steps") (lit "No next steps identified.")) ;;
      with_ (st_tab ([0x1F4C4] ++ lit " Markdown & Export"))
        (emit (st_header (lit "Export Minutes")) ;;
         markdown_content <- lift (format_minutes_as_markdown B minutes) ;;
         emit (st_code markdown_content (lit "markdown")) ;;
         emit (st_download_button
                 ([0x2B07; 0xFE0F] ++ lit " Download as Markdown (.md)")
                 markdown_content (lit "meeting_minutes.md")
                 (lit "text/markdown") true))
  end.

Definition main : M Session unit :=
  emit (st_title ([0x1F4DD] ++ lit " Meeting Minutes Generator")) ;;
  emit (st_caption (lit "Transform meeting transcripts into professional minutes using AI")) ;;
  api_key_handling ;;
  final_transcript <- file_input ;;
  generation final_transcript ;;
  display_results.

End Script.

End Page.

(* ================================================================== *)
(** ** Vocabulary for the further properties *)
(* ================================================================== *)

Module Props.

Import Node App Spec.

(** A string that [strip] leaves alone and that is not empty. *)
Definition trimmed (s : str) : Prop := strip s = s /\ s <> [].

(** What a page contributes: its text, nothing when [extract_text]
    gave [None]. *)
Definition page_text (text : option str) : str :=
  match text with
  | Some t => t
  | None => []
  end.

(** PDF extraction fails with [e]: the reader cannot be opened, or some
    page raises after the pages before it gave their text. *)
Inductive pdf_fails (File : Type) (PdfReader : File -> outcome PdfDocument)
    (file : File) (e : exn) : Prop :=
| reader_fails :
    PdfReader file = Raise e ->
    pdf_fails File PdfReader file e
| page_fails (reader : PdfDocument) (texts : list (option str))
    (rest : list (outcome (option str))) :
    PdfReader file = Return reader ->
    pages reader = List.map Return texts ++ Raise e :: rest ->
    pdf_fails File PdfReader file e.

(** A value that is a JSON object. *)
Definition is_dict (v : value) : bool :=
  match v with
  | VDict _ => true
  | _ => false
  end.

(** The header of the section a list field is formatted under. *)
Definition list_sections : list (str * str) :=
  [ (lit "participants", header_participants);
    (lit "discussion_points", header_discussion_points);
    (lit "outcomes_or_decisions", header_outcomes_or_decisions);
    (lit "next_steps", header_next_steps) ].

(** Two dicts give the same value, or both nothing, under each of the
    five canonical keys. *)
Definition agree_on_canonical_keys (m m' : dict) : Prop :=
  forall key, In key canonical_keys -> lookup key m = lookup key m'.

(** The states an instance goes through: built by the constructor, then
    any sequence of calls of its three public methods, whatever they
    return or raise. *)
Inductive reachable (B : Builtins) (P : Provider) : World -> Prop :=
| after_init (api_key base_url : option str) (w0 w : World) :
    __init__ P api_key base_url w0 = (Return tt, w) ->
    reachable B P w
| after_set_api_key (api_key : str) (w w' : World) (o : outcome bool) :
    reachable B P w ->
    set_api_key P api_key w = (o, w') ->
    reachable B P w'
| after_test_connection (w w' : World) (o : outcome (bool * str)) :
    reachable B P w ->
    test_connection P w = (o, w') ->
    reachable B P w'
| after_generate (transcript : str) (w w' : World) (o : outcome dict) :
    reachable B P w ->
    generate_meeting_minutes B P transcript w = (o, w') ->
    reachable B P w'.

(** A completion response the code cannot use, with the text of the
    exception that results: it has no choice, or the content of its
    first choice is [None], or that content parses as JSON to something
    other than an object. *)
Inductive unusable (P : Provider) (response : Response) : str -> Prop :=
| no_choice :
    choices response = [] ->
    unusable P response (lit "list index out of range")
| no_content (choice : Choice) (rest : list Choice) :
    choices response = choice :: rest ->
    message_content choice = None ->
    unusable P response
      (lit "the JSON object must be str, bytes or bytearray, not NoneType")
| not_an_object (choice : Choice) (rest : list Choice) (body : str)
    (v : value) :
    choices response = choice :: rest ->
    message_content choice = Some body ->
    json_loads_str P body = Return v ->
    is_dict v = false ->
    unusable P response
      (lit "'" ++ type_name v ++ lit "' object has no attribute 'get'").

(** The key and the endpoint the constructor settles on: the argument
    when it is given and not empty, else the environment's. *)
Definition effective_key (P : Provider) (api_key : option str) : option str :=
  or_opt api_key (getenv P (lit "OPENAI_API_KEY")).

Definition effective_base_url (P : Provider) (base_url : option str)
  : option str :=
  or_opt base_url (getenv P (lit "OPENAI_BASE_URL")).

End Props.

Module MoreExamples.

Import Node App Spec Examples.

(** An interrupt: not an [Exception], so no handler of the code
    catches it. *)
Definition KeyboardInterrupt : exn :=
  {| cls := lit "KeyboardInterrupt"; is_Exception := false; message := [] |}.

Definition pdf_two_pages : PdfDocument :=
  {| pages := [ Return (Some (lit " Hello "));
                Return None;
                Return (Some (lit "   "));
                Return (Some (lit "World")) ] |}.

Definition pdf_bad_second_page : PdfDocument :=
  {| pages := [ Return (Some (lit "Hello"));
                Raise (TypeError (lit "bad page"));
                Return (Some (lit "World")) ] |}.

Definition doc_blank : DocxDocument :=
  {| paragraphs := [lit "  "; []]; tables := [ [ [lit " "] ] ] |}.

(** A provider whose constructor refuses every key. *)
Definition refusing : Provider :=
  {| getenv := fun _ => None;
     OpenAI_new := fun _ _ =>
       Raise {| cls := lit "OpenAIError"; is_Exception := true;
                message := lit "bad key" |};
     models_list := fun _ => Return tt;
     chat_completions_create :=
       fun _ _ => Return {| choices := [] |};
     json_loads_str := fun _ => Return VNone |}.

(** A response in which every participant is blank. *)
Definition blank_participants : dict :=
  [ (lit "summary", VStr (lit "Weekly sync."));
    (lit "participants", VList [VStr (lit "  "); VStr []]);
    (lit "next_steps", VList [VStr (lit "call Bob")]) ].

(** A provider that answers with a JSON array. *)
Definition answering_array : Provider :=
  answering (Some (lit "[]")) (Return (VList [])).

(** An environment that names a key, a model and an endpoint. *)
Definition with_environment : Provider :=
  {| getenv := fun name =>
       if PyStr.eqb name (lit "OPENAI_API_KEY") then Some (lit "sk-env")
       else if PyStr.eqb name (lit "OPENAI_MODEL") then Some (lit "gpt-4o")
       else if PyStr.eqb name (lit "OPENAI_BASE_URL")
            then Some (lit "https://example.test/v1")
       else None;
     OpenAI_new := fun k u => Return {| api_key := k; base_url := u |};
     models_list := fun _ => Return tt;
     chat_completions_create := fun _ _ => Return {| choices := [] |};
     json_loads_str := fun _ => Return VNone |}.

(** The instance the constructor builds in that environment when it
    is given the key [sk-arg]. *)
Definition configured_from_environment : World :=
  {| self := {| client :=
                  Some {| api_key := lit "sk-arg";
                          base_url := Some (lit "https://example.test/v1") |};
                model := lit "gpt-4o";
                last_error := None |};
     network := [] |}.

(** An instance before its constructor has run. *)
Definition blank : World :=
  {| self := {| client := None; model := []; last_error := None |};
     network := [] |}.

(** A dict with a list field that is a number and, inside another
    field, a small int. *)
Definition numeric_participants : dict :=
  [ (lit "summary", VStr (lit "Weekly sync."));
    (lit "participants", VInt 3);
    (lit "next_steps", VList [VInt 7]) ].

End MoreExamples.

(* ================================================================== *)
(** ** Vocabulary for the properties of the page script *)
(* ================================================================== *)

Module PageProps.

Import Node App Spec Examples Props MoreExamples Page.

(** The session with more elements on the page. *)
Definition shown (es : list Element) (s : Session) : Session :=
  {| cached := cached s; instance := instance s; calls := calls s;
     minutes_state := minutes_state s; page := page s ++ es |}.

(** [e] is something the SDK raised: the constructor of the client or
    the connection probe. *)
Definition raised_by_sdk (P : Provider) (e : exn) : Prop :=
  (exists key url, OpenAI_new P key url = Raise e) \/
  (exists c, models_list P c = Raise e).

(** Minutes fit to be kept: the dict of a record with a trimmed summary
    free of the failure phrase and with trimmed list entries. *)
Definition canonical (minutes : dict) : Prop :=
  exists rec : MinutesRecord,
    minutes = to_dict rec /\
    trimmed (summary rec) /\
    contains failure_phrase (summary rec) = false /\
    Forall trimmed (participants rec) /\
    Forall trimmed (discussion_points rec) /\
    Forall trimmed (outcomes_or_decisions rec) /\
    Forall trimmed (next_steps rec).

(** The session keeps no minutes, or canonical ones. *)
Definition keeps_canonical (s : Session) : Prop :=
  match minutes_state s with
  | None => True
  | Some minutes => canonical minutes
  end.

(** Everything outside the repository raises [Exception]s only. *)
Definition raises_only_Exceptions (P : Provider) (File : Type)
    (PdfReader : File -> outcome PdfDocument)
    (Document : File -> outcome DocxDocument) : Prop :=
  (forall key url e, OpenAI_new P key url = Raise e -> is_Exception e = true) /\
  (forall c e, models_list P c = Raise e -> is_Exception e = true) /\
  (forall c r e, chat_completions_create P c r = Raise e ->
                 is_Exception e = true) /\
  (forall body e, json_loads_str P body = Raise e -> is_Exception e = true) /\
  (forall file e, PdfReader file = Raise e -> is_Exception e = true) /\
  (forall file reader e,
      PdfReader file = Return reader -> In (Raise e) (pages reader) ->
      is_Exception e = true) /\
  (forall file e, Document file = Raise e -> is_Exception e = true).

(** The elements the script starts every run with. *)
Definition page_top : list Element :=
  [ st_title ([0x1F4DD]%N ++ lit " Meeting Minutes Generator");
    st_caption (lit "Transform meeting transcripts into professional minutes using AI") ].

(** The input widgets. *)
Definition input_widgets : list Element :=
  [ st_subheader (lit "Input Transcript");
    st_file_uploader (lit "Upload transcript file (.txt, .pdf, .docx)")
      [lit "txt"; lit "pdf"; lit "docx"];
    st_text_area (lit "Or paste transcript here:") 200
      (lit "Paste your meeting transcript content here...") ].

Definition generate_button (final_transcript : str) : Element :=
  st_button ([0x1F680]%N ++ lit " Generate Minutes") (lit "primary")
    (negb (nonempty final_transcript)) true.

Definition generating_spinner : Element :=
  st_spinner (lit "Generating minutes... This may take a moment.").

(** The error the script shows when generation is taken to have
    failed. *)
Definition failure_report (e : option str) : Element :=
  st_error (lit "Failed to generate minutes. Error: " ++
            match e with
            | Some (c :: text) => c :: text
            | _ => lit "The AI could not process this transcript."
            end).

(** A fresh session: nothing cached, nothing kept, an empty page. *)
Definition fresh : Session :=
  {| cached := false;
     instance := {| client := None; model := []; last_error := None |};
     calls := []; minutes_state := None; page := [] |}.

(** An environment that holds a key, with a provider that answers the
    end-to-end scenario. *)
Definition keyed (key : str) (P : Provider) : Provider :=
  {| getenv := fun name =>
       if PyStr.eqb name (lit "OPENAI_API_KEY") then Some key else None;
     OpenAI_new := OpenAI_new P;
     models_list := models_list P;
     chat_completions_create := chat_completions_create P;
     json_loads_str := json_loads_str P |}.

Definition pasted (text : str) (clicked : bool) : Widgets unit :=
  {| uploaded_file := None; transcript_text := text;
     generate_clicked := clicked |}.

Definition uploaded (name type text : str) (clicked : bool) : Widgets unit :=
  {| uploaded_file := Some {| file_name := name; file_type := type;
                              file_body := tt |};
     transcript_text := text; generate_clicked := clicked |}.

Definition no_pdf : unit -> outcome PdfDocument :=
  fun _ => Return {| pages := [] |}.

Definition no_docx : unit -> outcome DocxDocument :=
  fun _ => Return {| paragraphs := []; tables := [] |}.

Definition no_text : unit -> str := fun _ => [].

(** What the script shows when the environment holds no key. *)
Definition missing_key_notice : list Element :=
  [ st_error ([0x1F534]%N ++ lit " Missing OPENAI_API_KEY. Please create a .env file with your key.");
    st_info (lit "Example .env file:" ++ nl ++ nl ++ lit "`OPENAI_API_KEY="
             ++ dq ++ lit "your_api_key_here" ++ dq ++ lit "`") ].

(** A computation that changes nothing but the page. *)
Definition page_only {A} (c : M Session A) : Prop :=
  forall s,
    cached (snd (c s)) = cached s /\
    instance (snd (c s)) = instance s /\
    calls (snd (c s)) = calls s /\
    minutes_state (snd (c s)) = minutes_state s.

(** One expander of the structured view of a record: the items as
    bullet lines, or the caption when there is none. *)
Definition list_view (label none_text : str) (items : list str)
  : list Element :=
  st_expander label false ::
  match items with
  | [] => [st_caption none_text]
  | _ :: _ => List.map (fun x => st_markdown (lit "- " ++ x)) items
  end ++ [st_end].

(** The two tabs for a record and its Markdown text. *)
Definition results_view (rec : MinutesRecord) (markdown_content : str)
  : list Element :=
  [ st_tabs [ [0x1F4CA]%N ++ lit " Structured View";
              [0x1F4C4]%N ++ lit " Markdown & Export" ];
    st_tab ([0x1F4CA]%N ++ lit " Structured View");
    st_header (lit "Analysis Results");
    st_expander ([0x1F4DD]%N ++ lit " **Summary**") true;
    st_write (VStr (summary rec));
    st_end ] ++
  list_view ([0x1F465]%N ++ lit " **Participants**")
    (lit "No participants identified.") (participants rec) ++
  list_view ([0x1F5E3; 0xFE0F]%N ++ lit " **Discussion Points**")
    (lit "No key topics identified.") (discussion_points rec) ++
  list_view ([0x2705]%N ++ lit " **Outcomes or Decisions**")
    (lit "No outcomes or decisions identified.") (outcomes_or_decisions rec) ++
  list_view ([0x1F680]%N ++ lit " **Next Steps**")
    (lit "No next steps identified.") (next_steps rec) ++
  [ st_end;
    st_tab ([0x1F4C4]%N ++ lit " Markdown & Export");
    st_header (lit "Export Minutes");
    st_code markdown_content (lit "markdown");
    st_download_button
      ([0x2B07; 0xFE0F]%N ++ lit " Download as Markdown (.md)")
      markdown_content (lit "meeting_minutes.md") (lit "text/markdown") true;
    st_end ].

(** The session after a completion call for [transcript], with the
    button and the spinner on the page. *)
Definition after_completion (c : OpenAI) (transcript : str) (s : Session)
  : Session :=
  {| cached := cached s;
     instance := instance s;
     calls := calls s ++
              [ChatCompletionsCreate c
                 (completion_request (model (instance s)) transcript)];
     minutes_state := minutes_state s;
     page := page s ++
             [generate_button transcript; generating_spinner; st_end] |}.

(** The session with the instance's [last_error] replaced. *)
Definition with_error (e : option str) (s : Session) : Session :=
  {| cached := cached s;
     instance := {| client := client (instance s);
                    model := model (instance s);
                    last_error := e |};
     calls := calls s;
     minutes_state := minutes_state s;
     page := page s |}.

(** The session with minutes kept. *)
Definition keeping (minutes : dict) (s : Session) : Session :=
  {| cached := cached s; instance := instance s; calls := calls s;
     minutes_state := Some minutes; page := page s |}.

Definition generated_success : Element :=
  st_success ([0x2705]%N ++ lit " Minutes generated successfully!").

(** A session whose instance is configured and has passed the probe. *)
Definition probed : Session :=
  {| cached := true;
     instance := {| client := Some a_client; model := lit "gpt-4o-mini";
                    last_error := None |};
     calls := [ModelsList a_client]; minutes_state := None; page := [] |}.

(** A response whose summary happens to contain the failure phrase. *)
Definition alarming : dict :=
  [ (lit "summary",
     VStr (lit "Bob said: Could not automatically generate minutes by hand."));
    (lit "participants", VList [VStr (lit "Bob")]) ].

Definition answering_alarming : Provider :=
  answering (Some (lit "{...}")) (Return (VDict alarming)).

(** The transcript a run works on: what is read from the uploaded file
    when there is one, by its content type, and the trimmed text of the
    text area otherwise. *)
Definition chosen_transcript (File : Type)
    (PdfReader : File -> outcome PdfDocument)
    (Document : File -> outcome DocxDocument) (decode : File -> str)
    (W : Widgets File) : outcome str :=
  match uploaded_file W with
  | Some f =>
      if PyStr.eqb (file_type f) (lit "text/plain") then
        Return (decode (file_body f))
      else if PyStr.eqb (file_type f) (lit "application/pdf") then
        extract_text_from_pdf File PdfReader (file_body f)
      else if contains (lit "wordprocessingml") (file_type f) then
        extract_text_from_docx File Document (file_body f)
      else Return []
  | None => Return (strip (transcript_text W))
  end.

End PageProps.

Import Node App Spec Examples.

(** Run a method: unfold the monad and project the state. *)
Ltac run :=
  cbv beta delta [bind gets ret lift modify raise try_except net
                  set_client set_model set_last_error logged
                  with_last_error] in *;
  cbn [self network client model last_error fst snd] in *.

(** Run the script: unfold the monad over the session. *)
Ltac run_page :=
  repeat progress
    (cbv beta iota zeta delta
       [bind gets ret lift modify raise Page.emit Page.set_minutes
        Page.st_stop Page.with_ Page.on_client PageProps.shown logged
        with_last_error] in *;
     cbn [Page.cached Page.instance Page.calls Page.minutes_state Page.page
          fst snd self network client model last_error negb] in *).

(* ================================================================== *)
(** ** Strings *)
(* ================================================================== *)

Lemma eqb_refl (a : str) : PyStr.eqb a a = true.
Proof.
  induction a as [|x a IH]; simpl; [reflexivity|].
  now rewrite N.eqb_refl, IH.
Qed.

Lemma eqb_eq (a b : str) : PyStr.eqb a b = true <-> a = b.
Proof.
  split.
  - revert b; induction a as [|x a IH]; intros [|y b]; simpl;
      try discriminate; [reflexivity|].
    intros H. apply andb_true_iff in H as [Hx Hab].
    apply N.eqb_eq in Hx. apply IH in Hab. now subst.
  - intros ->. apply eqb_refl.
Qed.

Lemma nonempty_true (s : str) : nonempty s = true <-> s <> [].
Proof. destruct s; simpl; split; congruence. Qed.

(** [lstrip] leaves nothing, or a string that starts with a character
    that is not whitespace. *)
Lemma lstrip_head (s : str) :
  lstrip s = [] \/ exists c t, lstrip s = c :: t /\ isspace c = false.
Proof.
  induction s as [|c s IH]; simpl; [now left|].
  destruct (isspace c) eqn:E; [exact IH|].
  right. now exists c, s.
Qed.

Lemma rstrip_cons_nonspace (c : char) (t : str) :
  isspace c = false -> exists r, rstrip (c :: t) = c :: r.
Proof.
  intros E. simpl. destruct (rstrip t) as [|x r].
  - rewrite E. now exists [].
  - now exists (x :: r).
Qed.

Lemma rstrip_idempotent (s : str) : rstrip (rstrip s) = rstrip s.
Proof.
  induction s as [|c s IH]; simpl; [reflexivity|].
  destruct (rstrip s) as [|x r] eqn:E.
  - destruct (isspace c) eqn:Ec; simpl; [reflexivity|now rewrite Ec].
  - change (rstrip (c :: x :: r)) with
      (match rstrip (x :: r) with
       | [] => if isspace c then [] else [c]
       | y :: r' => c :: y :: r'
       end).
    now rewrite IH.
Qed.

Lemma strip_idempotent (s : str) : strip (strip s) = strip s.
Proof.
  unfold strip.
  destruct (lstrip_head s) as [E | (c & t & E & Hc)]; rewrite E.
  - reflexivity.
  - destruct (rstrip_cons_nonspace c t Hc) as [r Hr].
    rewrite Hr. simpl lstrip. rewrite Hc. rewrite <- Hr.
    apply rstrip_idempotent.
Qed.

(** [rstrip] agrees with dropping leading whitespace from the reversed
    string. *)
Lemma rstrip_app_space (s : str) (c : char) :
  isspace c = true -> rstrip (s ++ [c]) = rstrip s.
Proof.
  intros Hc. induction s as [|x s IH]; simpl.
  - now rewrite Hc.
  - now rewrite IH.
Qed.

Lemma rstrip_app_nonspace (s : str) (c : char) :
  isspace c = false -> rstrip (s ++ [c]) = s ++ [c].
Proof.
  intros Hc. induction s as [|x s IH]; simpl.
  - now rewrite Hc.
  - rewrite IH. destruct (s ++ [c]) eqn:E; [|reflexivity].
    now destruct s.
Qed.

Lemma rstrip_rev (s : str) : rstrip s = rev (lstrip (rev s)).
Proof.
  rewrite <- (rev_involutive s) at 1.
  induction (rev s) as [|c t IH]; simpl; [reflexivity|].
  destruct (isspace c) eqn:Hc.
  - now rewrite rstrip_app_space.
  - now rewrite rstrip_app_nonspace.
Qed.

Example strip_examples :
  strip (lit "  Weekly sync.  ") = lit "Weekly sync." /\
  strip ([0x3000; 9; 10] ++ lit "a b" ++ [0xA0; 0x2028])%N = lit "a b" /\
  strip (lit "   ") = [] /\
  of_int (-12) = lit "-12" /\ of_int 0 = lit "0".
Proof. repeat split; reflexivity. Qed.

Example join_examples :
  join nl [lit "A"; lit "B"] = lit "A" ++ nl ++ lit "B" /\
  join nl [lit "A"] = lit "A" /\
  join nl [] = [].
Proof. repeat split; reflexivity. Qed.

Example str_examples :
  py_str example_builtins (VStr (lit "Alice")) = lit "Alice" /\
  py_str example_builtins VNone = lit "None" /\
  py_str example_builtins (VBool true) = lit "True" /\
  py_str example_builtins (VList [VInt 1; VNone]) = lit "[1, None]".
Proof. repeat split; reflexivity. Qed.

(* ================================================================== *)
(** ** The sanitizer, [_clean_minutes] *)
(* ================================================================== *)

Section Sanitizer.
Variable B : Builtins.

(** The comprehension filters before it maps; the specification maps
    before it filters. *)
Lemma stripped_items_sanitized (items : list value) :
  stripped_items B items = sanitized_list B items.
Proof.
  unfold stripped_items, sanitized_list.
  induction items as [|p items IH]; simpl; [reflexivity|].
  destruct (nonempty (strip (py_str B p))); simpl; now rewrite IH.
Qed.

Lemma sanitized_list_fixed (items : list value) :
  sanitized_list B (List.map VStr (sanitized_list B items))
  = sanitized_list B items.
Proof.
  unfold sanitized_list.
  induction items as [|p items IH]; simpl; [reflexivity|].
  destruct (nonempty (strip (py_str B p))) eqn:E; simpl; [|exact IH].
  rewrite strip_idempotent, E, IH. reflexivity.
Qed.

Lemma clean_list_elements (d : dict) (key : str) :
  clean_list B (VDict d) key =
  match elements d key with
  | Some l => Return (VList (List.map VStr (sanitized_list B l)))
  | None =>
      Raise (TypeError
        (lit "'" ++ type_name (get d key (VList [])) ++
         lit "' object is not iterable"))
  end.
Proof.
  unfold clean_list, dot_get, iterate, elements, get; simpl.
  destruct (lookup key d) as [v|]; simpl.
  - destruct (iter v); simpl; [|reflexivity].
    now rewrite stripped_items_sanitized.
  - reflexivity.
Qed.

Lemma clean_summary (d : dict) :
  (let t := strip (py_str B (get d (lit "summary") (VStr []))) in
   if nonempty t then t else lit "No summary available.")
  = sanitized_summary B d.
Proof.
  unfold sanitized_summary, get, placeholder; simpl.
  now destruct (strip _).
Qed.

(** The record the sanitizer builds from the elements of the fields. *)
Lemma clean_minutes_returns (d : dict) (l1 l2 l3 l4 : list value) :
  elements d (lit "participants") = Some l1 ->
  elements d (lit "discussion_points") = Some l2 ->
  elements d (lit "outcomes_or_decisions") = Some l3 ->
  elements d (lit "next_steps") = Some l4 ->
  _clean_minutes B (VDict d) =
  Return (to_dict {| summary := sanitized_summary B d;
                     participants := sanitized_list B l1;
                     discussion_points := sanitized_list B l2;
                     outcomes_or_decisions := sanitized_list B l3;
                     next_steps := sanitized_list B l4 |}).
Proof.
  intros H1 H2 H3 H4. unfold _clean_minutes.
  rewrite !clean_list_elements, H1, H2, H3, H4.
  cbn [dot_get obind]. rewrite clean_summary. reflexivity.
Qed.

(** Conversely, the sanitizer returns only when every list field can be
    iterated. *)
Lemma clean_minutes_inversion (d r : dict) :
  _clean_minutes B (VDict d) = Return r ->
  exists l1 l2 l3 l4,
    elements d (lit "participants") = Some l1 /\
    elements d (lit "discussion_points") = Some l2 /\
    elements d (lit "outcomes_or_decisions") = Some l3 /\
    elements d (lit "next_steps") = Some l4.
Proof.
  unfold _clean_minutes. rewrite !clean_list_elements. cbn [dot_get obind].
  destruct (elements d (lit "participants")) as [l1|]; [|discriminate].
  destruct (elements d (lit "discussion_points")) as [l2|]; [|discriminate].
  destruct (elements d (lit "outcomes_or_decisions")) as [l3|]; [|discriminate].
  destruct (elements d (lit "next_steps")) as [l4|]; [|discriminate].
  intros _. now exists l1, l2, l3, l4.
Qed.

Lemma iterable_fields_elements (d : dict) :
  iterable_fields d = true ->
  exists l1 l2 l3 l4,
    elements d (lit "participants") = Some l1 /\
    elements d (lit "discussion_points") = Some l2 /\
    elements d (lit "outcomes_or_decisions") = Some l3 /\
    elements d (lit "next_steps") = Some l4.
Proof.
  unfold iterable_fields, list_fields. cbn [forallb].
  destruct (elements d (lit "participants")) as [l1|]; [|discriminate].
  destruct (elements d (lit "discussion_points")) as [l2|]; [|discriminate].
  destruct (elements d (lit "outcomes_or_decisions")) as [l3|]; [|discriminate].
  destruct (elements d (lit "next_steps")) as [l4|]; [|discriminate].
  intros _. now exists l1, l2, l3, l4.
Qed.

Lemma sanitized_summary_stripped (d : dict) :
  strip (sanitized_summary B d) = sanitized_summary B d /\
  sanitized_summary B d <> [].
Proof.
  unfold sanitized_summary.
  destruct (strip (py_str B _)) as [|c t] eqn:E.
  - split; [reflexivity|discriminate].
  - split; [|discriminate]. rewrite <- E. apply strip_idempotent.
Qed.

(** The sanitizer leaves a sanitized record as it is. *)
Lemma clean_minutes_fixed (d : dict) (l1 l2 l3 l4 : list value) :
  let r := {| summary := sanitized_summary B d;
              participants := sanitized_list B l1;
              discussion_points := sanitized_list B l2;
              outcomes_or_decisions := sanitized_list B l3;
              next_steps := sanitized_list B l4 |} in
  _clean_minutes B (VDict (to_dict r)) = Return (to_dict r).
Proof.
  intros r.
  rewrite (clean_minutes_returns (to_dict r)
             (List.map VStr (participants r))
             (List.map VStr (discussion_points r))
             (List.map VStr (outcomes_or_decisions r))
             (List.map VStr (next_steps r))); try reflexivity.
  subst r. cbn [participants discussion_points outcomes_or_decisions
                next_steps summary].
  rewrite !sanitized_list_fixed.
  assert (Hs : sanitized_summary B
                 (to_dict {| summary := sanitized_summary B d;
                             participants := sanitized_list B l1;
                             discussion_points := sanitized_list B l2;
                             outcomes_or_decisions := sanitized_list B l3;
                             next_steps := sanitized_list B l4 |})
               = sanitized_summary B d).
  { destruct (sanitized_summary_stripped d) as [H1 H2].
    unfold sanitized_summary at 1.
    change (lookup (lit "summary") (to_dict _))
      with (Some (VStr (sanitized_summary B d))).
    cbn [py_str]. rewrite H1.
    destruct (sanitized_summary B d); [contradiction|reflexivity]. }
  now rewrite Hs.
Qed.

End Sanitizer.

(** C2 (amended): for every parsed response dictionary whose four list
    fields are each missing or iterable, sanitization returns the record
    in which each list field holds the field's elements coerced to
    strings and trimmed, the elements that are empty after trimming
    dropped and the order kept, and in which the summary is the trimmed
    string of the [summary] value, or the placeholder when that is empty;
    a missing list field has no elements and a missing summary is the
    empty string. *)
Theorem clean_minutes_sanitizes (B : Builtins) (response : dict)
    (l1 l2 l3 l4 : list value) :
  elements response (lit "participants") = Some l1 ->
  elements response (lit "discussion_points") = Some l2 ->
  elements response (lit "outcomes_or_decisions") = Some l3 ->
  elements response (lit "next_steps") = Some l4 ->
  _clean_minutes B (VDict response) =
  Return (to_dict {| summary := sanitized_summary B response;
                     participants := sanitized_list B l1;
                     discussion_points := sanitized_list B l2;
                     outcomes_or_decisions := sanitized_list B l3;
                     next_steps := sanitized_list B l4 |}).
Proof. apply clean_minutes_returns. Qed.

(** The sanitizer on an untidy response with a stray key. *)
Lemma clean_minutes_sanitizes_untidy :
  (elements untidy (lit "participants")
     = Some [VStr (lit "Alice "); VNone] /\
   elements untidy (lit "discussion_points") = Some [] /\
   elements untidy (lit "outcomes_or_decisions") = Some [] /\
   elements untidy (lit "next_steps")
     = Some [VStr (lit " call Bob "); VStr (lit "   "); VInt 7]) /\
  _clean_minutes example_builtins (VDict untidy) =
  Return [ (lit "summary", VStr (lit "Weekly sync."));
           (lit "participants", VList [VStr (lit "Alice"); VStr (lit "None")]);
           (lit "discussion_points", VList []);
           (lit "outcomes_or_decisions", VList []);
           (lit "next_steps", VList [VStr (lit "call Bob"); VStr (lit "7")]) ].
Proof.
  split; [repeat split; reflexivity|].
  exact (eq_trans
           (clean_minutes_sanitizes example_builtins untidy
              [VStr (lit "Alice "); VNone] [] []
              [VStr (lit " call Bob "); VStr (lit "   "); VInt 7]
              eq_refl eq_refl eq_refl eq_refl)
           eq_refl).
Defined.

(** C2 as stated fails on a response whose [participants] is JSON
    [null]: the sanitizer raises [TypeError] instead of producing a
    record. *)
Lemma clean_minutes_null_field_raises :
  _clean_minutes example_builtins (VDict null_participants)
  = Raise (TypeError (lit "'NoneType' object is not iterable")).
Proof. reflexivity. Qed.

(** C6: sanitization is idempotent.  Feeding the sanitizer its own
    output gives that output again; where the sanitizer raises on [x],
    both sides are that exception. *)
Theorem clean_minutes_idempotent (B : Builtins) (x : dict) :
  obind (_clean_minutes B (VDict x)) (fun r => _clean_minutes B (VDict r))
  = _clean_minutes B (VDict x).
Proof.
  destruct (_clean_minutes B (VDict x)) as [r|e] eqn:E; [|reflexivity].
  destruct (clean_minutes_inversion B x r E)
    as (l1 & l2 & l3 & l4 & H1 & H2 & H3 & H4).
  rewrite (clean_minutes_returns B x l1 l2 l3 l4 H1 H2 H3 H4) in E.
  injection E as <-. cbn [obind].
  apply clean_minutes_fixed.
Qed.

(** C10 (amended): for every input dictionary that a parsed response
    can be, its ints within the interpreter's limit on int-to-str
    conversion, and whose four list fields are each missing or
    iterable, the sanitizer returns a canonical record: its keys are
    exactly the five canonical keys, in that order, whatever other keys
    the input has, with a string under [summary] and a list of strings
    under each list field.  The fallback record does not have these
    keys. *)
Theorem clean_minutes_schema (B : Builtins) (response : dict) :
  within_digit_limit (VDict response) = true ->
  iterable_fields response = true ->
  (exists r : MinutesRecord,
     _clean_minutes B (VDict response) = Return (to_dict r) /\
     keys (to_dict r) = canonical_keys) /\
  keys _create_fallback_minutes <> canonical_keys.
Proof.
  intros _ H. split; [|discriminate].
  destruct (iterable_fields_elements response H)
    as (l1 & l2 & l3 & l4 & H1 & H2 & H3 & H4).
  eexists. split; [|reflexivity].
  apply (clean_minutes_returns B response l1 l2 l3 l4 H1 H2 H3 H4).
Qed.

(** The untidy response, whose one int is [7], has iterable fields and
    is made canonical. *)
Lemma clean_minutes_schema_untidy :
  within_digit_limit (VDict untidy) = true /\
  iterable_fields untidy = true /\
  (exists r : MinutesRecord,
     _clean_minutes example_builtins (VDict untidy) = Return (to_dict r) /\
     keys (to_dict r) = canonical_keys) /\
  keys _create_fallback_minutes <> canonical_keys.
Proof.
  assert (H : within_digit_limit (VDict untidy) = true)
    by (vm_compute; reflexivity).
  split; [exact H|]. split; [reflexivity|].
  exact (clean_minutes_schema example_builtins untidy H eq_refl).
Defined.

(** C10 as stated fails on a dictionary whose [next_steps] is a number:
    the sanitizer raises [TypeError] and returns no record. *)
Lemma clean_minutes_numeric_field_raises :
  iterable_fields numeric_next_steps = false /\
  _clean_minutes example_builtins (VDict numeric_next_steps)
  = Raise (TypeError (lit "'int' object is not iterable")).
Proof. split; reflexivity. Qed.

(** The sanitizer returns exactly on the dictionaries whose list fields
    are missing or iterable. *)
Lemma clean_minutes_returns_iff (B : Builtins) (response : dict) :
  (exists r, _clean_minutes B (VDict response) = Return r)
  <-> iterable_fields response = true.
Proof.
  split.
  - intros [r Hr].
    destruct (clean_minutes_inversion B response r Hr)
      as (l1 & l2 & l3 & l4 & H1 & H2 & H3 & H4).
    unfold iterable_fields, list_fields. cbn [forallb].
    now rewrite H1, H2, H3, H4.
  - intros H.
    destruct (iterable_fields_elements response H)
      as (l1 & l2 & l3 & l4 & H1 & H2 & H3 & H4).
    eexists. apply (clean_minutes_returns B response l1 l2 l3 l4 H1 H2 H3 H4).
Qed.

(** On a value that is not a dict the sanitizer raises: only a dict has
    [get]. *)
Example clean_minutes_on_a_list :
  _clean_minutes example_builtins (VList [])
  = Raise (AttributeError (lit "'list' object has no attribute 'get'")).
Proof. reflexivity. Qed.

(** The end-to-end scenario of the specification. *)
Example clean_minutes_ship_v2 :
  _clean_minutes example_builtins (VDict ship_v2)
  = Return (to_dict ship_v2_record).
Proof. reflexivity. Qed.

(* ================================================================== *)
(** ** The fallback record *)
(* ================================================================== *)

(** C3 (amended): in the fallback record the summary is the sentinel,
    which contains the phrase callers look for; [participants],
    [decisions] and [action_items] are empty lists; [key_topics] holds
    the single marker [Manual review required]; [next_steps] holds the
    single entry [Review transcript manually]; [discussion_points] and
    [outcomes_or_decisions] are not in the record, and read as empty
    lists through their default. *)
Theorem fallback_minutes_fields :
  keys _create_fallback_minutes
    = [ lit "summary"; lit "participants"; lit "key_topics";
        lit "decisions"; lit "action_items"; lit "next_steps" ] /\
  lookup (lit "summary") _create_fallback_minutes = Some (VStr sentinel) /\
  signals_failure _create_fallback_minutes = Return true /\
  lookup (lit "participants") _create_fallback_minutes = Some (VList []) /\
  lookup (lit "decisions") _create_fallback_minutes = Some (VList []) /\
  lookup (lit "action_items") _create_fallback_minutes = Some (VList []) /\
  lookup (lit "key_topics") _create_fallback_minutes
    = Some (VList [VStr (lit "Manual review required")]) /\
  lookup (lit "next_steps") _create_fallback_minutes
    = Some (VList [VStr (lit "Review transcript manually")]) /\
  lookup (lit "discussion_points") _create_fallback_minutes = None /\
  lookup (lit "outcomes_or_decisions") _create_fallback_minutes = None /\
  get _create_fallback_minutes (lit "discussion_points") (VList [])
    = VList [] /\
  get _create_fallback_minutes (lit "outcomes_or_decisions") (VList [])
    = VList [].
Proof. repeat split; reflexivity. Qed.

(** C3 as stated fails: the canonical list field [next_steps] of the
    fallback record is not empty. *)
Lemma fallback_next_steps_not_empty :
  get _create_fallback_minutes (lit "next_steps") (VList [])
    = VList [VStr (lit "Review transcript manually")] /\
  canonical_lists_empty _create_fallback_minutes = false.
Proof. split; reflexivity. Qed.

(* ================================================================== *)
(** ** The client, [OpenAIClient] *)
(* ================================================================== *)

Lemma generate_unconfigured (B : Builtins) (P : Provider)
    (transcript : str) (w : World) :
  client (self w) = None ->
  generate_meeting_minutes B P transcript w
  = (Return _create_fallback_minutes, w).
Proof.
  intros H. unfold generate_meeting_minutes. run. now rewrite H.
Qed.

(** With a client, [generate_meeting_minutes] makes the one completion
    call and returns what the [try] body returns, or the fallback when
    the body raises an [Exception]. *)
Lemma generate_configured (B : Builtins) (P : Provider)
    (transcript : str) (w : World) (c : OpenAI) :
  client (self w) = Some c ->
  generate_meeting_minutes B P transcript w =
  let w1 :=
    logged (ChatCompletionsCreate c
              (completion_request (model (self w)) transcript)) w in
  match attempt B P c (model (self w)) transcript with
  | Return r => (Return r, w1)
  | Raise e =>
      if is_Exception e
      then (Return _create_fallback_minutes,
            with_last_error (Some (message e)) w1)
      else (Raise e, w1)
  end.
Proof.
  intros H. unfold generate_meeting_minutes, attempt. run. rewrite H.
  destruct (chat_completions_create P c _) as [response|e]; cbn [obind];
    [|destruct (is_Exception e); run; rewrite ?H; reflexivity].
  destruct (index0 (choices response)) as [choice|e]; cbn [obind];
    [|destruct (is_Exception e); run; rewrite ?H; reflexivity].
  destruct (json_loads P (message_content choice)) as [minutes|e];
    cbn [obind]; [|destruct (is_Exception e); run; rewrite ?H; reflexivity].
  destruct (_clean_minutes B minutes) as [r|e]; [reflexivity|].
  destruct (is_Exception e); run; rewrite ?H; reflexivity.
Qed.

Lemma test_connection_unconfigured (P : Provider) (w : World) :
  client (self w) = None ->
  test_connection P w =
  (Return (false,
           match last_error (self w) with
           | Some (c :: m) => c :: m
           | _ => lit "OpenAI client is not initialized"
           end), w).
Proof.
  intros H. unfold test_connection. run. rewrite H.
  now destruct (last_error (self w)) as [[|x m]|].
Qed.

Lemma test_connection_configured (P : Provider) (w : World) (c : OpenAI) :
  client (self w) = Some c ->
  test_connection P w =
  let w1 := logged (ModelsList c) w in
  match models_list P c with
  | Return _ => (Return (true, lit "Connection successful"), w1)
  | Raise e =>
      if is_Exception e
      then (Return (false, message e), with_last_error (Some (message e)) w1)
      else (Raise e, w1)
  end.
Proof.
  intros H. unfold test_connection. run. rewrite H.
  destruct (models_list P c) as [[]|e]; [reflexivity|].
  destruct (is_Exception e); run; rewrite ?H; reflexivity.
Qed.

(** Whatever the sanitizer raises is an [Exception]. *)
Lemma clean_minutes_raises_Exception (B : Builtins) (v : value) (e : exn) :
  _clean_minutes B v = Raise e -> is_Exception e = true.
Proof.
  destruct v as [| | | | |l|d];
    try (intros H; injection H as <-; reflexivity).
  unfold _clean_minutes. rewrite !clean_list_elements. cbn [dot_get obind].
  destruct (elements d (lit "participants"));
    [|intros H; injection H as <-; reflexivity].
  destruct (elements d (lit "discussion_points"));
    [|intros H; injection H as <-; reflexivity].
  destruct (elements d (lit "outcomes_or_decisions"));
    [|intros H; injection H as <-; reflexivity].
  destruct (elements d (lit "next_steps"));
    [discriminate|intros H; injection H as <-; reflexivity].
Qed.

Lemma attempt_raises_Exception (B : Builtins) (P : Provider) (c : OpenAI)
    (m transcript : str) (e : exn) :
  (forall c r e, chat_completions_create P c r = Raise e ->
                 is_Exception e = true) ->
  (forall s e, json_loads_str P s = Raise e -> is_Exception e = true) ->
  attempt B P c m transcript = Raise e -> is_Exception e = true.
Proof.
  intros Hc Hj. unfold attempt.
  destruct (chat_completions_create P c _) as [response|e0] eqn:E;
    cbn [obind]; [|intros H; injection H as <-; eapply Hc, E].
  destruct (choices response) as [|choice rest]; cbn [index0 obind];
    [intros H; injection H as <-; reflexivity|].
  destruct (message_content choice) as [body|]; cbn [json_loads];
    [|intros H; injection H as <-; reflexivity].
  destruct (json_loads_str P body) as [minutes|e0] eqn:E'; cbn [obind];
    [|intros H; injection H as <-; eapply Hj, E'].
  apply clean_minutes_raises_Exception.
Qed.

Lemma completion_fails_attempt (B : Builtins) (P : Provider) (c : OpenAI)
    (m transcript : str) (e : exn) :
  completion_fails P c (completion_request m transcript) e ->
  attempt B P c m transcript = Raise e.
Proof.
  unfold attempt. intros [H | response choice H1 H2 H3].
  - now rewrite H.
  - rewrite H1. cbn [obind]. rewrite H2. cbn [obind]. now rewrite H3.
Qed.

(** C1: [generate_meeting_minutes] never raises to its caller.  For
    every transcript, provided what the completion call and the JSON
    parser raise are [Exception]s, the method returns a record; and when
    the completion call fails with [e] (a transport failure, or a
    response body that does not parse), the record returned is the
    fallback record, [last_error] is the text of [e], and the fallback's
    summary is the fixed sentinel string. *)
Theorem generate_never_raises (B : Builtins) (P : Provider)
    (transcript : str) (w : World) :
  (forall c r e, chat_completions_create P c r = Raise e ->
                 is_Exception e = true) ->
  (forall s e, json_loads_str P s = Raise e -> is_Exception e = true) ->
  exists r w',
    generate_meeting_minutes B P transcript w = (Return r, w') /\
    (forall c e,
        client (self w) = Some c ->
        completion_fails P c
          (completion_request (model (self w)) transcript) e ->
        r = _create_fallback_minutes /\
        last_error (self w') = Some (message e)) /\
    lookup (lit "summary") _create_fallback_minutes = Some (VStr sentinel).
Proof.
  intros Hc Hj.
  destruct (client (self w)) as [c|] eqn:Hw.
  - rewrite (generate_configured B P transcript w c Hw). cbv zeta.
    destruct (attempt B P c (model (self w)) transcript) as [r|e] eqn:E.
    + do 2 eexists. split; [reflexivity|]. split; [|reflexivity].
      intros c' e' Hc' Hf. injection Hc' as <-.
      rewrite (completion_fails_attempt B P c _ _ e' Hf) in E.
      discriminate.
    + rewrite (attempt_raises_Exception B P c _ _ e Hc Hj E).
      do 2 eexists. split; [reflexivity|]. split; [|reflexivity].
      intros c' e' Hc' Hf. injection Hc' as <-.
      rewrite (completion_fails_attempt B P c _ _ e' Hf) in E.
      injection E as <-. split; reflexivity.
  - rewrite (generate_unconfigured B P transcript w Hw).
    do 2 eexists. split; [reflexivity|]. split; [|reflexivity].
    intros c e Hc'. discriminate.
Qed.

(** A provider that cannot be reached raises only [Exception]s; its
    completion call fails, and generation returns the fallback record
    with the cause in [last_error]. *)
Lemma generate_never_raises_unreachable :
  (forall c r e, chat_completions_create unreachable c r = Raise e ->
                 is_Exception e = true) /\
  (forall s e, json_loads_str unreachable s = Raise e ->
               is_Exception e = true) /\
  completion_fails unreachable a_client
    (completion_request (model (self ready)) transcript_v2)
    APIConnectionError /\
  exists r w',
    generate_meeting_minutes example_builtins unreachable transcript_v2 ready
      = (Return r, w') /\
    r = _create_fallback_minutes /\
    last_error (self w') = Some (lit "Connection error.") /\
    lookup (lit "summary") r = Some (VStr sentinel).
Proof.
  assert (H1 : forall c r e,
             chat_completions_create unreachable c r = Raise e ->
             is_Exception e = true).
  { intros c r e H. injection H as <-. reflexivity. }
  assert (H2 : forall s e, json_loads_str unreachable s = Raise e ->
                           is_Exception e = true).
  { intros s e H. injection H as <-. reflexivity. }
  assert (H3 : completion_fails unreachable a_client
                 (completion_request (model (self ready)) transcript_v2)
                 APIConnectionError).
  { apply transport_failure. reflexivity. }
  destruct (generate_never_raises example_builtins unreachable
              transcript_v2 ready H1 H2) as (r & w' & E & F & S).
  destruct (F a_client APIConnectionError eq_refl H3) as [Fr Fe].
  refine (conj H1 (conj H2 (conj H3 _))).
  exists r, w'. rewrite Fr at 3. exact (conj E (conj Fr (conj Fe S))).
Defined.

(** A transport failure, a body that is not JSON, and a body whose
    [participants] is [null] all end in the fallback record, with the
    cause in [last_error] and one network call made. *)
Example generate_failures :
  generate_meeting_minutes example_builtins unreachable transcript_v2 ready
  = (Return _create_fallback_minutes,
     with_last_error (Some (lit "Connection error."))
       (logged (ChatCompletionsCreate a_client
                  (completion_request (lit "gpt-4o-mini") transcript_v2))
          ready)) /\
  generate_meeting_minutes example_builtins
    (answering (Some (lit "oops")) (Raise JSONDecodeError)) transcript_v2 ready
  = (Return _create_fallback_minutes,
     with_last_error (Some (lit "Expecting value: line 1 column 1 (char 0)"))
       (logged (ChatCompletionsCreate a_client
                  (completion_request (lit "gpt-4o-mini") transcript_v2))
          ready)) /\
  generate_meeting_minutes example_builtins
    (answering (Some (lit "{...}")) (Return (VDict null_participants)))
    transcript_v2 ready
  = (Return _create_fallback_minutes,
     with_last_error (Some (lit "'NoneType' object is not iterable"))
       (logged (ChatCompletionsCreate a_client
                  (completion_request (lit "gpt-4o-mini") transcript_v2))
          ready)).
Proof. repeat split; reflexivity. Qed.

Example generate_ship_v2 :
  generate_meeting_minutes example_builtins answering_ship_v2
    transcript_v2 ready
  = (Return (to_dict ship_v2_record),
     logged (ChatCompletionsCreate a_client
               (completion_request (lit "gpt-4o-mini") transcript_v2))
       ready).
Proof. reflexivity. Qed.

(** C7: on an unconfigured client, [test_connection] returns [False]
    with a message that is not empty, [generate_meeting_minutes] returns
    the fallback record, and neither attempts a network call: the log of
    calls, like the rest of the state, is as before, and the result does
    not depend on the provider. *)
Theorem unconfigured_makes_no_call (B : Builtins) (P P' : Provider)
    (transcript : str) (w : World) :
  client (self w) = None ->
  (exists m, test_connection P w = (Return (false, m), w) /\ m <> []) /\
  generate_meeting_minutes B P transcript w
    = (Return _create_fallback_minutes, w) /\
  network (snd (test_connection P w)) = network w /\
  network (snd (generate_meeting_minutes B P transcript w)) = network w /\
  test_connection P' w = test_connection P w /\
  generate_meeting_minutes B P' transcript w
    = generate_meeting_minutes B P transcript w.
Proof.
  intros H.
  rewrite !(test_connection_unconfigured _ w H).
  rewrite !(generate_unconfigured B _ transcript w H).
  split; [|repeat split; reflexivity].
  eexists. split; [reflexivity|].
  now destruct (last_error (self w)) as [[|c m]|].
Qed.

(** An instance created without a key, against two providers. *)
Lemma unconfigured_makes_no_call_example :
  client (self unconfigured) = None /\
  (exists m,
     test_connection unreachable unconfigured
       = (Return (false, m), unconfigured) /\ m <> []) /\
  generate_meeting_minutes example_builtins unreachable transcript_v2
    unconfigured
    = (Return _create_fallback_minutes, unconfigured) /\
  network (snd (test_connection unreachable unconfigured))
    = network unconfigured /\
  network (snd (generate_meeting_minutes example_builtins unreachable
                  transcript_v2 unconfigured))
    = network unconfigured /\
  test_connection answering_ship_v2 unconfigured
    = test_connection unreachable unconfigured /\
  generate_meeting_minutes example_builtins answering_ship_v2 transcript_v2
    unconfigured
    = generate_meeting_minutes example_builtins unreachable transcript_v2
        unconfigured.
Proof.
  split; [reflexivity|].
  exact (unconfigured_makes_no_call example_builtins unreachable
           answering_ship_v2 transcript_v2 unconfigured eq_refl).
Defined.

Example test_connection_unconfigured_message :
  test_connection unreachable unconfigured
  = (Return (false, lit "OPENAI_API_KEY is missing"), unconfigured) /\
  test_connection unreachable (with_last_error None unconfigured)
  = (Return (false, lit "OpenAI client is not initialized"),
     with_last_error None unconfigured).
Proof. split; reflexivity. Qed.

(** What [_init_client] leaves in the state. *)
Lemma init_client_runs (P : Provider) (api_key base_url : option str)
    (w : World) :
  _init_client P api_key base_url w =
  if negb (truthy_opt api_key) then
    (Return tt,
     with_last_error (Some (lit "OPENAI_API_KEY is missing"))
       {| self := {| client := None; model := model (self w);
                     last_error := last_error (self w) |};
          network := network w |})
  else
    match OpenAI_new P (match api_key with Some k => k | None => [] end)
            (if truthy_opt base_url then base_url else None) with
    | Return c =>
        (Return tt,
         {| self := {| client := Some c; model := model (self w);
                       last_error := None |};
            network := network w |})
    | Raise e =>
        if is_Exception e
        then (Return tt,
              {| self := {| client := None; model := model (self w);
                            last_error :=
                              Some (lit "Failed to initialize OpenAI client: "
                                    ++ message e) |};
                 network := network w |})
        else (Raise e, w)
    end.
Proof.
  unfold _init_client. run.
  destruct (negb (truthy_opt api_key)); [reflexivity|].
  destruct (truthy_opt base_url);
    (destruct (OpenAI_new P _ _) as [c|e];
     [reflexivity|destruct (is_Exception e); reflexivity]).
Qed.

(** C8 (amended): [_init_client], and so [set_api_key], writes
    [last_error] on every path: the missing-key message, [None] once the
    client is built, or the text of the [Exception] the constructor
    raised.  [test_connection] and [generate_meeting_minutes] write
    [last_error] only when the call they make (for the latter also the
    parsing and sanitizing that follow) raises an [Exception]; after a
    success, and on an unconfigured client, [last_error] is what it was
    before. *)
Theorem last_error_after (B : Builtins) (P : Provider) (w : World) :
  (forall api_key base_url,
      last_error (self (snd (_init_client P api_key base_url w))) =
      if negb (truthy_opt api_key)
      then Some (lit "OPENAI_API_KEY is missing")
      else
        match OpenAI_new P (match api_key with Some k => k | None => [] end)
                (if truthy_opt base_url then base_url else None) with
        | Return _ => None
        | Raise e =>
            if is_Exception e
            then Some (lit "Failed to initialize OpenAI client: "
                       ++ message e)
            else last_error (self w)
        end) /\
  (forall api_key,
      last_error (self (snd (set_api_key P api_key w))) =
      last_error (self (snd (_init_client P (Some api_key) None w)))) /\
  last_error (self (snd (test_connection P w))) =
    match client (self w) with
    | None => last_error (self w)
    | Some c =>
        match models_list P c with
        | Return _ => last_error (self w)
        | Raise e =>
            if is_Exception e then Some (message e) else last_error (self w)
        end
    end /\
  (forall transcript,
      last_error (self (snd (generate_meeting_minutes B P transcript w))) =
      match client (self w) with
      | None => last_error (self w)
      | Some c =>
          match attempt B P c (model (self w)) transcript with
          | Return _ => last_error (self w)
          | Raise e =>
              if is_Exception e then Some (message e) else last_error (self w)
          end
      end).
Proof.
  repeat split.
  - intros api_key base_url. rewrite init_client_runs.
    destruct (negb (truthy_opt api_key)); [reflexivity|].
    destruct (OpenAI_new P _ _) as [c|e]; [reflexivity|].
    destruct (is_Exception e); reflexivity.
  - intros api_key. unfold set_api_key. run.
    destruct (_init_client P (Some api_key) None w) as [[[]|e] w'];
      reflexivity.
  - destruct (client (self w)) as [c|] eqn:H.
    + rewrite (test_connection_configured P w c H). cbv zeta.
      destruct (models_list P c) as [[]|e]; [reflexivity|].
      destruct (is_Exception e); reflexivity.
    + now rewrite (test_connection_unconfigured P w H).
  - intros transcript. destruct (client (self w)) as [c|] eqn:H.
    + rewrite (generate_configured B P transcript w c H). cbv zeta.
      destruct (attempt B P c (model (self w)) transcript) as [r|e];
        [reflexivity|].
      destruct (is_Exception e); reflexivity.
    + now rewrite (generate_unconfigured B P transcript w H).
Qed.

(** C8 as stated fails: a connection test and a generation that succeed
    leave the error of an earlier failure in [last_error]. *)
Lemma success_keeps_stale_error :
  test_connection answering_ship_v2 ready_with_stale_error
  = (Return (true, lit "Connection successful"),
     logged (ModelsList a_client) ready_with_stale_error) /\
  last_error
    (self (snd (test_connection answering_ship_v2 ready_with_stale_error)))
  = Some (lit "Connection error.") /\
  fst (generate_meeting_minutes example_builtins answering_ship_v2
         transcript_v2 ready_with_stale_error)
  = Return (to_dict ship_v2_record) /\
  last_error
    (self (snd (generate_meeting_minutes example_builtins answering_ship_v2
                  transcript_v2 ready_with_stale_error)))
  = Some (lit "Connection error.").
Proof. repeat split; reflexivity. Qed.

(** A fresh instance built with no key in the arguments or in the
    environment is unconfigured. *)
Example init_without_key :
  __init__ unreachable None None
    {| self := {| client := None; model := []; last_error := None |};
       network := [] |}
  = (Return tt, unconfigured).
Proof. reflexivity. Qed.

Example set_api_key_examples :
  set_api_key unreachable (lit "sk-test") unconfigured
  = (Return true, ready) /\
  set_api_key unreachable [] ready_with_stale_error
  = (Return false, unconfigured).
Proof. split; reflexivity. Qed.

(* ================================================================== *)
(** ** The formatter, [format_minutes_as_markdown] *)
(* ================================================================== *)

Section Formatting.
Variable B : Builtins.

Lemma bullets_of_strings (items : list str) :
  bullets B (VList (List.map VStr items)) = Return (bulleted items).
Proof.
  unfold bullets, bulleted, iterate. cbn [iter obind].
  rewrite map_map. reflexivity.
Qed.

(** On a dict that holds [r], the [sections] list is the fixed list of
    blocks of [r]. *)
Lemma sections_of_record (minutes : dict) (r : MinutesRecord) :
  holds minutes r ->
  sections B minutes
  = Return (List.map (fun b => (fst b, VStr (snd b))) (section_blocks r)).
Proof.
  intros (H1 & H2 & H3 & H4 & H5). unfold sections, get.
  rewrite H1, H2, H3, H4, H5, !bullets_of_strings. reflexivity.
Qed.

(** Skipping the falsy contents is skipping the empty strings. *)
Lemma blocks_of_strings (blocks : list (str * str)) :
  List.map (block B)
    (List.filter (fun sec => truthy (snd sec))
       (List.map (fun b => (fst b, VStr (snd b))) blocks))
  = List.map rendered (List.filter (fun b => nonempty (snd b)) blocks).
Proof.
  induction blocks as [|[h c] blocks IH]; simpl; [reflexivity|].
  destruct (nonempty c); simpl; now rewrite IH.
Qed.

Lemma format_of_record (minutes : dict) (r : MinutesRecord) :
  holds minutes r ->
  format_minutes_as_markdown B minutes
  = Return (join (nl ++ nl) (List.map rendered (emitted r))).
Proof.
  intros H. unfold format_minutes_as_markdown, emitted.
  rewrite (sections_of_record minutes r H). cbn [obind].
  now rewrite blocks_of_strings.
Qed.

(** The formatter reads its argument through [get] alone. *)
Lemma format_by_lookup (m m' : dict) :
  (forall key, lookup key m = lookup key m') ->
  format_minutes_as_markdown B m = format_minutes_as_markdown B m'.
Proof.
  intros H. unfold format_minutes_as_markdown, sections, get.
  now rewrite !H.
Qed.

End Formatting.

Lemma lookup_not_in (key : str) (d : dict) :
  ~ In key (keys d) -> lookup key d = None.
Proof.
  induction d as [|[k v] d IH]; simpl; [reflexivity|].
  intros H. destruct (PyStr.eqb k key) eqn:E.
  - apply eqb_eq in E. subst. exfalso. apply H. now left.
  - apply IH. intros Hin. apply H. now right.
Qed.

(** In a dict, whose keys are distinct, the order of the entries does
    not change what a key gives. *)
Lemma lookup_permutation (m m' : dict) :
  Permutation m m' -> NoDup (keys m) ->
  forall key, lookup key m = lookup key m'.
Proof.
  induction 1 as [|[k v] l l' Hp IH|[k1 v1] [k2 v2] l|l l' l'' H1 IH1 H2 IH2];
    intros Hnd key.
  - reflexivity.
  - simpl. inversion Hnd; subst. now rewrite IH.
  - simpl. destruct (PyStr.eqb k1 key) eqn:E1, (PyStr.eqb k2 key) eqn:E2;
      try reflexivity.
    apply eqb_eq in E1, E2. subst.
    inversion Hnd as [|? ? Hnin _]; subst. exfalso. apply Hnin. now left.
  - rewrite IH1 by assumption. apply IH2.
    unfold keys in *.
    eapply Permutation_NoDup; [|exact Hnd]. now apply Permutation_map.
Qed.

(** C4: for every MinutesRecord, wherever its fields stand in the dict
    that holds it, the formatter emits the blocks of the fixed list
    Summary, Participants, Discussion Points, Outcomes or Decisions,
    Next Steps in that order, each a header line followed by its
    content, leaves out every block whose content is the empty string
    (so no emitted block has an empty body), and joins the emitted
    blocks with one blank line; reordering the entries of the dict does
    not change the output. *)
Theorem format_sections_in_fixed_order (B : Builtins) (minutes : dict)
    (r : MinutesRecord) :
  holds minutes r ->
  format_minutes_as_markdown B minutes
    = Return (join (nl ++ nl) (List.map rendered (emitted r))) /\
  emitted r = List.filter (fun b => nonempty (snd b)) (section_blocks r) /\
  List.map fst (section_blocks r)
    = [ header_summary; header_participants; header_discussion_points;
        header_outcomes_or_decisions; header_next_steps ] /\
  Forall (fun b => snd b <> []) (emitted r) /\
  (forall minutes',
      NoDup (keys minutes) -> Permutation minutes minutes' ->
      format_minutes_as_markdown B minutes'
      = format_minutes_as_markdown B minutes).
Proof.
  intros H. split; [now apply format_of_record|].
  split; [reflexivity|]. split; [reflexivity|]. split.
  - unfold emitted. apply Forall_forall. intros b Hb.
    apply filter_In in Hb as [_ Hb]. now apply nonempty_true.
  - intros minutes' Hnd Hp. apply format_by_lookup. intros key.
    symmetry. now apply lookup_permutation.
Qed.

(** The end-to-end record, stored with its fields in reverse order:
    three blocks are emitted, and the output is that of the record
    stored in the usual order. *)
Lemma format_sections_in_fixed_order_ship_v2 :
  holds (rev ship_v2) ship_v2_record /\
  NoDup (keys (rev ship_v2)) /\
  Permutation (rev ship_v2) ship_v2 /\
  format_minutes_as_markdown example_builtins (rev ship_v2)
    = Return (join (nl ++ nl) (List.map rendered (emitted ship_v2_record))) /\
  List.map fst (emitted ship_v2_record)
    = [header_summary; header_participants; header_outcomes_or_decisions] /\
  Forall (fun b => snd b <> []) (emitted ship_v2_record) /\
  format_minutes_as_markdown example_builtins ship_v2
    = format_minutes_as_markdown example_builtins (rev ship_v2).
Proof.
  assert (H : holds (rev ship_v2) ship_v2_record)
    by (repeat split; reflexivity).
  assert (Hnd : NoDup (keys (rev ship_v2))).
  { repeat constructor; cbv; intuition discriminate. }
  assert (Hp : Permutation (rev ship_v2) ship_v2)
    by apply Permutation_sym, Permutation_rev.
  destruct (format_sections_in_fixed_order example_builtins (rev ship_v2)
              ship_v2_record H) as (T1 & T2 & _ & T4 & T5).
  refine (conj H (conj Hnd (conj Hp (conj T1 (conj _ (conj T4 _)))))).
  - rewrite T2. reflexivity.
  - exact (T5 ship_v2 Hnd Hp).
Defined.

(** The end-to-end scenario: three sections, Discussion Points and Next
    Steps left out, whatever the order of the fields. *)
Example format_ship_v2 :
  format_minutes_as_markdown example_builtins ship_v2
  = Return (header_summary ++ nl ++ lit "Team agreed to ship v2 Friday."
            ++ nl ++ nl ++
            header_participants ++ nl ++ lit "- Alice"
            ++ nl ++ nl ++
            header_outcomes_or_decisions ++ nl ++ lit "- Ship v2 Friday") /\
  format_minutes_as_markdown example_builtins (rev ship_v2)
  = format_minutes_as_markdown example_builtins ship_v2.
Proof. split; reflexivity. Qed.

(** The fallback record is formatted too: its stray keys are ignored. *)
Example format_fallback :
  format_minutes_as_markdown example_builtins _create_fallback_minutes
  = Return (header_summary ++ nl ++ sentinel
            ++ nl ++ nl ++
            header_next_steps ++ nl ++ lit "- Review transcript manually").
Proof. reflexivity. Qed.

(** C5: for every MinutesRecord whose summary is the empty string and
    whose four list fields are empty lists, the formatter returns the
    empty string. *)
Theorem format_empty_record (B : Builtins) (minutes : dict)
    (r : MinutesRecord) :
  summary r = [] ->
  participants r = [] ->
  discussion_points r = [] ->
  outcomes_or_decisions r = [] ->
  next_steps r = [] ->
  holds minutes r ->
  format_minutes_as_markdown B minutes = Return [].
Proof.
  intros H1 H2 H3 H4 H5 H.
  rewrite (format_of_record B minutes r H).
  unfold emitted, section_blocks. rewrite H1, H2, H3, H4, H5. reflexivity.
Qed.

(** The record with every field empty. *)
Lemma format_empty_record_example :
  holds (to_dict empty_record) empty_record /\
  format_minutes_as_markdown example_builtins (to_dict empty_record)
  = Return [].
Proof.
  assert (H : holds (to_dict empty_record) empty_record)
    by (repeat split; reflexivity).
  exact (conj H
           (format_empty_record example_builtins (to_dict empty_record)
              empty_record eq_refl eq_refl eq_refl eq_refl eq_refl H)).
Defined.

(* ================================================================== *)
(** ** The extractors *)
(* ================================================================== *)

Lemma fold_append_stripped (texts acc : list str) :
  fold_left append_stripped texts acc
  = acc ++ List.filter nonempty (List.map strip texts).
Proof.
  revert acc. induction texts as [|t texts IH]; intros acc; simpl.
  - now rewrite app_nil_r.
  - rewrite IH. unfold append_stripped.
    destruct (nonempty (strip t)); [|reflexivity].
    now rewrite <- app_assoc.
Qed.

Lemma fold_rows (table : list (list str)) (acc : list str) :
  fold_left (fun parts row => fold_left append_stripped row parts) table acc
  = acc ++ List.filter nonempty (List.map strip (List.concat table)).
Proof.
  revert acc. induction table as [|row table IH]; intros acc; simpl.
  - now rewrite app_nil_r.
  - rewrite IH, fold_append_stripped, map_app, filter_app.
    now rewrite <- app_assoc.
Qed.

Lemma fold_tables (tables : list (list (list str))) (acc : list str) :
  fold_left
    (fun parts table =>
       fold_left (fun parts row => fold_left append_stripped row parts)
         table parts)
    tables acc
  = acc ++ List.filter nonempty
             (List.map strip (List.concat (List.concat tables))).
Proof.
  revert acc. induction tables as [|table tables IH]; intros acc; simpl.
  - now rewrite app_nil_r.
  - rewrite IH, fold_rows, concat_app, map_app, filter_app.
    now rewrite <- app_assoc.
Qed.

(** C9 (amended): Word-document extraction takes the text of every
    paragraph in document order, then the text of every table cell,
    table by table and row by row, never interleaved with the
    paragraphs; trims each text, keeps the ones that are not empty after
    trimming, and joins them with single newlines.  It returns the empty
    string when the document cannot be parsed.  One paragraph [A] and
    one table cell [X] give [A], a newline, [X]. *)
Theorem extract_text_from_docx_trimmed (File : Type)
    (Document : File -> outcome DocxDocument) (file : File) :
  extract_text_from_docx File Document file =
    match Document file with
    | Return doc => Return (docx_text_trimmed doc)
    | Raise e => if is_Exception e then Return [] else Raise e
    end /\
  extract_text_from_docx unit (fun _ => Return doc_A_X) tt
    = Return (lit "A" ++ nl ++ lit "X").
Proof.
  split; [|reflexivity].
  unfold extract_text_from_docx, docx_text_trimmed, docx_fragments.
  destruct (Document file) as [doc|e]; cbn [obind otry]; [|reflexivity].
  rewrite fold_tables, fold_append_stripped, map_app, filter_app.
  reflexivity.
Qed.

(** C9 as stated fails on a document with the paragraphs [ A ] (padded
    with spaces) and a run of three spaces: the code yields [A], while
    the untrimmed non-empty fragments joined by newlines are the two
    paragraphs as they stand. *)
Lemma extract_text_from_docx_trims :
  extract_text_from_docx unit (fun _ => Return doc_padded) tt
    = Return (lit "A") /\
  docx_text_untrimmed doc_padded = lit " A " ++ nl ++ lit "   ".
Proof. split; reflexivity. Qed.

Example extract_text_from_docx_examples :
  extract_text_from_docx unit
    (fun _ => Return {| paragraphs := [lit "A"; lit "B"]; tables := [] |}) tt
    = Return (lit "A" ++ nl ++ lit "B") /\
  extract_text_from_docx unit
    (fun _ => Raise {| cls := lit "PackageNotFoundError";
                       is_Exception := true;
                       message := lit "Package not found" |}) tt
    = Return [] /\
  extract_text_from_docx unit
    (fun _ => Return
       {| paragraphs := [lit "P1"; lit "P2"];
          tables := [ [ [lit "a"; lit "b"]; [lit "c"; lit ""] ];
                      [ [lit "d"] ] ] |}) tt
    = Return (join nl [lit "P1"; lit "P2"; lit "a"; lit "b"; lit "c"; lit "d"]).
Proof. repeat split; reflexivity. Qed.

Example extract_text_from_pdf_examples :
  extract_text_from_pdf unit
    (fun _ => Return {| pages := [Return (Some (lit "Hello"))] |}) tt
    = Return (lit "Hello") /\
  extract_text_from_pdf unit
    (fun _ => Return {| pages := [Return (Some (lit "One ")); Return None;
                                  Return (Some (lit " Two"))] |}) tt
    = Return (lit "One" ++ nl ++ nl ++ lit "Two") /\
  extract_text_from_pdf unit
    (fun _ => Return {| pages := [Return (Some (lit "One"));
                                  Raise (TypeError (lit "bad page"))] |}) tt
    = Return [].
Proof. repeat split; reflexivity. Qed.

(* ================================================================== *)
(** ** Further properties: trimmed text *)
(* ================================================================== *)

Import Props MoreExamples.

Lemma trimmed_head (s : str) :
  trimmed s -> exists c t, s = c :: t /\ isspace c = false.
Proof.
  intros [Hs Hne]. unfold strip in Hs.
  destruct (lstrip_head s) as [E | (c & t & E & Hc)].
  - rewrite E in Hs. simpl in Hs. now subst.
  - rewrite E in Hs. destruct (rstrip_cons_nonspace c t Hc) as [r Hr].
    rewrite Hr in Hs. now exists c, r.
Qed.

Lemma trimmed_rstrip (s : str) : strip s = s -> rstrip s = s.
Proof.
  intros H. rewrite <- H at 1. unfold strip.
  rewrite rstrip_idempotent. exact H.
Qed.

Lemma rstrip_app_trimmed (x b : str) :
  rstrip b = b -> b <> [] -> rstrip (x ++ b) = x ++ b.
Proof.
  intros Hb Hne. induction x as [|c x IH]; simpl; [exact Hb|].
  rewrite IH. destruct (x ++ b) eqn:E; [|reflexivity].
  apply app_eq_nil in E as [_ E]. contradiction.
Qed.

Lemma strip_of_trimmed (s : str) :
  rstrip s = s -> (exists c t, s = c :: t /\ isspace c = false) ->
  strip s = s.
Proof.
  intros Hr (c & t & -> & Hc). unfold strip.
  simpl lstrip. rewrite Hc. exact Hr.
Qed.

(** Joining trimmed strings gives a trimmed string, whatever the
    separator. *)
Lemma join_trimmed (sep p : str) (rest : list str) :
  Forall trimmed (p :: rest) -> trimmed (join sep (p :: rest)).
Proof.
  revert p. induction rest as [|q rest IH]; intros p H.
  - inversion H; subst. assumption.
  - inversion H as [|? ? Hp Hrest]; subst.
    specialize (IH q Hrest). destruct IH as [IHs IHne].
    change (join sep (p :: q :: rest))
      with (p ++ sep ++ join sep (q :: rest)).
    destruct (trimmed_head p Hp) as (c & t & -> & Hc).
    split; [|discriminate].
    apply strip_of_trimmed.
    + rewrite app_assoc. apply rstrip_app_trimmed; [|exact IHne].
      now apply trimmed_rstrip.
    + now exists c, (t ++ sep ++ join sep (q :: rest)).
Qed.

Lemma strip_join_trimmed (sep : str) (parts : list str) :
  Forall trimmed parts -> strip (join sep parts) = join sep parts.
Proof.
  destruct parts as [|p rest]; [reflexivity|].
  intros H. now apply join_trimmed.
Qed.

Lemma join_empty_iff (sep : str) (parts : list str) :
  Forall trimmed parts -> (join sep parts = [] <-> parts = []).
Proof.
  intros H. destruct parts as [|p rest]; [now split|].
  split; [|discriminate].
  intros E. now destruct (join_trimmed sep p rest H) as [_ Hne].
Qed.

(** What survives trimming and the emptiness test is trimmed. *)
Lemma stripped_nonempty_trimmed (texts : list str) :
  Forall trimmed (List.filter nonempty (List.map strip texts)).
Proof.
  apply Forall_forall. intros s Hs.
  apply filter_In in Hs as [Hin Hne].
  apply in_map_iff in Hin as (t & <- & _).
  split; [apply strip_idempotent|now apply nonempty_true].
Qed.

Lemma stripped_nonempty_nil_iff (texts : list str) :
  List.filter nonempty (List.map strip texts) = []
  <-> Forall (fun t => strip t = []) texts.
Proof.
  induction texts as [|t texts IH]; simpl.
  - split; [constructor|reflexivity].
  - destruct (strip t) eqn:E; simpl.
    + rewrite IH. split; [now constructor|now inversion 1].
    + split; [discriminate|]. inversion 1; congruence.
Qed.

(* ================================================================== *)
(** ** Further properties: the extractors *)
(* ================================================================== *)

Lemma docx_returns (File : Type) (Document : File -> outcome DocxDocument)
    (file : File) (doc : DocxDocument) :
  Document file = Return doc ->
  extract_text_from_docx File Document file = Return (docx_text_trimmed doc).
Proof.
  intros H.
  unfold extract_text_from_docx, docx_text_trimmed, docx_fragments.
  rewrite H. cbn [obind otry].
  rewrite fold_tables, fold_append_stripped, map_app, filter_app.
  reflexivity.
Qed.

(** The page loop, when no page raises. *)
Lemma pdf_loop_returns (texts : list (option str)) (acc : list str) :
  pdf_loop (List.map Return texts) acc
  = Return (acc ++ List.filter nonempty
                     (List.map strip (List.map page_text texts))).
Proof.
  revert acc. induction texts as [|t texts IH]; intros acc; simpl.
  - now rewrite app_nil_r.
  - rewrite IH. destruct t as [s|]; simpl.
    + destruct (nonempty (strip s)) eqn:E.
      * assert (Hs : nonempty s = true) by (destruct s; [discriminate|reflexivity]).
        rewrite Hs. simpl. now rewrite <- app_assoc.
      * now rewrite andb_false_r.
    + reflexivity.
Qed.

(** The page loop stops at the first page that raises. *)
Lemma pdf_loop_raises (texts : list (option str)) (e : exn)
    (rest : list (outcome (option str))) (acc : list str) :
  pdf_loop (List.map Return texts ++ Raise e :: rest) acc = Raise e.
Proof.
  revert acc. induction texts as [|t texts IH]; intros acc; simpl.
  - reflexivity.
  - apply IH.
Qed.

(** X1: when the reader opens and every page gives its text (or
    [None]), PDF extraction returns the page texts, trimmed, in page
    order, joined by a blank line; a page with no text, or with only
    whitespace, is skipped. *)
Theorem extract_text_from_pdf_pages (File : Type)
    (PdfReader : File -> outcome PdfDocument) (file : File)
    (reader : PdfDocument) (texts : list (option str)) :
  PdfReader file = Return reader ->
  pages reader = List.map Return texts ->
  extract_text_from_pdf File PdfReader file
  = Return (join (nl ++ nl)
              (List.filter nonempty
                 (List.map strip (List.map page_text texts)))).
Proof.
  intros H1 H2. unfold extract_text_from_pdf.
  rewrite H1. cbn [obind]. rewrite H2, pdf_loop_returns. reflexivity.
Qed.

(** A two-page document with an empty and a blank page in between. *)
Lemma extract_text_from_pdf_pages_example :
  extract_text_from_pdf unit (fun _ => Return pdf_two_pages) tt
  = Return (lit "Hello" ++ nl ++ nl ++ lit "World").
Proof.
  exact (extract_text_from_pdf_pages unit (fun _ => Return pdf_two_pages) tt
           pdf_two_pages
           [Some (lit " Hello "); None; Some (lit "   "); Some (lit "World")]
           eq_refl eq_refl).
Defined.

(** X2: when the reader cannot be opened, or any page raises, with an
    [Exception], PDF extraction returns the empty string: the text of
    the pages read before the failing one is lost with it. *)
Theorem extract_text_from_pdf_failure (File : Type)
    (PdfReader : File -> outcome PdfDocument) (file : File) (e : exn) :
  pdf_fails File PdfReader file e ->
  is_Exception e = true ->
  extract_text_from_pdf File PdfReader file = Return [].
Proof.
  intros [H | reader texts rest H1 H2] He; unfold extract_text_from_pdf.
  - rewrite H. cbn [obind otry]. now rewrite He.
  - rewrite H1. cbn [obind]. rewrite H2, pdf_loop_raises.
    cbn [obind otry]. now rewrite He.
Qed.

(** A document whose second page cannot be read. *)
Lemma extract_text_from_pdf_failure_example :
  pdf_fails unit (fun _ => Return pdf_bad_second_page) tt
    (TypeError (lit "bad page")) /\
  extract_text_from_pdf unit (fun _ => Return pdf_bad_second_page) tt
  = Return [].
Proof.
  assert (H : pdf_fails unit (fun _ => Return pdf_bad_second_page) tt
                (TypeError (lit "bad page"))).
  { apply (page_fails unit (fun _ => Return pdf_bad_second_page) tt _
             pdf_bad_second_page [Some (lit "Hello")]
             [Return (Some (lit "World"))]); reflexivity. }
  exact (conj H
           (extract_text_from_pdf_failure unit
              (fun _ => Return pdf_bad_second_page) tt
              (TypeError (lit "bad page")) H eq_refl)).
Defined.

(** X3: whatever either extractor returns is already trimmed: [strip]
    leaves it as it is. *)
Theorem extracted_text_is_stripped (File : Type)
    (PdfReader : File -> outcome PdfDocument)
    (Document : File -> outcome DocxDocument) (file : File) :
  (forall s, extract_text_from_docx File Document file = Return s ->
             strip s = s) /\
  (forall s, extract_text_from_pdf File PdfReader file = Return s ->
             strip s = s).
Proof.
  split; intros s.
  - destruct (Document file) as [doc|e] eqn:E.
    + rewrite (docx_returns File Document file doc E).
      intros H. injection H as <-.
      apply strip_join_trimmed, stripped_nonempty_trimmed.
    + unfold extract_text_from_docx. rewrite E. cbn [obind otry].
      destruct (is_Exception e); [|discriminate].
      intros H. now injection H as <-.
  - unfold extract_text_from_pdf.
    destruct (PdfReader file) as [reader|e]; cbn [obind otry].
    + destruct (pdf_loop (pages reader) []) as [parts|e] eqn:E;
        cbn [obind otry].
      * intros H. injection H as <-.
        apply strip_join_trimmed.
        assert (G : forall ps acc parts,
                   pdf_loop ps acc = Return parts ->
                   Forall trimmed acc -> Forall trimmed parts).
        { clear. induction ps as [|[t|e] ps IH]; intros acc parts; simpl.
          - intros H. now injection H as <-.
          - intros H Hacc. apply (IH _ _ H).
            destruct (truthy_opt t && nonempty (strip _)) eqn:C;
              [|exact Hacc].
            apply Forall_app. split; [exact Hacc|].
            constructor; [|constructor].
            apply andb_true_iff in C as [_ C].
            split; [apply strip_idempotent|now apply nonempty_true].
          - discriminate. }
        apply (G _ _ _ E). constructor.
      * destruct (is_Exception e); [|discriminate].
        intros H. now injection H as <-.
    + destruct (is_Exception e); [|discriminate].
      intros H. now injection H as <-.
Qed.

(** The padded document and the two-page PDF. *)
Lemma extracted_text_is_stripped_example :
  strip (lit "A") = lit "A" /\
  strip (lit "Hello" ++ nl ++ nl ++ lit "World")
  = lit "Hello" ++ nl ++ nl ++ lit "World".
Proof.
  destruct (extracted_text_is_stripped unit
              (fun _ => Return pdf_two_pages)
              (fun _ => Return doc_padded) tt) as [Hd Hp].
  exact (conj (Hd (lit "A") eq_refl)
              (Hp (lit "Hello" ++ nl ++ nl ++ lit "World") eq_refl)).
Defined.

(** X4: Word-document extraction of a document that parses returns the
    empty string exactly when no paragraph and no table cell has a
    character that is not whitespace. *)
Theorem extract_text_from_docx_empty_iff (File : Type)
    (Document : File -> outcome DocxDocument) (file : File)
    (doc : DocxDocument) :
  Document file = Return doc ->
  (extract_text_from_docx File Document file = Return []
   <-> Forall (fun t => strip t = []) (docx_fragments doc)).
Proof.
  intros H. rewrite (docx_returns File Document file doc H).
  unfold docx_text_trimmed.
  rewrite <- stripped_nonempty_nil_iff.
  rewrite <- (join_empty_iff nl _ (stripped_nonempty_trimmed _)).
  split; [intros E; now injection E|intros ->; reflexivity].
Qed.

(** A document of blank paragraphs and cells. *)
Lemma extract_text_from_docx_empty_iff_example :
  (extract_text_from_docx unit (fun _ => Return doc_blank) tt = Return []
   <-> Forall (fun t => strip t = []) (docx_fragments doc_blank)) /\
  extract_text_from_docx unit (fun _ => Return doc_blank) tt = Return [].
Proof.
  split; [|reflexivity].
  exact (extract_text_from_docx_empty_iff unit (fun _ => Return doc_blank) tt
           doc_blank eq_refl).
Defined.

(* ================================================================== *)
(** ** Further properties: the sanitizer and the formatter *)
(* ================================================================== *)

Lemma sanitized_list_trimmed (B : Builtins) (items : list value) :
  Forall trimmed (sanitized_list B items).
Proof.
  unfold sanitized_list.
  rewrite <- (map_map (py_str B) strip). apply stripped_nonempty_trimmed.
Qed.

Lemma sanitized_list_nil_iff (B : Builtins) (items : list value) :
  sanitized_list B items = []
  <-> Forall (fun e => strip (py_str B e) = []) items.
Proof.
  unfold sanitized_list.
  rewrite <- (map_map (py_str B) strip), stripped_nonempty_nil_iff.
  apply Forall_map.
Qed.

(** Whatever the sanitizer returns is the dict of a record whose fields
    are the sanitized elements of the response. *)
Lemma clean_minutes_record (B : Builtins) (v : value) (r : dict) :
  _clean_minutes B v = Return r ->
  exists d l1 l2 l3 l4,
    v = VDict d /\
    elements d (lit "participants") = Some l1 /\
    elements d (lit "discussion_points") = Some l2 /\
    elements d (lit "outcomes_or_decisions") = Some l3 /\
    elements d (lit "next_steps") = Some l4 /\
    r = to_dict {| summary := sanitized_summary B d;
                   participants := sanitized_list B l1;
                   discussion_points := sanitized_list B l2;
                   outcomes_or_decisions := sanitized_list B l3;
                   next_steps := sanitized_list B l4 |}.
Proof.
  destruct v as [| | | | | |d]; try discriminate.
  intros H.
  destruct (clean_minutes_inversion B d r H)
    as (l1 & l2 & l3 & l4 & H1 & H2 & H3 & H4).
  rewrite (clean_minutes_returns B d l1 l2 l3 l4 H1 H2 H3 H4) in H.
  injection H as <-.
  now exists d, l1, l2, l3, l4.
Qed.

(** X5: whatever the sanitizer returns is a record whose summary is
    trimmed and not empty, and whose list entries are all trimmed and
    not empty. *)
Theorem clean_minutes_entries_trimmed (B : Builtins) (v : value) (r : dict) :
  _clean_minutes B v = Return r ->
  exists rec : MinutesRecord,
    r = to_dict rec /\
    trimmed (summary rec) /\
    Forall trimmed (participants rec) /\
    Forall trimmed (discussion_points rec) /\
    Forall trimmed (outcomes_or_decisions rec) /\
    Forall trimmed (next_steps rec).
Proof.
  intros H.
  destruct (clean_minutes_record B v r H)
    as (d & l1 & l2 & l3 & l4 & _ & _ & _ & _ & _ & ->).
  eexists. split; [reflexivity|]. cbn [summary participants
    discussion_points outcomes_or_decisions next_steps].
  split; [exact (sanitized_summary_stripped B d)|].
  repeat split; apply sanitized_list_trimmed.
Qed.

(** The untidy response. *)
Lemma clean_minutes_entries_trimmed_example :
  exists rec : MinutesRecord,
    to_dict {| summary := lit "Weekly sync.";
               participants := [lit "Alice"; lit "None"];
               discussion_points := [];
               outcomes_or_decisions := [];
               next_steps := [lit "call Bob"; lit "7"] |} = to_dict rec /\
    trimmed (summary rec) /\
    Forall trimmed (participants rec) /\
    Forall trimmed (discussion_points rec) /\
    Forall trimmed (outcomes_or_decisions rec) /\
    Forall trimmed (next_steps rec).
Proof.
  exact (clean_minutes_entries_trimmed example_builtins (VDict untidy) _
           eq_refl).
Defined.

(** X6: the sanitizer and the formatter read a dict through the five
    canonical keys alone: on two dicts that agree on these keys, each
    gives the same result, whatever other keys the dicts hold and in
    whatever order. *)
Theorem canonical_keys_only (B : Builtins) (m m' : dict) :
  agree_on_canonical_keys m m' ->
  _clean_minutes B (VDict m) = _clean_minutes B (VDict m') /\
  format_minutes_as_markdown B m = format_minutes_as_markdown B m'.
Proof.
  intros H.
  assert (H1 : lookup (lit "summary") m = lookup (lit "summary") m')
    by (apply H; simpl; tauto).
  assert (H2 : lookup (lit "participants") m
               = lookup (lit "participants") m')
    by (apply H; simpl; tauto).
  assert (H3 : lookup (lit "discussion_points") m
               = lookup (lit "discussion_points") m')
    by (apply H; simpl; tauto).
  assert (H4 : lookup (lit "outcomes_or_decisions") m
               = lookup (lit "outcomes_or_decisions") m')
    by (apply H; simpl; tauto).
  assert (H5 : lookup (lit "next_steps") m = lookup (lit "next_steps") m')
    by (apply H; simpl; tauto).
  split.
  - unfold _clean_minutes, clean_list, dot_get, get.
    now rewrite H1, H2, H3, H4, H5.
  - unfold format_minutes_as_markdown, sections, get.
    now rewrite H1, H2, H3, H4, H5.
Qed.

(** The end-to-end response, reversed and with two stray keys. *)
Lemma canonical_keys_only_example :
  agree_on_canonical_keys ship_v2
    ((lit "title", VInt 1) :: rev ship_v2 ++ [(lit "mood", VNone)]) /\
  _clean_minutes example_builtins (VDict ship_v2)
  = _clean_minutes example_builtins
      (VDict ((lit "title", VInt 1) :: rev ship_v2 ++ [(lit "mood", VNone)])) /\
  format_minutes_as_markdown example_builtins ship_v2
  = format_minutes_as_markdown example_builtins
      ((lit "title", VInt 1) :: rev ship_v2 ++ [(lit "mood", VNone)]).
Proof.
  assert (H : agree_on_canonical_keys ship_v2
                ((lit "title", VInt 1) :: rev ship_v2
                 ++ [(lit "mood", VNone)])).
  { intros key [<-|[<-|[<-|[<-|[<-|[]]]]]]; reflexivity. }
  exact (conj H (canonical_keys_only example_builtins ship_v2 _ H)).
Defined.

(** X7: formatting what the sanitizer returned never raises, and the
    output always starts with the Summary block, whose body is not
    empty. *)
Theorem format_of_sanitized (B : Builtins) (v : value) (r : dict) :
  _clean_minutes B v = Return r ->
  exists (s : str) (rest : list str),
    s <> [] /\
    lookup (lit "summary") r = Some (VStr s) /\
    format_minutes_as_markdown B r
    = Return (join (nl ++ nl) ((header_summary ++ nl ++ s) :: rest)).
Proof.
  intros H.
  destruct (clean_minutes_record B v r H)
    as (d & l1 & l2 & l3 & l4 & _ & _ & _ & _ & _ & ->).
  set (rec := {| summary := sanitized_summary B d;
                 participants := sanitized_list B l1;
                 discussion_points := sanitized_list B l2;
                 outcomes_or_decisions := sanitized_list B l3;
                 next_steps := sanitized_list B l4 |}).
  assert (Hh : holds (to_dict rec) rec) by (repeat split; reflexivity).
  rewrite (format_of_record B (to_dict rec) rec Hh).
  destruct (sanitized_summary_stripped B d) as [_ Hne].
  unfold emitted, section_blocks. cbn [List.filter snd summary].
  subst rec. cbn [summary].
  destruct (sanitized_summary B d) as [|c t] eqn:E; [contradiction|].
  cbn [nonempty List.map].
  eexists (c :: t), _. split; [discriminate|]. split; reflexivity.
Qed.

(** The untidy response, sanitized and formatted. *)
Lemma format_of_sanitized_example :
  exists (s : str) (rest : list str),
    s <> [] /\
    lookup (lit "summary")
      (to_dict {| summary := lit "Weekly sync.";
                  participants := [lit "Alice"; lit "None"];
                  discussion_points := [];
                  outcomes_or_decisions := [];
                  next_steps := [lit "call Bob"; lit "7"] |})
    = Some (VStr s) /\
    format_minutes_as_markdown example_builtins
      (to_dict {| summary := lit "Weekly sync.";
                  participants := [lit "Alice"; lit "None"];
                  discussion_points := [];
                  outcomes_or_decisions := [];
                  next_steps := [lit "call Bob"; lit "7"] |})
    = Return (join (nl ++ nl) ((header_summary ++ nl ++ s) :: rest)).
Proof.
  exact (format_of_sanitized example_builtins (VDict untidy) _ eq_refl).
Defined.

Lemma emitted_header (rec : MinutesRecord) (header : str) :
  In header (List.map fst (emitted rec)) ->
  exists content,
    In (header, content) (section_blocks rec) /\ content <> [].
Proof.
  intros H. apply in_map_iff in H as ([h c] & <- & Hb).
  apply filter_In in Hb as [Hin Hne].
  exists c. split; [exact Hin|now apply nonempty_true].
Qed.

(** X8: when every element of a list field of the response is blank
    (empty or whitespace once coerced to a string), the sanitizer returns
    the field as an empty list and the formatter leaves the field's
    section out. *)
Theorem blank_field_section_omitted (B : Builtins) (d r : dict)
    (key header : str) (l : list value) :
  In (key, header) list_sections ->
  elements d key = Some l ->
  Forall (fun e => strip (py_str B e) = []) l ->
  _clean_minutes B (VDict d) = Return r ->
  lookup key r = Some (VList []) /\
  exists rec : MinutesRecord,
    holds r rec /\
    ~ In header (List.map fst (emitted rec)) /\
    format_minutes_as_markdown B r
    = Return (join (nl ++ nl) (List.map rendered (emitted rec))).
Proof.
  intros Hk Hl Hblank H.
  apply sanitized_list_nil_iff in Hblank.
  destruct (clean_minutes_record B (VDict d) r H)
    as (d' & l1 & l2 & l3 & l4 & Hd & H1 & H2 & H3 & H4 & ->).
  injection Hd as <-.
  assert (Hh : forall rec, holds (to_dict rec) rec)
    by (intros rec; repeat split; reflexivity).
  destruct Hk as [Hk|[Hk|[Hk|[Hk|[]]]]]; injection Hk as <- <-.
  - rewrite Hl in H1. injection H1 as <-. rewrite Hblank.
    split; [reflexivity|]. eexists. split; [apply Hh|].
    split; [|now apply format_of_record].
    intros Hin. apply emitted_header in Hin as (c & Hin & Hne).
    destruct Hin as [E|[E|[E|[E|[E|[]]]]]];
      apply pair_equal_spec in E as [E1 E2];
      try (vm_compute in E1; discriminate).
    now subst c.
  - rewrite Hl in H2. injection H2 as <-. rewrite Hblank.
    split; [reflexivity|]. eexists. split; [apply Hh|].
    split; [|now apply format_of_record].
    intros Hin. apply emitted_header in Hin as (c & Hin & Hne).
    destruct Hin as [E|[E|[E|[E|[E|[]]]]]];
      apply pair_equal_spec in E as [E1 E2];
      try (vm_compute in E1; discriminate).
    now subst c.
  - rewrite Hl in H3. injection H3 as <-. rewrite Hblank.
    split; [reflexivity|]. eexists. split; [apply Hh|].
    split; [|now apply format_of_record].
    intros Hin. apply emitted_header in Hin as (c & Hin & Hne).
    destruct Hin as [E|[E|[E|[E|[E|[]]]]]];
      apply pair_equal_spec in E as [E1 E2];
      try (vm_compute in E1; discriminate).
    now subst c.
  - rewrite Hl in H4. injection H4 as <-. rewrite Hblank.
    split; [reflexivity|]. eexists. split; [apply Hh|].
    split; [|now apply format_of_record].
    intros Hin. apply emitted_header in Hin as (c & Hin & Hne).
    destruct Hin as [E|[E|[E|[E|[E|[]]]]]];
      apply pair_equal_spec in E as [E1 E2];
      try (vm_compute in E1; discriminate).
    now subst c.
Qed.

(** A response whose participants are all blank. *)
Lemma blank_field_section_omitted_example :
  In (lit "participants", header_participants) list_sections /\
  elements blank_participants (lit "participants")
    = Some [VStr (lit "  "); VStr []] /\
  Forall (fun e => strip (py_str example_builtins e) = [])
    [VStr (lit "  "); VStr []] /\
  lookup (lit "participants")
    (to_dict {| summary := lit "Weekly sync.";
                participants := [];
                discussion_points := [];
                outcomes_or_decisions := [];
                next_steps := [lit "call Bob"] |})
  = Some (VList []) /\
  format_minutes_as_markdown example_builtins
    (to_dict {| summary := lit "Weekly sync.";
                participants := [];
                discussion_points := [];
                outcomes_or_decisions := [];
                next_steps := [lit "call Bob"] |})
  = Return (header_summary ++ nl ++ lit "Weekly sync."
            ++ nl ++ nl ++ header_next_steps ++ nl ++ lit "- call Bob").
Proof.
  assert (H1 : In (lit "participants", header_participants) list_sections)
    by (left; reflexivity).
  assert (H3 : Forall (fun e => strip (py_str example_builtins e) = [])
                 [VStr (lit "  "); VStr []])
    by (repeat constructor).
  destruct (blank_field_section_omitted example_builtins blank_participants
              _ (lit "participants") header_participants
              [VStr (lit "  "); VStr []] H1 eq_refl H3 eq_refl)
    as [T1 _].
  exact (conj H1 (conj eq_refl (conj H3 (conj T1 eq_refl)))).
Defined.





Example format_not_iterable :
  iterable_fields numeric_participants = false /\
  format_minutes_as_markdown example_builtins numeric_participants
  = Raise (TypeError (lit "'int' object is not iterable")) /\
  format_minutes_as_markdown example_builtins numeric_next_steps
  = Raise (TypeError (lit "'int' object is not iterable")) /\
  format_minutes_as_markdown example_builtins
    [(lit "summary", VInt 0); (lit "participants", VStr (lit "ab"))]
  = Return (header_participants ++ nl ++ lit "- a" ++ nl ++ lit "- b").
Proof. repeat split; reflexivity. Qed.

(* ================================================================== *)
(** ** Further properties: the client *)
(* ================================================================== *)

(** What [set_api_key] returns and leaves in the state. *)
Lemma set_api_key_runs (P : Provider) (api_key : str) (w : World) :
  set_api_key P api_key w =
  match api_key with
  | [] =>
      (Return false,
       {| self := {| client := None; model := model (self w);
                     last_error := Some (lit "OPENAI_API_KEY is missing") |};
          network := network w |})
  | _ :: _ =>
      match OpenAI_new P api_key None with
      | Return c =>
          (Return true,
           {| self := {| client := Some c; model := model (self w);
                         last_error := None |};
              network := network w |})
      | Raise e =>
          if is_Exception e
          then (Return false,
                {| self := {| client := None; model := model (self w);
                              last_error :=
                                Some (lit "Failed to initialize OpenAI client: "
                                      ++ message e) |};
                   network := network w |})
          else (Raise e, w)
      end
  end.
Proof.
  unfold set_api_key. unfold bind at 1. rewrite init_client_runs.
  destruct api_key as [|x k]; [reflexivity|].
  cbn [truthy_opt nonempty negb].
  destruct (OpenAI_new P (x :: k) None) as [c|e]; [reflexivity|].
  destruct (is_Exception e); reflexivity.
Qed.

(** X10: [set_api_key] returns [True] exactly when it leaves a client
    in place.  It then has built the client from the key alone, with no
    [base_url], and cleared [last_error]; when it returns [False] there
    is no client and [last_error] holds a reason that is not empty.
    Either way it makes no network call and keeps the model. *)
Theorem set_api_key_result (P : Provider) (api_key : str) (w w' : World)
    (ok : bool) :
  set_api_key P api_key w = (Return ok, w') ->
  network w' = network w /\
  model (self w') = model (self w) /\
  if ok
  then api_key <> [] /\
       (exists c, OpenAI_new P api_key None = Return c /\
                  client (self w') = Some c) /\
       last_error (self w') = None
  else client (self w') = None /\
       truthy_opt (last_error (self w')) = true.
Proof.
  rewrite set_api_key_runs.
  destruct api_key as [|x k].
  - intros H. injection H as <- <-. repeat split; reflexivity.
  - destruct (OpenAI_new P (x :: k) None) as [c|e] eqn:E.
    + intros H. injection H as <- <-.
      split; [reflexivity|]. split; [reflexivity|].
      split; [discriminate|]. split; [|reflexivity].
      now exists c.
    + destruct (is_Exception e); [|discriminate].
      intros H. injection H as <- <-. repeat split; reflexivity.
Qed.

(** A key the constructor accepts. *)
Lemma set_api_key_result_example :
  set_api_key unreachable (lit "sk-test") unconfigured = (Return true, ready) /\
  network ready = network unconfigured /\
  model (self ready) = model (self unconfigured) /\
  lit "sk-test" <> [] /\
  (exists c, OpenAI_new unreachable (lit "sk-test") None = Return c /\
             client (self ready) = Some c) /\
  last_error (self ready) = None.
Proof.
  split; [reflexivity|].
  exact (set_api_key_result unreachable (lit "sk-test") unconfigured ready
           true eq_refl).
Defined.

(** X11: after a [set_api_key] that returned [False], [test_connection]
    returns [False] with the reason [set_api_key] recorded, for every
    provider and without a network call or a change of state. *)
Theorem set_api_key_failure_is_reported (P P' : Provider) (api_key : str)
    (w w' : World) :
  set_api_key P api_key w = (Return false, w') ->
  exists reason,
    last_error (self w') = Some reason /\
    reason <> [] /\
    test_connection P' w' = (Return (false, reason), w').
Proof.
  rewrite set_api_key_runs.
  destruct api_key as [|x k].
  - intros H. injection H as <-. eexists. split; [reflexivity|].
    split; [discriminate|reflexivity].
  - destruct (OpenAI_new P (x :: k) None) as [c|e]; [discriminate|].
    destruct (is_Exception e); [|discriminate].
    intros H. injection H as <-. eexists. split; [reflexivity|].
    split; [discriminate|reflexivity].
Qed.

(** A constructor that refuses the key. *)
Lemma set_api_key_failure_is_reported_example :
  set_api_key refusing (lit "sk-test") ready
  = (Return false,
     {| self := {| client := None; model := lit "gpt-4o-mini";
                   last_error :=
                     Some (lit "Failed to initialize OpenAI client: bad key") |};
        network := [] |}) /\
  exists reason,
    Some (lit "Failed to initialize OpenAI client: bad key") = Some reason /\
    reason <> [] /\
    test_connection unreachable
      {| self := {| client := None; model := lit "gpt-4o-mini";
                    last_error :=
                      Some (lit "Failed to initialize OpenAI client: bad key") |};
         network := [] |}
    = (Return (false, reason),
       {| self := {| client := None; model := lit "gpt-4o-mini";
                     last_error :=
                       Some (lit "Failed to initialize OpenAI client: bad key") |};
          network := [] |}).
Proof.
  split; [reflexivity|].
  exact (set_api_key_failure_is_reported refusing unreachable (lit "sk-test")
           ready _ eq_refl).
Defined.

Lemma test_connection_frame (P : Provider) (w : World) :
  client (self (snd (test_connection P w))) = client (self w) /\
  model (self (snd (test_connection P w))) = model (self w) /\
  network (snd (test_connection P w)) =
    network w ++ match client (self w) with
                 | Some c => [ModelsList c]
                 | None => []
                 end.
Proof.
  destruct (client (self w)) as [c|] eqn:H.
  - rewrite (test_connection_configured P w c H). cbv zeta.
    destruct (models_list P c) as [[]|e];
      [|destruct (is_Exception e)]; cbn; now rewrite ?H.
  - rewrite (test_connection_unconfigured P w H). cbn.
    now rewrite H, app_nil_r.
Qed.

Lemma generate_frame (B : Builtins) (P : Provider) (transcript : str)
    (w : World) :
  client (self (snd (generate_meeting_minutes B P transcript w)))
    = client (self w) /\
  model (self (snd (generate_meeting_minutes B P transcript w)))
    = model (self w) /\
  network (snd (generate_meeting_minutes B P transcript w)) =
    network w ++
    match client (self w) with
    | Some c =>
        [ChatCompletionsCreate c
           (completion_request (model (self w)) transcript)]
    | None => []
    end.
Proof.
  destruct (client (self w)) as [c|] eqn:H.
  - rewrite (generate_configured B P transcript w c H). cbv zeta.
    destruct (attempt B P c (model (self w)) transcript) as [r|e];
      [|destruct (is_Exception e)]; cbn; now rewrite ?H.
  - rewrite (generate_unconfigured B P transcript w H). cbn.
    now rewrite H, app_nil_r.
Qed.

(** X12: [test_connection] and [generate_meeting_minutes] never change
    the client or the model, and each makes exactly one network call on
    a configured instance and none otherwise, whatever the provider
    answers: there is no retry.  The completion request carries the
    instance's model and two messages, the system prompt and then, as
    the user, the line [Analyze this meeting transcript:], an empty
    line and the transcript; it asks for temperature 0.2, at most 3000
    tokens and a JSON object. *)
Theorem one_call_per_operation (B : Builtins) (P : Provider)
    (transcript : str) (w : World) :
  (client (self (snd (test_connection P w))) = client (self w) /\
   model (self (snd (test_connection P w))) = model (self w) /\
   network (snd (test_connection P w)) =
     network w ++ match client (self w) with
                  | Some c => [ModelsList c]
                  | None => []
                  end) /\
  (client (self (snd (generate_meeting_minutes B P transcript w)))
     = client (self w) /\
   model (self (snd (generate_meeting_minutes B P transcript w)))
     = model (self w) /\
   network (snd (generate_meeting_minutes B P transcript w)) =
     network w ++
     match client (self w) with
     | Some c =>
         [ChatCompletionsCreate c
            (completion_request (model (self w)) transcript)]
     | None => []
     end) /\
  (req_model (completion_request (model (self w)) transcript)
     = model (self w) /\
   req_messages (completion_request (model (self w)) transcript)
     = [ {| role := lit "system"; content := _get_system_prompt |};
         {| role := lit "user";
            content := lit "Analyze this meeting transcript:"
                       ++ nl ++ nl ++ transcript |} ] /\
   req_temperature (completion_request (model (self w)) transcript)
     = 2 # 10 /\
   req_max_tokens (completion_request (model (self w)) transcript)
     = 3000%Z /\
   req_response_format (completion_request (model (self w)) transcript)
     = [(lit "type", lit "json_object")]).
Proof.
  split; [apply test_connection_frame|].
  split; [apply generate_frame|].
  repeat split; reflexivity.
Qed.

(** X13: when the completion call returns a response the code cannot
    use (no choice, a first choice without content, or content that is
    JSON but not an object), [generate_meeting_minutes] returns the
    fallback record and [last_error] holds the text of the exception
    that resulted. *)
Theorem generate_unusable_response (B : Builtins) (P : Provider)
    (transcript : str) (w : World) (c : OpenAI) (response : Response)
    (text : str) :
  client (self w) = Some c ->
  chat_completions_create P c
    (completion_request (model (self w)) transcript) = Return response ->
  unusable P response text ->
  generate_meeting_minutes B P transcript w =
  (Return _create_fallback_minutes,
   with_last_error (Some text)
     (logged (ChatCompletionsCreate c
                (completion_request (model (self w)) transcript)) w)).
Proof.
  intros Hc Hr Hu.
  rewrite (generate_configured B P transcript w c Hc). cbv zeta.
  unfold attempt. rewrite Hr. cbn [obind].
  destruct Hu as [H | choice rest H1 H2 | choice rest body v H1 H2 H3 H4];
    rewrite ?H, ?H1; cbn [index0 obind]; rewrite ?H2; cbn [json_loads obind].
  - reflexivity.
  - reflexivity.
  - rewrite H3. cbn [obind].
    destruct v; try discriminate; reflexivity.
Qed.

(** A provider that answers with a JSON array. *)
Lemma generate_unusable_response_example :
  unusable answering_array {| choices := [ {| message_content := Some (lit "[]") |} ] |}
    (lit "'list' object has no attribute 'get'") /\
  generate_meeting_minutes example_builtins answering_array transcript_v2 ready
  = (Return _create_fallback_minutes,
     with_last_error (Some (lit "'list' object has no attribute 'get'"))
       (logged (ChatCompletionsCreate a_client
                  (completion_request (lit "gpt-4o-mini") transcript_v2))
          ready)).
Proof.
  assert (H : unusable answering_array
                {| choices := [ {| message_content := Some (lit "[]") |} ] |}
                (lit "'list' object has no attribute 'get'")).
  { apply (not_an_object answering_array _
             {| message_content := Some (lit "[]") |} [] (lit "[]")
             (VList [])); reflexivity. }
  exact (conj H
           (generate_unusable_response example_builtins answering_array
              transcript_v2 ready a_client _ _ eq_refl eq_refl H)).
Defined.

(** What the constructor leaves in the state. *)
Lemma init_runs (P : Provider) (api_key base_url : option str) (w0 : World) :
  __init__ P api_key base_url w0 =
  _init_client P (effective_key P api_key) (effective_base_url P base_url)
    {| self := {| client := None;
                  model := match getenv P (lit "OPENAI_MODEL") with
                           | Some m => m
                           | None => lit "gpt-4o-mini"
                           end;
                  last_error := None |};
       network := network w0 |}.
Proof. reflexivity. Qed.

(** What the constructor leaves behind when it returns. *)
Lemma init_leaves (P : Provider) (api_key base_url : option str)
    (w0 w : World) :
  __init__ P api_key base_url w0 = (Return tt, w) ->
  network w = network w0 /\
  model (self w) = match getenv P (lit "OPENAI_MODEL") with
                   | Some m => m
                   | None => lit "gpt-4o-mini"
                   end /\
  match client (self w) with
  | Some c =>
      last_error (self w) = None /\
      exists key,
        effective_key P api_key = Some key /\ key <> [] /\
        OpenAI_new P key
          (if truthy_opt (effective_base_url P base_url)
           then effective_base_url P base_url else None) = Return c
  | None => truthy_opt (last_error (self w)) = true
  end.
Proof.
  rewrite init_runs, init_client_runs.
  destruct (effective_key P api_key) as [[|x k]|]; cbn [truthy_opt nonempty negb].
  - intros H. injection H as <-. repeat split; reflexivity.
  - destruct (OpenAI_new P (x :: k) _) as [c|e] eqn:E.
    + intros H. injection H as <-. cbn.
      split; [reflexivity|]. split; [reflexivity|]. split; [reflexivity|].
      exists (x :: k). split; [reflexivity|]. split; [discriminate|exact E].
    + destruct (is_Exception e); [|discriminate].
      intros H. injection H as <-. repeat split; reflexivity.
  - intros H. injection H as <-. repeat split; reflexivity.
Qed.

(** X14: the constructor makes no network call; it takes the model from
    [OPENAI_MODEL], else [gpt-4o-mini]; it builds the client from the
    key and endpoint given as arguments, falling back to the
    environment for each one that is missing or empty; and it leaves
    either a client and no error, or no client and a reason that is not
    empty. *)
Theorem init_configuration (P : Provider) (api_key base_url : option str)
    (w0 w : World) :
  __init__ P api_key base_url w0 = (Return tt, w) ->
  network w = network w0 /\
  model (self w) = match getenv P (lit "OPENAI_MODEL") with
                   | Some m => m
                   | None => lit "gpt-4o-mini"
                   end /\
  match client (self w) with
  | Some c =>
      last_error (self w) = None /\
      exists key,
        effective_key P api_key = Some key /\ key <> [] /\
        OpenAI_new P key
          (if truthy_opt (effective_base_url P base_url)
           then effective_base_url P base_url else None) = Return c
  | None => truthy_opt (last_error (self w)) = true
  end.
Proof. apply init_leaves. Qed.

(** An environment with a key, a model and an endpoint, and the key
    overridden by the argument. *)
Lemma init_configuration_example :
  __init__ with_environment (Some (lit "sk-arg")) None blank
    = (Return tt, configured_from_environment) /\
  network configured_from_environment = network blank /\
  model (self configured_from_environment) = lit "gpt-4o" /\
  last_error (self configured_from_environment) = None /\
  exists key,
    effective_key with_environment (Some (lit "sk-arg")) = Some key /\
    key <> [] /\
    OpenAI_new with_environment key (Some (lit "https://example.test/v1"))
    = Return {| api_key := lit "sk-arg";
                base_url := Some (lit "https://example.test/v1") |}.
Proof.
  split; [reflexivity|].
  exact (init_configuration with_environment (Some (lit "sk-arg")) None
           blank configured_from_environment eq_refl).
Defined.

(** An instance without a client always has a reason on record. *)
Lemma reachable_has_reason (B : Builtins) (P : Provider) (w : World) :
  reachable B P w ->
  client (self w) = None -> truthy_opt (last_error (self w)) = true.
Proof.
  induction 1 as [api_key base_url w0 w H
                 |api_key w w' o Hr IH H
                 |w w' o Hr IH H
                 |transcript w w' o Hr IH H].
  - destruct (init_leaves P api_key base_url w0 w H) as (_ & _ & Hc).
    intros E. now rewrite E in Hc.
  - rewrite set_api_key_runs in H.
    destruct api_key as [|x k].
    + injection H as _ <-. reflexivity.
    + destruct (OpenAI_new P (x :: k) None) as [c|e].
      * injection H as _ <-. discriminate.
      * destruct (is_Exception e); injection H as _ <-;
          [reflexivity|exact IH].
  - destruct (client (self w)) as [c|] eqn:E.
    + destruct (test_connection_frame P w) as (Hc & _ & _).
      rewrite H, E in Hc. cbn in Hc. congruence.
    + rewrite (test_connection_unconfigured P w E) in H.
      injection H as _ <-. intros _. now apply IH.
  - destruct (client (self w)) as [c|] eqn:E.
    + destruct (generate_frame B P transcript w) as (Hc & _ & _).
      rewrite H, E in Hc. cbn in Hc. congruence.
    + rewrite (generate_unconfigured B P transcript w E) in H.
      injection H as _ <-. intros _. now apply IH.
Qed.

(** X15: on an instance built by the constructor and used through its
    public methods, a missing client always comes with its reason:
    [test_connection] then returns [False] with [last_error] itself,
    which is not empty, never the default text
    [OpenAI client is not initialized]. *)
Theorem unconfigured_reports_reason (B : Builtins) (P : Provider)
    (w : World) :
  reachable B P w ->
  client (self w) = None ->
  exists reason,
    last_error (self w) = Some reason /\
    reason <> [] /\
    test_connection P w = (Return (false, reason), w).
Proof.
  intros Hr Hc.
  pose proof (reachable_has_reason B P w Hr Hc) as Ht.
  rewrite (test_connection_unconfigured P w Hc).
  destruct (last_error (self w)) as [[|x m]|]; try discriminate.
  exists (x :: m). split; [reflexivity|]. split; [discriminate|reflexivity].
Qed.

(** An instance built without a key, then given an empty one, then
    asked to generate. *)
Lemma unconfigured_reports_reason_example :
  reachable example_builtins unreachable unconfigured /\
  client (self unconfigured) = None /\
  exists reason,
    last_error (self unconfigured) = Some reason /\
    reason <> [] /\
    test_connection unreachable unconfigured
    = (Return (false, reason), unconfigured).
Proof.
  assert (H : reachable example_builtins unreachable unconfigured).
  { apply (after_generate example_builtins unreachable transcript_v2
             unconfigured unconfigured (Return _create_fallback_minutes));
      [|reflexivity].
    apply (after_set_api_key example_builtins unreachable [] unconfigured
             unconfigured (Return false)); [|reflexivity].
    apply (after_init example_builtins unreachable None None blank).
    reflexivity. }
  exact (conj H (conj eq_refl
           (unconfigured_reports_reason example_builtins unreachable
              unconfigured H eq_refl))).
Defined.

(* ================================================================== *)
(** ** Further properties: the page script *)
(* ================================================================== *)

Import Page PageProps.

Example with_commas_examples :
  with_commas 1234 = lit "1,234" /\
  with_commas 1000 = lit "1,000" /\
  with_commas 999 = lit "999" /\
  with_commas 0 = lit "0".
Proof. repeat split; reflexivity. Qed.

(** The cached instance: created on the first call, never touching the
    network, the kept minutes or the page. *)
Lemma get_openai_client_spec (P : Provider) (s : Session) :
  match get_openai_client P s with
  | (Return _, s1) =>
      cached s1 = true /\ calls s1 = calls s /\
      minutes_state s1 = minutes_state s /\ page s1 = page s
  | (Raise e, s1) =>
      is_Exception e = false /\
      (exists key url, OpenAI_new P key url = Raise e) /\
      calls s1 = calls s /\
      minutes_state s1 = minutes_state s /\ page s1 = page s
  end.
Proof.
  unfold get_openai_client.
  destruct (cached s) eqn:Hc; [now rewrite Hc|].
  rewrite init_runs, init_client_runs.
  destruct (negb (truthy_opt (effective_key P None))); [now cbn|].
  destruct (OpenAI_new P _ _) as [c|e] eqn:E; [now cbn|].
  destruct (is_Exception e) eqn:He; [now cbn|].
  cbn. repeat split; eauto.
Qed.

Lemma api_key_handling_spec (P : Provider) (s : Session) :
  match api_key_handling P s with
  | (Return _, s1) =>
      minutes_state s1 = minutes_state s /\ page s1 = page s /\
      cached s1 = true /\
      exists k c,
        getenv P (lit "OPENAI_API_KEY") = Some k /\
        strip k <> [] /\
        OpenAI_new P (strip k) None = Return c /\
        models_list P c = Return tt /\
        client (instance s1) = Some c /\
        last_error (instance s1) = None /\
        calls s1 = calls s ++ [ModelsList c]
  | (Raise e, s1) =>
      minutes_state s1 = minutes_state s /\
      is_Exception e = false /\
      (e = StopException \/ raised_by_sdk P e) /\
      (calls s1 = calls s \/ exists c, calls s1 = calls s ++ [ModelsList c])
  end.
Proof.
  unfold api_key_handling.
  destruct (getenv P (lit "OPENAI_API_KEY")) as [[|x k]|] eqn:Hk;
    cbn [truthy_opt nonempty negb].
  1, 3: run_page; repeat split; auto.
  unfold bind at 1. unfold ret at 1. unfold bind at 1.
  pose proof (get_openai_client_spec P s) as Hg.
  destruct (get_openai_client P s) as [[[]|e] s1].
  2:{ destruct Hg as (He & Hr & Hc & Hm & _). repeat split; auto.
      right. now left. }
  destruct Hg as (Hcached & Hc & Hm & Hp).
  unfold bind at 1. unfold on_client at 1.
  rewrite set_api_key_runs.
  destruct (strip (x :: k)) as [|y key] eqn:Hs.
  - (* the key is blank: no client *)
    unfold bind at 1. unfold on_client at 1.
    rewrite test_connection_unconfigured by reflexivity.
    run_page. repeat split; auto.
  - destruct (OpenAI_new P (y :: key) None) as [c|e] eqn:Hn.
    + unfold bind at 1. unfold on_client at 1.
      rewrite (test_connection_configured P _ c) by reflexivity.
      cbv zeta. destruct (models_list P c) as [[]|e] eqn:Hl.
      * run_page. repeat split; auto.
        exists (x :: k), c. rewrite Hc, Hs. repeat split; auto. discriminate.
      * destruct (is_Exception e) eqn:He; run_page; rewrite Hc.
        -- repeat split; eauto.
        -- repeat split; eauto. right. right. eauto.
    + destruct (is_Exception e) eqn:He.
      * unfold bind at 1. unfold on_client at 1.
        rewrite test_connection_unconfigured by reflexivity.
        run_page. repeat split; auto.
      * run_page. repeat split; auto. right. left. eauto.
Qed.

Lemma pdf_loop_raise_in (ps : list (outcome (option str))) (acc : list str)
    (e : exn) :
  pdf_loop ps acc = Raise e -> In (Raise e) ps.
Proof.
  revert acc. induction ps as [|[t|e'] ps IH]; intros acc; simpl.
  - discriminate.
  - intros H. right. exact (IH _ H).
  - intros H. injection H as ->. now left.
Qed.

(** What an extractor lets through is not an [Exception], and comes
    from the library that reads the file. *)
Lemma extract_text_from_pdf_raise (File : Type)
    (PdfReader : File -> outcome PdfDocument) (file : File) (e : exn) :
  extract_text_from_pdf File PdfReader file = Raise e ->
  is_Exception e = false /\
  (PdfReader file = Raise e \/
   exists reader, PdfReader file = Return reader /\
                  In (Raise e) (pages reader)).
Proof.
  unfold extract_text_from_pdf.
  destruct (PdfReader file) as [reader|e0] eqn:E; cbn [obind otry].
  - destruct (pdf_loop (pages reader) []) as [parts|e0] eqn:E0;
      cbn [obind otry]; [discriminate|].
    destruct (is_Exception e0) eqn:He; [discriminate|].
    intros H. injection H as <-. split; [exact He|].
    right. exists reader. split; [reflexivity|].
    exact (pdf_loop_raise_in _ _ _ E0).
  - destruct (is_Exception e0) eqn:He; [discriminate|].
    intros H. injection H as <-. split; [exact He|now left].
Qed.

Lemma extract_text_from_docx_raise (File : Type)
    (Document : File -> outcome DocxDocument) (file : File) (e : exn) :
  extract_text_from_docx File Document file = Raise e ->
  is_Exception e = false /\ Document file = Raise e.
Proof.
  unfold extract_text_from_docx.
  destruct (Document file) as [doc|e0] eqn:E; cbn [obind otry];
    [discriminate|].
  destruct (is_Exception e0) eqn:He; [discriminate|].
  intros H. injection H as <-. now split.
Qed.

(** X16: neither extractor ever lets an [Exception] through: what it
    raises, if anything, is not an [Exception] (an interrupt, say), and
    was raised by the library while it opened the file or read a
    page. *)
Theorem extractors_raise_no_Exception (File : Type)
    (PdfReader : File -> outcome PdfDocument)
    (Document : File -> outcome DocxDocument) (file : File) (e : exn) :
  extract_text_from_pdf File PdfReader file = Raise e \/
  extract_text_from_docx File Document file = Raise e ->
  is_Exception e = false.
Proof.
  intros [H|H].
  - now destruct (extract_text_from_pdf_raise File PdfReader file e H).
  - now destruct (extract_text_from_docx_raise File Document file e H).
Qed.

(** An interrupt while the document is opened. *)
Lemma extractors_raise_no_Exception_example :
  extract_text_from_docx unit (fun _ => Raise KeyboardInterrupt) tt
  = Raise KeyboardInterrupt /\
  is_Exception KeyboardInterrupt = false.
Proof.
  split; [reflexivity|].
  exact (extractors_raise_no_Exception unit
           (fun _ => Return pdf_two_pages)
           (fun _ => Raise KeyboardInterrupt) tt KeyboardInterrupt
           (or_intror eq_refl)).
Defined.

(** The transcript the run works on comes from the file when one is
    uploaded, else from the text area. *)
Lemma file_input_spec (File : Type)
    (PdfReader : File -> outcome PdfDocument)
    (Document : File -> outcome DocxDocument) (decode : File -> str)
    (W : Widgets File) (s : Session) :
  match file_input File PdfReader Document decode W s with
  | (o, s1) =>
      cached s1 = cached s /\ instance s1 = instance s /\
      calls s1 = calls s /\ minutes_state s1 = minutes_state s /\
      match o with
      | Return _ => True
      | Raise e =>
          is_Exception e = false /\
          exists f,
            uploaded_file W = Some f /\
            (PdfReader (file_body f) = Raise e \/
             (exists reader, PdfReader (file_body f) = Return reader /\
                             In (Raise e) (pages reader)) \/
             Document (file_body f) = Raise e)
      end
  end.
Proof.
  unfold file_input. run_page.
  destruct (uploaded_file W) as [f|].
  - destruct (PyStr.eqb (file_type f) (lit "text/plain")).
    { destruct (nonempty (decode (file_body f))); cbn; auto. }
    destruct (PyStr.eqb (file_type f) (lit "application/pdf")).
    { destruct (extract_text_from_pdf File PdfReader (file_body f))
        as [t|e] eqn:E.
      - destruct (nonempty t); cbn; auto.
      - cbn. destruct (extract_text_from_pdf_raise _ _ _ _ E) as [He Hr].
        repeat split; auto. exists f. split; [reflexivity|].
        destruct Hr as [Hr|Hr]; auto. }
    destruct (contains (lit "wordprocessingml") (file_type f)).
    { destruct (extract_text_from_docx File Document (file_body f))
        as [t|e] eqn:E.
      - destruct (nonempty t); cbn; auto.
      - cbn. destruct (extract_text_from_docx_raise _ _ _ _ E) as [He Hr].
        repeat split; auto. exists f. split; [reflexivity|]. auto. }
    cbn. auto.
  - destruct (nonempty (strip (transcript_text W))); cbn; auto.
Qed.

(** X17: when a file is uploaded the text area is not read: two runs
    that differ in the pasted text alone do the same, also when nothing
    can be extracted from the file. *)
Theorem upload_overrides_pasted_text (B : Builtins) (P : Provider)
    (File : Type) (PdfReader : File -> outcome PdfDocument)
    (Document : File -> outcome DocxDocument) (decode : File -> str)
    (W W' : Widgets File) (f : UploadedFile File) (s : Session) :
  uploaded_file W = Some f ->
  uploaded_file W' = Some f ->
  generate_clicked W = generate_clicked W' ->
  main B P File PdfReader Document decode W s
  = main B P File PdfReader Document decode W' s.
Proof.
  intros H1 H2 H3. unfold main, file_input, generation.
  now rewrite H1, H2, H3.
Qed.

(** A Word file with no text, with and without pasted text. *)
Lemma upload_overrides_pasted_text_example :
  main example_builtins (keyed (lit "sk-test") answering_ship_v2) unit
    no_pdf no_docx no_text
    (uploaded (lit "notes.docx")
       (lit "application/vnd.openxmlformats-officedocument.wordprocessingml.document")
       transcript_v2 false) fresh
  = main example_builtins (keyed (lit "sk-test") answering_ship_v2) unit
      no_pdf no_docx no_text
      (uploaded (lit "notes.docx")
         (lit "application/vnd.openxmlformats-officedocument.wordprocessingml.document")
         [] false) fresh.
Proof.
  exact (upload_overrides_pasted_text example_builtins
           (keyed (lit "sk-test") answering_ship_v2) unit
           no_pdf no_docx no_text
           (uploaded (lit "notes.docx")
              (lit "application/vnd.openxmlformats-officedocument.wordprocessingml.document")
              transcript_v2 false)
           (uploaded (lit "notes.docx")
              (lit "application/vnd.openxmlformats-officedocument.wordprocessingml.document")
              [] false)
           {| file_name := lit "notes.docx";
              file_type := lit "application/vnd.openxmlformats-officedocument.wordprocessingml.document";
              file_body := tt |}
           fresh eq_refl eq_refl eq_refl).
Defined.

Example upload_without_text :
  page (snd (main example_builtins (keyed (lit "sk-test") answering_ship_v2)
               unit no_pdf no_docx no_text
               (uploaded (lit "notes.docx")
                  (lit "application/vnd.openxmlformats-officedocument.wordprocessingml.document")
                  transcript_v2 false) fresh))
  = page_top ++ input_widgets ++
    [ st_spinner (lit "Reading file..."); st_end;
      st_warning (lit "Could not extract text from the uploaded file.");
      generate_button [] ].
Proof. reflexivity. Qed.

Lemma failure_report_or (e : option str) :
  st_error (lit "Failed to generate minutes. Error: " ++
            match or_opt e (Some (lit "The AI could not process this transcript.")) with
            | Some text => text
            | None => []
            end)
  = failure_report e.
Proof. now destruct e as [[|c t]|]. Qed.

Lemma generation_not_clicked (B : Builtins) (P : Provider) (File : Type)
    (W : Widgets File) (transcript : str) (s : Session) :
  generate_clicked W = false ->
  generation B P File W transcript s
  = (Return tt, shown [generate_button transcript] s).
Proof.
  intros H. unfold generation. rewrite H. reflexivity.
Qed.

(** A click on a configured instance: one completion call, then the
    minutes are kept unless their summary carries the failure phrase. *)
Lemma generation_clicked (B : Builtins) (P : Provider) (File : Type)
    (W : Widgets File) (transcript : str) (s : Session) (c : OpenAI) :
  generate_clicked W = true ->
  client (instance s) = Some c ->
  generation B P File W transcript s =
  let s1 := after_completion c transcript s in
  match attempt B P c (model (instance s)) transcript with
  | Return r =>
      match signals_failure r with
      | Return true =>
          (Raise StopException,
           shown [failure_report (last_error (instance s))] s1)
      | Return false =>
          (Return tt, keeping r (shown [generated_success] s1))
      | Raise e => (Raise e, s1)
      end
  | Raise e =>
      if is_Exception e
      then (Raise StopException,
            shown [failure_report (Some (message e))]
              (with_error (Some (message e)) s1))
      else (Raise e, s1)
  end.
Proof.
  intros Hclick Hc. unfold generation. rewrite Hclick.
  unfold bind at 1. unfold emit at 1, modify at 1.
  unfold bind at 1. unfold with_ at 1. unfold on_client at 1.
  rewrite (generate_configured B P transcript _ c) by exact Hc.
  run_page. unfold after_completion.
  destruct (attempt B P c (model (instance s)) transcript) as [r|e].
  - run_page. rewrite <- !app_assoc. cbn [app].
    destruct (signals_failure r) as [[|]|e]; run_page;
      rewrite <- ?app_assoc; cbn [app]; try reflexivity.
    rewrite failure_report_or. reflexivity.
  - destruct (is_Exception e); run_page; rewrite <- ?app_assoc; cbn [app];
      [|reflexivity].
    change (signals_failure _create_fallback_minutes) with (@Return bool true).
    run_page. rewrite <- ?app_assoc; cbn [app].
    rewrite failure_report_or. unfold with_error. run_page.
    rewrite <- ?app_assoc. reflexivity.
Qed.

(** What the sanitizer returns signals failure exactly when its summary
    contains the phrase. *)
Lemma signals_failure_of_record (rec : MinutesRecord) :
  signals_failure (to_dict rec)
  = Return (contains failure_phrase (summary rec)).
Proof. reflexivity. Qed.

(** *** Computations that only write to the page *)

Lemma page_only_ret {A} (a : A) : page_only (ret a).
Proof. intros s. now cbn. Qed.

Lemma page_only_lift {A} (o : outcome A) : page_only (lift o).
Proof. intros s. now cbn. Qed.

Lemma page_only_emit (e : Element) : page_only (emit e).
Proof. intros s. now cbn. Qed.

Lemma page_only_stop {A} : page_only (@st_stop A).
Proof. intros s. now cbn. Qed.

Lemma page_only_gets {A} (f : Session -> A) : page_only (gets f).
Proof. intros s. now cbn. Qed.

Lemma page_only_bind {A C} (c : M Session A) (k : A -> M Session C) :
  page_only c -> (forall a, page_only (k a)) -> page_only (bind c k).
Proof.
  intros Hc Hk s. unfold bind. specialize (Hc s).
  destruct (c s) as [[a|e] s1]; cbn [snd] in *; [|exact Hc].
  specialize (Hk a s1).
  destruct Hc as (H1 & H2 & H3 & H4), Hk as (K1 & K2 & K3 & K4).
  repeat split; congruence.
Qed.

Lemma page_only_with {A} (opening : Element) (body : M Session A) :
  page_only body -> page_only (with_ opening body).
Proof.
  intros Hb s. unfold with_.
  specialize (Hb (snd (emit opening s))).
  destruct (body (snd (emit opening s))) as [o s1]. exact Hb.
Qed.

Lemma page_only_for {A} (items : list A) (body : A -> M Session unit) :
  (forall x, page_only (body x)) -> page_only (for_ items body).
Proof.
  intros Hb. induction items as [|x items IH]; cbn [for_].
  - apply page_only_ret.
  - apply page_only_bind; [apply Hb|intros _; exact IH].
Qed.

Lemma page_only_if {A} (b : bool) (c1 c2 : M Session A) :
  page_only c1 -> page_only c2 -> page_only (if b then c1 else c2).
Proof. now destruct b. Qed.

Create HintDb frame discriminated.
#[local] Hint Resolve page_only_ret page_only_lift page_only_emit
  page_only_stop page_only_gets page_only_bind page_only_with
  page_only_for page_only_if : frame.

Lemma list_expander_page_only (B : Builtins) (minutes : dict)
    (label key none_text : str) :
  page_only (list_expander B minutes label key none_text).
Proof. unfold list_expander. auto 12 with frame. Qed.

(** Showing the results writes to the page and nowhere else, whatever
    the kept minutes are and also when it raises. *)
Lemma display_results_page_only (B : Builtins) :
  page_only (display_results B).
Proof.
  unfold display_results.
  apply page_only_bind; [apply page_only_gets|].
  intros [minutes|]; [|apply page_only_ret].
  pose proof (list_expander_page_only B minutes) as Hl.
  auto 20 with frame.
Qed.

Lemma file_input_page_only (File : Type)
    (PdfReader : File -> outcome PdfDocument)
    (Document : File -> outcome DocxDocument) (decode : File -> str)
    (W : Widgets File) :
  page_only (file_input File PdfReader Document decode W).
Proof.
  unfold file_input.
  destruct (uploaded_file W) as [f|]; auto 20 with frame.
Qed.

(** *** Showing a record *)

Lemma shown_shown (es1 es2 : list Element) (s : Session) :
  shown es2 (shown es1 s) = shown (es1 ++ es2) s.
Proof. unfold shown. cbn. now rewrite app_assoc. Qed.

Lemma for_emit {A} (items : list A) (f : A -> Element) (s : Session) :
  for_ items (fun x => emit (f x)) s
  = (Return tt, match items with
                | [] => s
                | _ :: _ => shown (List.map f items) s
                end).
Proof.
  revert s. induction items as [|x items IH]; intros s; [reflexivity|].
  cbn [for_]. unfold bind. cbn [emit modify].
  change (modify _ s) with (@Return unit tt, shown [f x] s).
  cbv iota. rewrite IH.
  destruct items as [|y items]; [reflexivity|].
  change {| cached := cached s; instance := instance s; calls := calls s;
            minutes_state := minutes_state s; page := page s ++ [f x] |}
    with (shown [f x] s).
  now rewrite shown_shown.
Qed.

Lemma list_expander_of_strings (B : Builtins) (minutes : dict)
    (label key none_text : str) (items : list str) (s : Session) :
  lookup key minutes = Some (VList (List.map VStr items)) ->
  list_expander B minutes label key none_text s
  = (Return tt, shown (list_view label none_text items) s).
Proof.
  intros H. unfold list_expander, list_view. rewrite H.
  destruct items as [|x items].
  - cbn. unfold shown. rewrite <- !app_assoc. reflexivity.
  - unfold with_. cbn [truthy List.map]. unfold bind at 1.
    cbn [lift iterate iter].
    change (lift (Return (VStr x :: List.map VStr items)) (snd (emit (st_expander label false) s)))
      with (Return (VStr x :: List.map VStr items), snd (emit (st_expander label false) s)).
    cbv iota.
    rewrite (for_emit (VStr x :: List.map VStr items)
               (fun p => st_markdown (lit "- " ++ py_str B p))).
    cbn [List.map py_str]. rewrite map_map. cbn [py_str].
    unfold emit, modify, shown. cbn.
    rewrite <- !app_assoc. reflexivity.
Qed.

(** A record is shown without raising. *)
Lemma display_results_shows (B : Builtins) (minutes : dict)
    (rec : MinutesRecord) (s : Session) :
  minutes_state s = Some minutes ->
  holds minutes rec ->
  display_results B s
  = (Return tt,
     shown (results_view rec
              (join (nl ++ nl) (List.map rendered (emitted rec)))) s).
Proof.
  intros Hs Hh.
  pose proof (format_of_record B minutes rec Hh) as Hf.
  destruct Hh as (H1 & H2 & H3 & H4 & H5).
  unfold display_results. run_page. rewrite Hs. run_page.
  unfold get. rewrite H1.
  rewrite (list_expander_of_strings B minutes _ _ _ (participants rec))
    by exact H2.
  run_page.
  rewrite (list_expander_of_strings B minutes _ _ _ (discussion_points rec))
    by exact H3.
  run_page.
  rewrite (list_expander_of_strings B minutes _ _ _
             (outcomes_or_decisions rec)) by exact H4.
  run_page.
  rewrite (list_expander_of_strings B minutes _ _ _ (next_steps rec))
    by exact H5.
  run_page. rewrite Hf. run_page.
  unfold results_view. rewrite ?Hs, <- !app_assoc. cbn [app]. reflexivity.
Qed.

(** X18: for kept minutes that hold a record, showing the results never
    raises and changes nothing but the page: the structured view shows
    the summary and, for each list field, its items as bullet lines in
    order, or a caption when it has none; the code block and the
    download button carry the same text, the formatter's output. *)
Theorem display_results_of_record (B : Builtins) (minutes : dict)
    (rec : MinutesRecord) (s : Session) :
  minutes_state s = Some minutes ->
  holds minutes rec ->
  display_results B s
  = (Return tt,
     shown (results_view rec
              (join (nl ++ nl) (List.map rendered (emitted rec)))) s) /\
  format_minutes_as_markdown B minutes
  = Return (join (nl ++ nl) (List.map rendered (emitted rec))).
Proof.
  intros Hs Hh. split.
  - now apply display_results_shows with (minutes := minutes).
  - now apply format_of_record.
Qed.

(** The end-to-end record, kept in the session. *)
Lemma display_results_of_record_example :
  holds ship_v2 ship_v2_record /\
  display_results example_builtins (keeping ship_v2 probed)
  = (Return tt,
     shown (results_view ship_v2_record
              (header_summary ++ nl ++ lit "Team agreed to ship v2 Friday."
               ++ nl ++ nl ++
               header_participants ++ nl ++ lit "- Alice"
               ++ nl ++ nl ++
               header_outcomes_or_decisions ++ nl ++ lit "- Ship v2 Friday"))
       (keeping ship_v2 probed)).
Proof.
  assert (H : holds ship_v2 ship_v2_record) by (repeat split; reflexivity).
  destruct (display_results_of_record example_builtins ship_v2
              ship_v2_record (keeping ship_v2 probed) eq_refl H) as [T _].
  exact (conj H T).
Defined.

Example list_view_examples :
  list_view (lit "People") (lit "Nobody.") [lit "Alice"; lit "Bob"]
  = [ st_expander (lit "People") false;
      st_markdown (lit "- Alice"); st_markdown (lit "- Bob"); st_end ] /\
  list_view (lit "People") (lit "Nobody.") []
  = [ st_expander (lit "People") false; st_caption (lit "Nobody."); st_end ].
Proof. split; reflexivity. Qed.

(** *** The whole run *)

Lemma bind_emit {A} (e : Element) (k : unit -> M Session A) (s : Session) :
  bind (emit e) k s = k tt (shown [e] s).
Proof. reflexivity. Qed.

Lemma main_runs (B : Builtins) (P : Provider) (File : Type)
    (PdfReader : File -> outcome PdfDocument)
    (Document : File -> outcome DocxDocument) (decode : File -> str)
    (W : Widgets File) (s : Session) :
  main B P File PdfReader Document decode W s =
  match api_key_handling P (shown page_top s) with
  | (Raise e, s1) => (Raise e, s1)
  | (Return _, s1) =>
      match file_input File PdfReader Document decode W s1 with
      | (Raise e, s2) => (Raise e, s2)
      | (Return final_transcript, s2) =>
          match generation B P File W final_transcript s2 with
          | (Raise e, s3) => (Raise e, s3)
          | (Return _, s3) => display_results B s3
          end
      end
  end.
Proof.
  unfold main. rewrite !bind_emit, shown_shown.
  change ([st_title ([0x1F4DD]%N ++ lit " Meeting Minutes Generator")] ++
          [st_caption (lit "Transform meeting transcripts into professional minutes using AI")])
    with page_top.
  unfold bind.
  destruct (api_key_handling P (shown page_top s)) as [[[]|e] s1];
    [|reflexivity].
  destruct (file_input File PdfReader Document decode W s1) as [[t|e] s2];
    [|reflexivity].
  destruct (generation B P File W t s2) as [[[]|e] s3]; reflexivity.
Qed.

(** X19: with no [OPENAI_API_KEY] in the environment, or an empty one,
    the run shows the title, the caption and the notice of the missing
    key, and stops there: no instance is created, no network call is
    made, nothing else changes. *)
Theorem main_without_key (B : Builtins) (P : Provider) (File : Type)
    (PdfReader : File -> outcome PdfDocument)
    (Document : File -> outcome DocxDocument) (decode : File -> str)
    (W : Widgets File) (s : Session) :
  truthy_opt (getenv P (lit "OPENAI_API_KEY")) = false ->
  main B P File PdfReader Document decode W s
  = (Raise StopException, shown (page_top ++ missing_key_notice) s).
Proof.
  intros H. rewrite main_runs. unfold api_key_handling. rewrite H.
  run_page. unfold page_top, missing_key_notice.
  rewrite <- !app_assoc. reflexivity.
Qed.

(** A fresh session in an environment without a key. *)
Lemma main_without_key_example :
  truthy_opt (getenv answering_ship_v2 (lit "OPENAI_API_KEY")) = false /\
  main example_builtins answering_ship_v2 unit no_pdf no_docx no_text
    (pasted transcript_v2 true) fresh
  = (Raise StopException, shown (page_top ++ missing_key_notice) fresh).
Proof.
  split; [reflexivity|].
  exact (main_without_key example_builtins answering_ship_v2 unit
           no_pdf no_docx no_text (pasted transcript_v2 true) fresh eq_refl).
Defined.

(** The calls of the generation step. *)
Lemma generation_calls (B : Builtins) (P : Provider) (File : Type)
    (W : Widgets File) (transcript : str) (s : Session) (c : OpenAI) :
  client (instance s) = Some c ->
  calls (snd (generation B P File W transcript s)) =
  calls s ++
  if generate_clicked W
  then [ChatCompletionsCreate c
          (completion_request (model (instance s)) transcript)]
  else [].
Proof.
  intros Hc. destruct (generate_clicked W) eqn:Hw.
  - rewrite (generation_clicked B P File W transcript s c Hw Hc). cbv zeta.
    destruct (attempt B P c (model (instance s)) transcript) as [r|e].
    + destruct (signals_failure r) as [[|]|e]; reflexivity.
    + destruct (is_Exception e); reflexivity.
  - rewrite (generation_not_clicked B P File W transcript s Hw).
    cbn. now rewrite app_nil_r.
Qed.

(** X20: a run makes no network call, or one connection probe, or one
    connection probe followed by one completion call; the completion
    call is made only after the probe of the same run has succeeded and
    the button was clicked, with a client built from the trimmed key of
    the environment alone, without any [base_url]. *)
Theorem main_network_calls (B : Builtins) (P : Provider) (File : Type)
    (PdfReader : File -> outcome PdfDocument)
    (Document : File -> outcome DocxDocument) (decode : File -> str)
    (W : Widgets File) (s : Session) :
  exists l,
    calls (snd (main B P File PdfReader Document decode W s)) = calls s ++ l /\
    (l = [] \/
     exists c,
       l = [ModelsList c] \/
       (exists key model transcript,
          l = [ModelsList c;
               ChatCompletionsCreate c (completion_request model transcript)] /\
          getenv P (lit "OPENAI_API_KEY") = Some key /\
          OpenAI_new P (strip key) None = Return c /\
          models_list P c = Return tt /\
          generate_clicked W = true)).
Proof.
  rewrite main_runs.
  pose proof (api_key_handling_spec P (shown page_top s)) as H1.
  destruct (api_key_handling P (shown page_top s)) as [[[]|e] s1].
  2:{ destruct H1 as (_ & _ & _ & [H1|[c H1]]); cbn [snd].
      - exists []. rewrite app_nil_r. split; [exact H1|now left].
      - exists [ModelsList c]. split; [exact H1|]. right. exists c. now left. }
  destruct H1 as (_ & _ & _ & k & c & Hk & _ & Hn & Hl & Hc & _ & H1).
  cbn [shown calls] in H1.
  pose proof (file_input_page_only File PdfReader Document decode W s1) as H2.
  destruct (file_input File PdfReader Document decode W s1) as [[t|e] s2];
    cbn [snd] in H2; destruct H2 as (_ & Hi & H2 & _).
  2:{ exists [ModelsList c]. cbn [snd]. rewrite H2.
      split; [exact H1|]. right. exists c. now left. }
  assert (Hc2 : client (instance s2) = Some c) by now rewrite Hi.
  pose proof (generation_calls B P File W t s2 c Hc2) as H3.
  assert (H4 : calls (snd (match generation B P File W t s2 with
                           | (Return _, s3) => display_results B s3
                           | (Raise e, s3) => (Raise e, s3)
                           end))
               = calls (snd (generation B P File W t s2))).
  { destruct (generation B P File W t s2) as [[[]|e] s3]; [|reflexivity].
    cbn [snd]. now destruct (display_results_page_only B s3) as (_ & _ & H & _). }
  rewrite H4, H3, H2, H1, <- app_assoc.
  destruct (generate_clicked W) eqn:Hw.
  - eexists. split; [reflexivity|]. right. exists c. right.
    exists k, (model (instance s2)), t. cbn [app]. now repeat split.
  - exists [ModelsList c]. split; [reflexivity|]. right. exists c. now left.
Qed.

Lemma attempt_returns_clean (B : Builtins) (P : Provider) (c : OpenAI)
    (m transcript : str) (r : dict) :
  attempt B P c m transcript = Return r ->
  exists v, _clean_minutes B v = Return r.
Proof.
  unfold attempt.
  destruct (chat_completions_create P c _) as [response|e]; [|discriminate].
  cbn [obind].
  destruct (index0 (choices response)) as [choice|e]; [|discriminate].
  cbn [obind].
  destruct (json_loads P (message_content choice)) as [v|e]; [|discriminate].
  cbn [obind]. intros H. now exists v.
Qed.

(** What the sanitizer returns is tested for failure without raising,
    and is fit to be kept when the test says no. *)
Lemma sanitized_signals (B : Builtins) (v : value) (r : dict) :
  _clean_minutes B v = Return r ->
  exists flag, signals_failure r = Return flag /\
               (flag = false -> canonical r).
Proof.
  intros H.
  destruct (clean_minutes_record B v r H)
    as (d & l1 & l2 & l3 & l4 & _ & _ & _ & _ & _ & ->).
  rewrite signals_failure_of_record. cbn [summary].
  eexists. split; [reflexivity|]. intros Hf.
  eexists. split; [reflexivity|].
  cbn [summary participants discussion_points outcomes_or_decisions
       next_steps].
  split; [exact (sanitized_summary_stripped B d)|].
  split; [exact Hf|].
  repeat split; apply sanitized_list_trimmed.
Qed.

Lemma canonical_holds (minutes : dict) :
  canonical minutes -> exists rec, holds minutes rec.
Proof.
  intros (rec & -> & _). exists rec. repeat split; reflexivity.
Qed.

(** The generation step on a configured instance: it stops or returns,
    unless the provider raised something that is not an [Exception];
    and it keeps only canonical minutes. *)
Lemma generation_spec (B : Builtins) (P : Provider) (File : Type)
    (W : Widgets File) (transcript : str) (s : Session) (c : OpenAI) :
  client (instance s) = Some c ->
  match generation B P File W transcript s with
  | (Return _, s1) =>
      minutes_state s1 = minutes_state s \/
      exists minutes, minutes_state s1 = Some minutes /\ canonical minutes
  | (Raise e, s1) =>
      minutes_state s1 = minutes_state s /\
      (e = StopException \/
       is_Exception e = false /\
       attempt B P c (model (instance s)) transcript = Raise e)
  end.
Proof.
  intros Hc. destruct (generate_clicked W) eqn:Hw.
  - rewrite (generation_clicked B P File W transcript s c Hw Hc). cbv zeta.
    destruct (attempt B P c (model (instance s)) transcript) as [r|e] eqn:E.
    + destruct (attempt_returns_clean B P c _ _ r E) as [v Hv].
      destruct (sanitized_signals B v r Hv) as (flag & Hf & Hk).
      rewrite Hf. destruct flag.
      * split; [reflexivity|now left].
      * right. exists r. split; [reflexivity|now apply Hk].
    + destruct (is_Exception e) eqn:He.
      * split; [reflexivity|now left].
      * split; [reflexivity|]. right. now split.
  - rewrite (generation_not_clicked B P File W transcript s Hw). now left.
Qed.

(** What a run hands to the generation step. *)
Lemma file_input_chosen (File : Type)
    (PdfReader : File -> outcome PdfDocument)
    (Document : File -> outcome DocxDocument) (decode : File -> str)
    (W : Widgets File) (s : Session) :
  fst (file_input File PdfReader Document decode W s)
  = chosen_transcript File PdfReader Document decode W.
Proof.
  unfold file_input, chosen_transcript. run_page.
  destruct (uploaded_file W) as [f|].
  - destruct (PyStr.eqb (file_type f) (lit "text/plain")).
    { destruct (nonempty (decode (file_body f))); reflexivity. }
    destruct (PyStr.eqb (file_type f) (lit "application/pdf")).
    { destruct (extract_text_from_pdf File PdfReader (file_body f))
        as [t|e]; [destruct (nonempty t)|]; reflexivity. }
    destruct (contains (lit "wordprocessingml") (file_type f)).
    { destruct (extract_text_from_docx File Document (file_body f))
        as [t|e]; [destruct (nonempty t)|]; reflexivity. }
    reflexivity.
  - destruct (strip (transcript_text W)); reflexivity.
Qed.

(** A successful attempt, step by step. *)
Lemma attempt_returns (B : Builtins) (P : Provider) (c : OpenAI)
    (m transcript : str) (r : dict) :
  attempt B P c m transcript = Return r ->
  exists response choice v,
    chat_completions_create P c (completion_request m transcript)
      = Return response /\
    index0 (choices response) = Return choice /\
    json_loads P (message_content choice) = Return v /\
    _clean_minutes B v = Return r.
Proof.
  unfold attempt.
  destruct (chat_completions_create P c _) as [response|e]; [|discriminate].
  cbn [obind].
  destruct (index0 (choices response)) as [choice|e] eqn:E1; [|discriminate].
  cbn [obind].
  destruct (json_loads P (message_content choice)) as [v|e] eqn:E2;
    [|discriminate].
  cbn [obind]. intros H. now exists response, choice, v.
Qed.

(** The minutes the generation step keeps are the sanitized answer to
    the completion call for its transcript. *)
Lemma generation_keeps_generated (B : Builtins) (P : Provider) (File : Type)
    (W : Widgets File) (transcript : str) (s : Session) (c : OpenAI) :
  client (instance s) = Some c ->
  match generation B P File W transcript s with
  | (Return _, s1) =>
      model (instance s1) = model (instance s) /\
      (minutes_state s1 = minutes_state s \/
       exists response choice v minutes,
         generate_clicked W = true /\
         chat_completions_create P c
           (completion_request (model (instance s)) transcript)
           = Return response /\
         index0 (choices response) = Return choice /\
         json_loads P (message_content choice) = Return v /\
         _clean_minutes B v = Return minutes /\
         minutes_state s1 = Some minutes /\
         canonical minutes)
  | (Raise _, s1) => minutes_state s1 = minutes_state s
  end.
Proof.
  intros Hc. destruct (generate_clicked W) eqn:Hw.
  - rewrite (generation_clicked B P File W transcript s c Hw Hc). cbv zeta.
    destruct (attempt B P c (model (instance s)) transcript) as [r|e] eqn:E.
    + destruct (attempt_returns B P c _ _ r E)
        as (response & choice & v & H1 & H2 & H3 & Hv).
      destruct (sanitized_signals B v r Hv) as (flag & Hf & Hk).
      rewrite Hf. destruct flag; [reflexivity|].
      split; [reflexivity|]. right.
      exists response, choice, v, r.
      repeat split; auto.
    + destruct (is_Exception e); reflexivity.
  - rewrite (generation_not_clicked B P File W transcript s Hw).
    split; [reflexivity|now left].
Qed.

(** X21: whatever a run does, the minutes the session keeps afterwards
    are the ones it kept before, or the minutes this run has generated:
    the button was clicked, the client built from the trimmed key of
    the environment answered the completion request for the transcript
    of this run (the uploaded file's text, else the trimmed text area)
    and the instance's model, and what is kept is the sanitized JSON
    of the first choice: the dict of a record with a trimmed, non-empty
    summary free of the failure phrase and with trimmed, non-empty list
    entries.  The fallback record is never kept. *)
Theorem main_keeps_only_sanitized (B : Builtins) (P : Provider) (File : Type)
    (PdfReader : File -> outcome PdfDocument)
    (Document : File -> outcome DocxDocument) (decode : File -> str)
    (W : Widgets File) (s : Session) :
  minutes_state (snd (main B P File PdfReader Document decode W s))
    = minutes_state s \/
  exists key c transcript response choice v minutes,
    getenv P (lit "OPENAI_API_KEY") = Some key /\
    OpenAI_new P (strip key) None = Return c /\
    chosen_transcript File PdfReader Document decode W = Return transcript /\
    generate_clicked W = true /\
    chat_completions_create P c
      (completion_request
         (model (instance (snd (main B P File PdfReader Document decode W s))))
         transcript)
      = Return response /\
    index0 (choices response) = Return choice /\
    json_loads P (message_content choice) = Return v /\
    _clean_minutes B v = Return minutes /\
    minutes_state (snd (main B P File PdfReader Document decode W s))
      = Some minutes /\
    canonical minutes /\
    minutes <> _create_fallback_minutes.
Proof.
  rewrite main_runs.
  pose proof (api_key_handling_spec P (shown page_top s)) as H1.
  destruct (api_key_handling P (shown page_top s)) as [[[]|e] s1].
  2:{ left. now destruct H1 as (H1 & _). }
  destruct H1 as (Hm1 & _ & _ & k & c & Hk & _ & Hn & _ & Hc & _).
  cbn [shown minutes_state] in Hm1.
  pose proof (file_input_page_only File PdfReader Document decode W s1) as H2.
  pose proof (file_input_chosen File PdfReader Document decode W s1) as Ht.
  destruct (file_input File PdfReader Document decode W s1) as [[t|e] s2];
    cbn [fst snd] in H2, Ht; destruct H2 as (_ & Hi & _ & Hm2).
  2:{ left. cbn [snd]. congruence. }
  assert (Hc2 : client (instance s2) = Some c) by now rewrite Hi.
  pose proof (generation_keeps_generated B P File W t s2 c Hc2) as H3.
  destruct (generation B P File W t s2) as [[[]|e] s3].
  - destruct (display_results_page_only B s3) as (_ & Hi4 & _ & Hm4).
    rewrite Hm4, Hi4. destruct H3 as (Hmodel & [H3|H3]).
    + left. congruence.
    + destruct H3 as (response & choice & v & m & Hw & Hr & H0 & Hj & Hv
                      & H3 & Hcan).
      right. exists k, c, t, response, choice, v, m. rewrite Hmodel.
      repeat split; auto.
      intros ->. destruct Hcan as (rec & Hrec & _). discriminate Hrec.
  - left. cbn [snd]. congruence.
Qed.

(** X22: when everything outside the repository raises [Exception]s only
    and the session keeps no minutes or canonical ones, a run never
    raises: it returns, or it ends in [st.stop()]; and the session still
    keeps no minutes or canonical ones. *)
Theorem main_never_raises (B : Builtins) (P : Provider) (File : Type)
    (PdfReader : File -> outcome PdfDocument)
    (Document : File -> outcome DocxDocument) (decode : File -> str)
    (W : Widgets File) (s : Session) :
  raises_only_Exceptions P File PdfReader Document ->
  keeps_canonical s ->
  (fst (main B P File PdfReader Document decode W s) = Return tt \/
   fst (main B P File PdfReader Document decode W s) = Raise StopException) /\
  keeps_canonical (snd (main B P File PdfReader Document decode W s)).
Proof.
  intros (Hnew & Hlist & Hcreate & Hjson & Hpdf & Hpage & Hdocx) Hk.
  rewrite main_runs.
  pose proof (api_key_handling_spec P (shown page_top s)) as H1.
  destruct (api_key_handling P (shown page_top s)) as [[[]|e] s1].
  2:{ destruct H1 as (Hm & He & [->|[(key & url & Hr)|(c & Hr)]] & _);
        cbn [fst snd].
      - split; [now right|]. unfold keeps_canonical in *. now rewrite Hm.
      - rewrite (Hnew _ _ _ Hr) in He. discriminate.
      - rewrite (Hlist _ _ Hr) in He. discriminate. }
  destruct H1 as (Hm1 & _ & _ & k & c & _ & _ & _ & _ & Hc & _).
  cbn [shown minutes_state] in Hm1.
  pose proof (file_input_spec File PdfReader Document decode W s1) as H2.
  destruct (file_input File PdfReader Document decode W s1) as [[t|e] s2];
    destruct H2 as (_ & Hi & _ & Hm2 & H2).
  2:{ destruct H2 as (He & f & _ & [Hr|[(reader & Hr & Hin)|Hr]]).
      - rewrite (Hpdf _ _ Hr) in He. discriminate.
      - rewrite (Hpage _ _ _ Hr Hin) in He. discriminate.
      - rewrite (Hdocx _ _ Hr) in He. discriminate. }
  assert (Hc2 : client (instance s2) = Some c) by now rewrite Hi.
  assert (Hk2 : keeps_canonical s2)
    by (unfold keeps_canonical in *; now rewrite Hm2, Hm1).
  pose proof (generation_spec B P File W t s2 c Hc2) as H3.
  destruct (generation B P File W t s2) as [[[]|e] s3].
  - assert (Hk3 : keeps_canonical s3).
    { unfold keeps_canonical in *. destruct H3 as [H3|(m & H3 & Hm)].
      - now rewrite H3.
      - now rewrite H3. }
    destruct (display_results_page_only B s3) as (_ & _ & _ & Hm4).
    split; [|unfold keeps_canonical in *; now rewrite Hm4].
    left. unfold keeps_canonical in Hk3.
    destruct (minutes_state s3) as [m|] eqn:Hm3.
    + destruct (canonical_holds m Hk3) as [rec Hh].
      now rewrite (display_results_shows B m rec s3 Hm3 Hh).
    + unfold display_results, bind. cbn [gets]. now rewrite Hm3.
  - destruct H3 as (Hm3 & [->|[He Ha]]); cbn [fst snd].
    + split; [now right|]. unfold keeps_canonical in *. now rewrite Hm3.
    + rewrite (attempt_raises_Exception B P c _ _ e Hcreate Hjson Ha) in He.
      discriminate.
Qed.

(** A key in the environment and a provider that cannot be reached. *)
Lemma main_never_raises_example :
  raises_only_Exceptions (keyed (lit "sk-test") unreachable) unit
    no_pdf no_docx /\
  keeps_canonical fresh /\
  (fst (main example_builtins (keyed (lit "sk-test") unreachable) unit
          no_pdf no_docx no_text (pasted transcript_v2 true) fresh)
   = Return tt \/
   fst (main example_builtins (keyed (lit "sk-test") unreachable) unit
          no_pdf no_docx no_text (pasted transcript_v2 true) fresh)
   = Raise StopException) /\
  keeps_canonical
    (snd (main example_builtins (keyed (lit "sk-test") unreachable) unit
            no_pdf no_docx no_text (pasted transcript_v2 true) fresh)).
Proof.
  assert (H : raises_only_Exceptions (keyed (lit "sk-test") unreachable) unit
                no_pdf no_docx).
  { repeat split.
    - intros key url e E. discriminate E.
    - intros c e E. injection E as <-. reflexivity.
    - intros c r e E. injection E as <-. reflexivity.
    - intros body e E. injection E as <-. reflexivity.
    - intros file e E. discriminate E.
    - intros file reader e E Hin. injection E as <-. destruct Hin.
    - intros file e E. discriminate E. }
  exact (conj H (conj I
           (main_never_raises example_builtins
              (keyed (lit "sk-test") unreachable) unit no_pdf no_docx no_text
              (pasted transcript_v2 true) fresh H I))).
Defined.

(** The end-to-end scenario as a run: a key, a pasted transcript, a
    click. *)
Example main_ship_v2 :
  main example_builtins (keyed (lit "sk-test") answering_ship_v2) unit
    no_pdf no_docx no_text (pasted (lit "  Alice: Let's ship v2 Friday. ") true)
    fresh
  = (Return tt,
     {| cached := true;
        instance := {| client := Some a_client; model := lit "gpt-4o-mini";
                       last_error := None |};
        calls := [ ModelsList a_client;
                   ChatCompletionsCreate a_client
                     (completion_request (lit "gpt-4o-mini") transcript_v2) ];
        minutes_state := Some ship_v2;
        page :=
          page_top ++ input_widgets ++
          [ generate_button transcript_v2; generating_spinner; st_end;
            generated_success ] ++
          results_view ship_v2_record
            (header_summary ++ nl ++ lit "Team agreed to ship v2 Friday."
             ++ nl ++ nl ++
             header_participants ++ nl ++ lit "- Alice"
             ++ nl ++ nl ++
             header_outcomes_or_decisions ++ nl ++ lit "- Ship v2 Friday") |}).
Proof. vm_compute. reflexivity. Qed.

Lemma api_key_handling_blank (P : Provider) (s : Session) (key : str) :
  getenv P (lit "OPENAI_API_KEY") = Some key ->
  key <> [] ->
  strip key = [] ->
  (forall k url e, OpenAI_new P k url = Raise e -> is_Exception e = true) ->
  exists s1,
    api_key_handling P s = (Raise StopException, s1) /\
    calls s1 = calls s /\
    client (instance s1) = None /\
    page s1
    = page s ++
      [st_error (lit "OpenAI connection failed: OPENAI_API_KEY is missing")].
Proof.
  intros Hk Hne Hs Hnew.
  unfold api_key_handling. rewrite Hk.
  destruct key as [|x key]; [contradiction|].
  cbn [truthy_opt nonempty negb]. rewrite Hs.
  unfold bind at 1. unfold ret at 1. unfold bind at 1.
  pose proof (get_openai_client_spec P s) as Hg.
  destruct (get_openai_client P s) as [[[]|e] s1].
  2:{ destruct Hg as (He & (k & url & Hr) & _).
      rewrite (Hnew _ _ _ Hr) in He. discriminate. }
  destruct Hg as (_ & Hc & _ & Hp).
  unfold bind at 1. unfold on_client at 1. rewrite set_api_key_runs.
  unfold bind at 1. unfold on_client at 1.
  rewrite test_connection_unconfigured by reflexivity.
  run_page. eexists. split; [reflexivity|].
  run_page. rewrite Hc, Hp. repeat split.
Qed.

(** X23: with a key in the environment that is not empty but blank
    (whitespace only), the run passes the check for a missing key, fails
    the connection test without a network call, shows
    [OpenAI connection failed: OPENAI_API_KEY is missing] and stops,
    leaving the cached instance without a client. *)
Theorem main_blank_key (B : Builtins) (P : Provider) (File : Type)
    (PdfReader : File -> outcome PdfDocument)
    (Document : File -> outcome DocxDocument) (decode : File -> str)
    (W : Widgets File) (s : Session) (key : str) :
  getenv P (lit "OPENAI_API_KEY") = Some key ->
  key <> [] ->
  strip key = [] ->
  (forall k url e, OpenAI_new P k url = Raise e -> is_Exception e = true) ->
  fst (main B P File PdfReader Document decode W s) = Raise StopException /\
  calls (snd (main B P File PdfReader Document decode W s)) = calls s /\
  client (instance (snd (main B P File PdfReader Document decode W s)))
    = None /\
  page (snd (main B P File PdfReader Document decode W s))
    = page s ++ page_top ++
      [st_error (lit "OpenAI connection failed: OPENAI_API_KEY is missing")].
Proof.
  intros Hk Hne Hs Hnew. rewrite main_runs.
  destruct (api_key_handling_blank P (shown page_top s) key Hk Hne Hs Hnew)
    as (s1 & -> & Hc & Hi & Hp).
  cbn [fst snd]. cbn [shown calls page] in Hc, Hp.
  repeat split; auto. now rewrite Hp, <- app_assoc.
Qed.

(** A key made of two spaces. *)
Lemma main_blank_key_example :
  getenv (keyed (lit "  ") answering_ship_v2) (lit "OPENAI_API_KEY")
    = Some (lit "  ") /\
  lit "  " <> [] /\
  strip (lit "  ") = [] /\
  fst (main example_builtins (keyed (lit "  ") answering_ship_v2) unit
         no_pdf no_docx no_text (pasted transcript_v2 true) fresh)
    = Raise StopException /\
  calls (snd (main example_builtins (keyed (lit "  ") answering_ship_v2) unit
                no_pdf no_docx no_text (pasted transcript_v2 true) fresh))
    = [] /\
  client (instance
            (snd (main example_builtins (keyed (lit "  ") answering_ship_v2)
                    unit no_pdf no_docx no_text (pasted transcript_v2 true)
                    fresh)))
    = None /\
  page (snd (main example_builtins (keyed (lit "  ") answering_ship_v2) unit
               no_pdf no_docx no_text (pasted transcript_v2 true) fresh))
    = page_top ++
      [st_error (lit "OpenAI connection failed: OPENAI_API_KEY is missing")].
Proof.
  assert (H1 : lit "  " <> []) by discriminate.
  assert (H2 : forall k url e,
             OpenAI_new (keyed (lit "  ") answering_ship_v2) k url = Raise e ->
             is_Exception e = true)
    by (intros k url e E; discriminate E).
  exact (conj eq_refl (conj H1 (conj eq_refl
           (main_blank_key example_builtins
              (keyed (lit "  ") answering_ship_v2) unit no_pdf no_docx no_text
              (pasted transcript_v2 true) fresh (lit "  ")
              eq_refl H1 eq_refl H2)))).
Defined.

(** X24: when the provider, the parser or the sanitizer raises an
    [Exception] during a generation that was asked for, the run shows
    [Failed to generate minutes. Error:] with the text of that
    exception (the stock sentence when the text is empty) and stops; the
    exception text is left in [last_error], the one completion call is
    logged, and the minutes the session kept are untouched. *)
Theorem generation_reports_failure (B : Builtins) (P : Provider)
    (File : Type) (W : Widgets File) (transcript : str) (s : Session)
    (c : OpenAI) (e : exn) :
  generate_clicked W = true ->
  client (instance s) = Some c ->
  attempt B P c (model (instance s)) transcript = Raise e ->
  is_Exception e = true ->
  generation B P File W transcript s
  = (Raise StopException,
     shown [failure_report (Some (message e))]
       (with_error (Some (message e)) (after_completion c transcript s))).
Proof.
  intros Hw Hc Ha He.
  rewrite (generation_clicked B P File W transcript s c Hw Hc). cbv zeta.
  now rewrite Ha, He.
Qed.

(** The provider cannot be reached. *)
Lemma generation_reports_failure_example :
  attempt example_builtins unreachable a_client (lit "gpt-4o-mini")
    transcript_v2 = Raise APIConnectionError /\
  generation example_builtins unreachable unit (pasted transcript_v2 true)
    transcript_v2 probed
  = (Raise StopException,
     shown [st_error (lit "Failed to generate minutes. Error: Connection error.")]
       (with_error (Some (lit "Connection error."))
          (after_completion a_client transcript_v2 probed))).
Proof.
  split; [reflexivity|].
  exact (generation_reports_failure example_builtins unreachable unit
           (pasted transcript_v2 true) transcript_v2 probed a_client
           APIConnectionError eq_refl eq_refl eq_refl eq_refl).
Defined.

(** X25: a generation that succeeds with a summary containing the
    phrase [Could not automatically generate minutes] is taken for a
    failure: the run shows the failure message, with whatever
    [last_error] holds or the stock sentence, and stops; the minutes
    just generated are dropped and the kept ones are untouched. *)
Theorem sentinel_phrase_false_alarm (B : Builtins) (P : Provider)
    (File : Type) (W : Widgets File) (transcript : str) (s : Session)
    (c : OpenAI) (rec : MinutesRecord) :
  generate_clicked W = true ->
  client (instance s) = Some c ->
  attempt B P c (model (instance s)) transcript = Return (to_dict rec) ->
  contains failure_phrase (summary rec) = true ->
  generation B P File W transcript s
  = (Raise StopException,
     shown [failure_report (last_error (instance s))]
       (after_completion c transcript s)).
Proof.
  intros Hw Hc Ha Hp.
  rewrite (generation_clicked B P File W transcript s c Hw Hc). cbv zeta.
  now rewrite Ha, signals_failure_of_record, Hp.
Qed.

(** A summary that quotes the phrase. *)
Lemma sentinel_phrase_false_alarm_example :
  attempt example_builtins answering_alarming a_client (lit "gpt-4o-mini")
    transcript_v2
  = Return (to_dict
      {| summary :=
           lit "Bob said: Could not automatically generate minutes by hand.";
         participants := [lit "Bob"]; discussion_points := [];
         outcomes_or_decisions := []; next_steps := [] |}) /\
  generation example_builtins answering_alarming unit
    (pasted transcript_v2 true) transcript_v2 probed
  = (Raise StopException,
     shown [st_error (lit "Failed to generate minutes. Error: The AI could not process this transcript.")]
       (after_completion a_client transcript_v2 probed)).
Proof.
  split; [reflexivity|].
  exact (sentinel_phrase_false_alarm example_builtins answering_alarming unit
           (pasted transcript_v2 true) transcript_v2 probed a_client
           {| summary :=
                lit "Bob said: Could not automatically generate minutes by hand.";
              participants := [lit "Bob"]; discussion_points := [];
              outcomes_or_decisions := []; next_steps := [] |}
           eq_refl eq_refl eq_refl eq_refl).
Defined.
